(** * smarthubp: a shallow embedding of the SmartHub reading-service decoder

    The development follows the Python package module by module:
    - [Py]           the fragment of Python's data model the package relies on
                     (exceptions, list indexing, [str] methods, [int()]);
    - [Base64]       [base64.b64decode] / [base64.b64encode] with [altchars];
    - [TimeUtils]    [smarthubp/time_utils.py];
    - [Parse]        [smarthubp/parse.py];
    - [ReadingSvc]   [smarthubp/reading_service.py] (the list-format factory);
    - [ReadingSvcMethods]  the class [ReadingService] of the same file.
    The vocabulary of the statements and the data of the repository's tests
    follow; then come the test vectors run on the model, the facts about
    each module, the claims, and further properties of the code; the
    claims on back-references and on names that outnumber the lists stand
    behind the facts on whole lists and on the dictionary they rest on.

    Conventions of the model:
    - a Python function is a function into [result]: a value or the
      exception that leaves the call;
    - tokens are Python [str] values with code points below 256,
      represented by the sequence of their code points ([string]);
    - the interpreter is CPython 3.11 on Linux, 3.10 being
      [python_requires] of [setup.py], and [assert] statements are
      executed;
    - the clock of the host gives the offset of local time from UTC at
      each instant ([LocalClock]); a host that keeps one offset is a
      [LocalZone]; a naive [datetime] is the count of seconds its wall
      clock shows, with its [fold];
    - [float] is left open ([FloatModel]): readings are parsed and carried;
      the one computation on them, the subtraction of
      [apply_subtractive_meter], is left open as well ([FloatArith]);
    - the log holds the records of [logging.warning]; the [debug] record of
      [_transform_data_to_list] is not kept;
    - the names [time_offset] of the three modules are separate bindings
      ([Globals]). *)

From Stdlib Require Import ZArith List String Ascii Bool Lia Arith.
Import ListNotations.
Local Open Scope string_scope.
Local Open Scope list_scope.
Local Open Scope Z_scope.


(* ===================================================================== *)
(** * Python fragment                                                     *)
(* ===================================================================== *)

Module Py.

(** Exceptions the package can raise or let through.  [OutOfFuel] is not a
    Python exception: it is what a bounded loop of the model answers when
    its bound is too small; the lemmas of [PerMeterFacts] and
    [Termination] show that the bounds used by the embedded functions never
    are. *)
Inductive exn : Type :=
| IndexError
| ValueError
| OverflowError
| OSError
| BinasciiError
| AssertionError
| InvalidMetadata
| InvalidData
| OutOfFuel.

Definition exn_eqb (a b : exn) : bool :=
  match a, b with
  | IndexError, IndexError | ValueError, ValueError
  | OverflowError, OverflowError | OSError, OSError
  | BinasciiError, BinasciiError | AssertionError, AssertionError
  | InvalidMetadata, InvalidMetadata | InvalidData, InvalidData
  | OutOfFuel, OutOfFuel => true
  | _, _ => false
  end.

Inductive result (A : Type) : Type :=
| OK (a : A)
| Raise (e : exn).

Arguments OK {A} a.
Arguments Raise {A} e.

Definition bind {A B} (m : result A) (k : A -> result B) : result B :=
  match m with
  | OK a => k a
  | Raise e => Raise e
  end.

Definition of_option {A} (e : exn) (o : option A) : result A :=
  match o with
  | Some a => OK a
  | None => Raise e
  end.

Definition succeeds {A} (m : result A) : Prop := exists a, m = OK a.

(** Records handed to [logging.warning]: a fixed message, or the f-string
    [f"Remaining lists: {meter_names}"] with the list it formats. *)
Inductive log_record : Type :=
| Warning (msg : string)
| WarningRemaining (meter_names : list string).

End Py.

Export Py.

Declare Scope py_scope.
Delimit Scope py_scope with py.
Notation "x <- m ;; k" := (bind m (fun x => k))
  (at level 61, m at next level, right associativity) : py_scope.
Notation "' p <- m ;; k" := (bind m (fun x => match x with p => k end))
  (at level 61, p pattern, m at next level, right associativity) : py_scope.
Local Open Scope py_scope.

(** ** Sequences *)

Section Sequences.
Context {A : Type}.

(** [l[i]]: a negative index counts from the end; anything outside
    [-len(l) <= i < len(l)] raises [IndexError]. *)
Definition py_getitem (l : list A) (i : Z) : result A :=
  let n := Z.of_nat (List.length l) in
  let k := if i <? 0 then i + n else i in
  if (0 <=? k) && (k <? n)
  then of_option IndexError (nth_error l (Z.to_nat k))
  else Raise IndexError.

(** [l[a:b]] for [0 <= a] and [0 <= b]. *)
Definition py_slice (l : list A) (a b : nat) : list A :=
  skipn a (firstn b l).

(** [l.pop()]: the last element and the list without it. *)
Definition py_pop (l : list A) : result (A * list A) :=
  match rev l with
  | [] => Raise IndexError
  | x :: r => OK (x, rev r)
  end.

(** [zip(l, l[1:])]. *)
Fixpoint zip_next (l : list A) : list (A * A) :=
  match l with
  | a :: ((b :: _) as t) => (a, b) :: zip_next t
  | _ => []
  end.

(** [[i for i, n in enumerate(l) if p(n)]], counting from [k]. *)
Fixpoint indices_where (p : A -> bool) (k : nat) (l : list A) : list nat :=
  match l with
  | [] => []
  | x :: t => if p x then k :: indices_where p (S k) t
              else indices_where p (S k) t
  end.

(** [l.index(x)]: position of the first element satisfying [p]. *)
Fixpoint index_where (p : A -> bool) (k : nat) (l : list A) : option nat :=
  match l with
  | [] => None
  | x :: t => if p x then Some k else index_where p (S k) t
  end.
End Sequences.

(** ** Strings *)

(** [sub in s]. *)
Fixpoint str_in (sub s : string) : bool :=
  if String.prefix sub s then true
  else match s with
       | EmptyString => false
       | String _ t => str_in sub t
       end.

Fixpoint drop_last (s : string) : string :=
  match s with
  | EmptyString => EmptyString
  | String c EmptyString => EmptyString
  | String c t => String c (drop_last t)
  end.

(** [s[1:-1]]. *)
Definition strip_quotes (s : string) : string :=
  match s with
  | EmptyString => EmptyString
  | String _ t => drop_last t
  end.

(** Characters below 256 for which [str.isspace] holds: the ASCII
    whitespace, the separators 28 to 31, NEL and the no-break space. *)
Definition is_space (c : ascii) : bool :=
  let n := nat_of_ascii c in
  ((9 <=? n) && (n <=? 13) || (28 <=? n) && (n <=? 32)
   || (n =? 133) || (n =? 160))%nat.

Fixpoint lstrip_ws (s : string) : string :=
  match s with
  | String c t => if is_space c then lstrip_ws t else s
  | EmptyString => EmptyString
  end.

Fixpoint string_rev_acc (s acc : string) : string :=
  match s with
  | EmptyString => acc
  | String c t => string_rev_acc t (String c acc)
  end.

Definition string_rev (s : string) : string := string_rev_acc s EmptyString.

Definition rstrip_ws (s : string) : string :=
  string_rev (lstrip_ws (string_rev s)).

(** [s.strip()]. *)
Definition py_strip (s : string) : string := rstrip_ws (lstrip_ws s).

Fixpoint lstrip_char (c : ascii) (s : string) : string :=
  match s with
  | String d t => if Ascii.eqb d c then lstrip_char c t else s
  | EmptyString => EmptyString
  end.

(** [s.rstrip(c)] for a one-character argument. *)
Definition py_rstrip_char (c : ascii) (s : string) : string :=
  string_rev (lstrip_char c (string_rev s)).

Fixpoint drop (n : nat) (s : string) : string :=
  match n, s with
  | O, _ => s
  | S m, String _ t => drop m t
  | S _, EmptyString => EmptyString
  end.

Fixpoint take (n : nat) (s : string) : string :=
  match n, s with
  | O, _ => EmptyString
  | S m, String c t => String c (take m t)
  | S _, EmptyString => EmptyString
  end.

(** [s.replace(old, new)] for a non-empty [old]: non-overlapping
    occurrences, leftmost first.  [fuel] bounds the recursion by the length
    of [s]. *)
Fixpoint replace_fuel (fuel : nat) (old new s : string) : string :=
  match fuel with
  | O => s
  | S f =>
      match s with
      | EmptyString => EmptyString
      | String c t =>
          if String.prefix old s
          then (new ++ replace_fuel f old new (drop (String.length old) s))%string
          else String c (replace_fuel f old new t)
      end
  end.

Definition py_replace (old new s : string) : string :=
  replace_fuel (String.length s) old new s.

(** [s.split(c)] for a one-character separator. *)
Fixpoint split_acc (c : ascii) (s : string) (cur : string) : list string :=
  match s with
  | EmptyString => [string_rev cur]
  | String d t =>
      if Ascii.eqb d c then string_rev cur :: split_acc c t EmptyString
      else split_acc c t (String d cur)
  end.

Definition py_split (c : ascii) (s : string) : list string :=
  split_acc c s EmptyString.

(** [s.rfind(c)] for a one-character argument; [-1] when absent. *)
Fixpoint rfind_from (c : ascii) (s : string) (k : Z) (last : Z) : Z :=
  match s with
  | EmptyString => last
  | String d t => rfind_from c t (k + 1) (if Ascii.eqb d c then k else last)
  end.

Definition py_rfind (c : ascii) (s : string) : Z := rfind_from c s 0 (-1).

(** [s[-1]]. *)
Fixpoint last_char (s : string) : result ascii :=
  match s with
  | EmptyString => Raise IndexError
  | String c EmptyString => OK c
  | String _ t => last_char t
  end.

(** ** [int(s)] on a [str] *)

Definition digit_val (c : ascii) : option Z :=
  let n := nat_of_ascii c in
  if ((48 <=? n) && (n <=? 57))%nat then Some (Z.of_nat n - 48) else None.

(** Decimal digits, single underscores allowed between digits.
    [prev_digit] tells whether the previous character was a digit. *)
Fixpoint parse_digits (s : string) (acc : Z) (prev_digit : bool) : option Z :=
  match s with
  | EmptyString => if prev_digit then Some acc else None
  | String c t =>
      match digit_val c with
      | Some d => parse_digits t (10 * acc + d) true
      | None =>
          if Ascii.eqb c "_" && prev_digit
          then match t with
               | String c' _ =>
                   match digit_val c' with
                   | Some _ => parse_digits t acc false
                   | None => None
                   end
               | EmptyString => None
               end
          else None
      end
  end.

(** The whitespace [int] and [float] skip around a literal: C's
    [isspace] below 127 (the separators 28 to 31 are not in it), and the
    whitespace above, which the conversion of a [str] turns into blanks. *)
Definition is_literal_space (c : ascii) : bool :=
  let n := nat_of_ascii c in
  ((9 <=? n) && (n <=? 13) || (n =? 32) || (n =? 133) || (n =? 160))%nat.

Fixpoint lstrip_literal (s : string) : string :=
  match s with
  | String c t => if is_literal_space c then lstrip_literal t else s
  | EmptyString => EmptyString
  end.

Definition strip_literal (s : string) : string :=
  string_rev (lstrip_literal (string_rev (lstrip_literal s))).

Fixpoint count_digits (s : string) : nat :=
  match s with
  | EmptyString => O
  | String c t =>
      match digit_val c with
      | Some _ => S (count_digits t)
      | None => count_digits t
      end
  end.

(** [sys.get_int_max_str_digits()], as the interpreter starts. *)
Definition INT_MAX_STR_DIGITS : nat := 4300.

Definition py_int (s : string) : result Z :=
  of_option ValueError
    (let s := strip_literal s in
     if (INT_MAX_STR_DIGITS <? count_digits s)%nat then None
     else match s with
          | String "-" t => option_map Z.opp (parse_digits t 0 false)
          | String "+" t => parse_digits t 0 false
          | t => parse_digits t 0 false
          end).

(* ===================================================================== *)
(** * [base64] with alternative characters                                *)
(* ===================================================================== *)

Module Base64.

(** [binascii]'s decoding table: the value of a character of the standard
    alphabet, [None] for every other byte. *)
Definition table_a2b (c : ascii) : option Z :=
  let n := Z.of_nat (nat_of_ascii c) in
  if (65 <=? n) && (n <=? 90) then Some (n - 65)
  else if (97 <=? n) && (n <=? 122) then Some (n - 71)
  else if (48 <=? n) && (n <=? 57) then Some (n + 4)
  else if n =? 43 then Some 62
  else if n =? 47 then Some 63
  else None.

(** [binascii]'s encoding table. *)
Definition table_b2a (v : Z) : ascii :=
  ascii_of_nat (Z.to_nat
    (if v <? 26 then v + 65
     else if v <? 52 then v + 71
     else if v <? 62 then v - 4
     else if v =? 62 then 43 else 47)).

Definition BASE64_PAD : ascii := "="%char.

(** [bytes.translate(bytes.maketrans(from, to))] for two-byte tables. *)
Definition translate1 (f1 f2 t1 t2 : ascii) (c : ascii) : ascii :=
  if Ascii.eqb c f1 then t1 else if Ascii.eqb c f2 then t2 else c.

Fixpoint translate (f1 f2 t1 t2 : ascii) (s : string) : string :=
  match s with
  | EmptyString => EmptyString
  | String c t => String (translate1 f1 f2 t1 t2 c) (translate f1 f2 t1 t2 t)
  end.

(** [binascii.a2b_base64(s, strict_mode=False)]: bytes outside the alphabet
    are skipped, a pad character ends the input once the current quad has
    at least two characters and the pads complete it, and the input is
    rejected only when a quad is left incomplete.  [bin] is the output so
    far, each byte as an integer in [0, 256). *)
Fixpoint a2b_base64 (s : string) (quad_pos : nat) (leftchar : Z) (pads : Z)
         (bin : list Z) : result (list Z) :=
  match s with
  | EmptyString =>
      match quad_pos with
      | O => OK bin
      | _ => Raise BinasciiError
      end
  | String c rest =>
      if Ascii.eqb c BASE64_PAD then
        if (2 <=? quad_pos)%nat then
          if 4 <=? Z.of_nat quad_pos + (pads + 1) then OK bin
          else a2b_base64 rest quad_pos leftchar (pads + 1) bin
        else a2b_base64 rest quad_pos leftchar pads bin
      else
        match table_a2b c with
        | None => a2b_base64 rest quad_pos leftchar pads bin
        | Some this_ch =>
            match quad_pos with
            | 0%nat => a2b_base64 rest 1 this_ch 0 bin
            | 1%nat =>
                a2b_base64 rest 2 (Z.land this_ch 15) 0
                  (bin ++ [Z.land (Z.lor (Z.shiftl leftchar 2)
                                         (Z.shiftr this_ch 4)) 255])
            | 2%nat =>
                a2b_base64 rest 3 (Z.land this_ch 3) 0
                  (bin ++ [Z.land (Z.lor (Z.shiftl leftchar 4)
                                         (Z.shiftr this_ch 2)) 255])
            | _ =>
                a2b_base64 rest 0 0 0
                  (bin ++ [Z.land (Z.lor (Z.shiftl leftchar 6) this_ch) 255])
            end
        end
  end.

(** [base64.b64decode(s, altchars=b"$_")] with the default
    [validate=False]: the two alternative characters are mapped to ['+']
    and ['/'] and the result is handed to [a2b_base64]. *)
Definition b64decode (s : string) : result (list Z) :=
  a2b_base64 (translate "$" "_" "+" "/" s) 0 0 0 [].

(** [binascii.b2a_base64(bin, newline=False)]. *)
Fixpoint b2a_base64 (bin : list Z) : string :=
  match bin with
  | [] => EmptyString
  | [a] =>
      String (table_b2a (Z.shiftr a 2))
     (String (table_b2a (Z.shiftl (Z.land a 3) 4))
     (String BASE64_PAD (String BASE64_PAD EmptyString)))
  | [a; b] =>
      String (table_b2a (Z.shiftr a 2))
     (String (table_b2a (Z.lor (Z.shiftl (Z.land a 3) 4) (Z.shiftr b 4)))
     (String (table_b2a (Z.shiftl (Z.land b 15) 2))
     (String BASE64_PAD EmptyString)))
  | a :: b :: c :: rest =>
      String (table_b2a (Z.shiftr a 2))
     (String (table_b2a (Z.lor (Z.shiftl (Z.land a 3) 4) (Z.shiftr b 4)))
     (String (table_b2a (Z.lor (Z.shiftl (Z.land b 15) 2) (Z.shiftr c 6)))
     (String (table_b2a (Z.land c 63)) (b2a_base64 rest))))
  end.

(** [base64.b64encode(bin, altchars=b"$_")]. *)
Definition b64encode (bin : list Z) : string :=
  translate "+" "/" "$" "_" (b2a_base64 bin).

(** [int.from_bytes(bin, "big")]. *)
Definition int_from_bytes (bin : list Z) : Z :=
  fold_left (fun acc b => acc * 256 + b) bin 0.

(** [n.to_bytes(8, "big")]. *)
Definition to_bytes8 (n : Z) : result (list Z) :=
  if (n <? 0) || (2 ^ 64 <=? n) then Raise OverflowError
  else OK (map (fun k => Z.land (Z.shiftr n (8 * k)) 255) [7; 6; 5; 4; 3; 2; 1; 0]).

End Base64.

(* ===================================================================== *)
(** * [smarthubp/time_utils.py]                                           *)
(* ===================================================================== *)

(** The clock of the host: the offset from UTC, in seconds (east
    positive), that the local time zone has at the instant [u] seconds
    after 1970-01-01T00:00:00Z, the [tm_gmtoff] of C [localtime].  The
    zones of the tz database keep it strictly within a day. *)
Class LocalClock : Type := {
  utcoffset_at : Z -> Z;
  utcoffset_at_bound : forall u, -86400 < utcoffset_at u < 86400
}.

(** A host whose zone keeps one offset from UTC at all times. *)
Class LocalZone : Type := {
  utcoffset : Z;
  utcoffset_bound : -86400 < utcoffset < 86400
}.

#[global] Instance fixed_clock `{LocalZone} : LocalClock :=
  {| utcoffset_at := fun _ => utcoffset;
     utcoffset_at_bound := fun _ => utcoffset_bound |}.

Coercion fixed_clock : LocalZone >-> LocalClock.

(** A naive [datetime] with a zero microsecond field: the seconds between
    1970-01-01T00:00:00 and the wall-clock time it shows, and the attribute
    [fold] that tells the second of two equal wall-clock times apart. *)
Record datetime : Type := { wall : Z; fold : bool }.

(** A [datetime] built from its fields: [fold] is 0. *)
Definition mkdatetime (w : Z) : datetime := {| wall := w; fold := false |}.

(** [datetime.min] and [datetime.max] (to the second) on that scale. *)
Definition MIN_WALL : Z := -62135596800.
Definition MAX_WALL : Z := 253402300799.

Definition wall_in_range (w : Z) : bool := (MIN_WALL <=? w) && (w <=? MAX_WALL).

(** The local times C [localtime] gives: those whose year fits [tm_year],
    an [int] (glibc), as seconds on the scale of [wall]. *)
Definition LOCALTIME_MIN : Z := -67768040609740800.
Definition LOCALTIME_MAX : Z := 67768036191676799.

(** The names bound at module level that hold the hour offset.  The
    statement [from smarthubp.time_utils import time_offset] binds a name
    of the importing module to the object [time_utils.time_offset] holds at
    that moment, so each importing module has a binding of its own. *)
Record Globals : Type := mkGlobals {
  time_utils_time_offset : Z;
  parse_time_offset : Z;
  reading_service_time_offset : Z
}.

Module TimeUtils.

Import Base64.

(** [time_offset = 0], executed when [time_utils] is imported. *)
Definition module_body (g : Globals) : Globals :=
  mkGlobals 0 (parse_time_offset g) (reading_service_time_offset g).

(** [local(u)] of [_datetimemodule.c]: the wall-clock time the local
    clock shows at the instant [u]; [ValueError] when its year is outside
    [1, 9999].  It is called on instants within two days of a time of the
    calendar, which [localtime] converts. *)
Definition local `{LocalClock} (u : Z) : result Z :=
  let w := u + utcoffset_at u in
  if wall_in_range w then OK w else Raise ValueError.

Definition max_fold_seconds : Z := 24 * 3600.

(** [datetime.fromtimestamp(t)] for an [int]: [OverflowError] outside
    [time_t], [OSError] when [localtime] fails, the year of the local time
    not fitting [tm_year], [ValueError] when the year is outside
    [1, 9999].  The local time a day before is probed to find out whether
    the wall-clock time is shown for the second time. *)
Definition fromtimestamp `{LocalClock} (t : Z) : result datetime :=
  if (t <? - 2 ^ 63) || (2 ^ 63 <=? t) then Raise OverflowError
  else if (t + utcoffset_at t <? LOCALTIME_MIN)
          || (LOCALTIME_MAX <? t + utcoffset_at t) then Raise OSError
  else
    result_seconds <- local t ;;
    probe_seconds <- local (t - max_fold_seconds) ;;
    let transition := result_seconds - probe_seconds - max_fold_seconds in
    if transition <? 0
    then probe_seconds <- local (t + transition) ;;
         OK {| wall := result_seconds;
               fold := probe_seconds =? result_seconds |}
    else OK {| wall := result_seconds; fold := false |}.

(** [local_to_seconds] of [_datetimemodule.c]: an instant [u] at which
    the local clock shows the wall-clock time [t], the earlier or the
    later of two by [fold]; for a time the clock skips, an instant next to
    the gap. *)
Definition local_to_seconds `{LocalClock} (t : Z) (fold : bool) : result Z :=
  lt <- local t ;;
  let a := lt - t in
  let u1 := t - a in
  t1 <- local u1 ;;
  let second_offset (b : Z) : result Z :=
    let u2 := t - b in
    t2 <- local u2 ;;
    if t2 =? t then OK u2
    else if t1 =? t then OK u1
    else OK (if fold then Z.min u1 u2 else Z.max u1 u2) in
  if t1 =? t
  then
    let u2 := if fold then u1 + max_fold_seconds
              else u1 - max_fold_seconds in
    lt <- local u2 ;;
    let b := lt - u2 in
    if a =? b then OK u1 else second_offset b
  else second_offset (t1 - u1).

(** [int(d.timestamp())] for a naive [d]. *)
Definition int_timestamp `{LocalClock} (d : datetime) : result Z :=
  local_to_seconds (wall d) (fold d).

(** [d + timedelta(hours=h)]: the sum has [fold] 0. *)
Definition add_hours (d : datetime) (h : Z) : result datetime :=
  let w := wall d + 3600 * h in
  if wall_in_range w then OK (mkdatetime w) else Raise OverflowError.

Definition timestamp_from_encoded `{LocalClock} (ts_str : string)
  : result datetime :=
  let byte_str := (ts_str ++ "==")%string in
  byte_str <- b64decode byte_str ;;
  let msec4epoch := int_from_bytes byte_str in
  fromtimestamp (msec4epoch / 250).

Definition encoded_from_timestamp `{LocalClock} (timestamp : datetime)
  : result string :=
  sec_from_epoch <- int_timestamp timestamp ;;
  let msec4epoch := sec_from_epoch * 250 in
  byte_str <- to_bytes8 msec4epoch ;;
  OK (b64encode byte_str).

(** [global time_offset; time_offset = hours]: rebinds the name of
    [time_utils] only. *)
Definition set_import_time_offset (hours : Z) (g : Globals) : Globals :=
  mkGlobals hours (parse_time_offset g) (reading_service_time_offset g).

End TimeUtils.

(* ===================================================================== *)
(** * [smarthubp/meter_reading.py]                                        *)
(* ===================================================================== *)

(** Python's [float] and the constructor [float(s)] on a [str].  The
    decoder only carries readings around, so the carrier is left open. *)
Class FloatModel : Type := {
  float : Type;
  float_of_str : string -> option float
}.

(** [float(s)]: [ValueError] when [s] is not a float literal. *)
Definition py_float `{FloatModel} (s : string) : result float :=
  of_option ValueError (float_of_str s).

Section MeterReadingDef.
Context `{FloatModel}.

Record MeterReading : Type := mkMeterReading {
  timestamp : datetime;
  kwh : float
}.
End MeterReadingDef.

Arguments MeterReading {_}.
Arguments mkMeterReading {_} timestamp kwh.

(* ===================================================================== *)
(** * [smarthubp/parse.py]                                                *)
(* ===================================================================== *)

Module Parse.

Import TimeUtils.

Definition UNEXPECTED_EXIT_COMBINED_LIST : string :=
  "Unexpected exit from combined list processing.".

(** [from smarthubp.time_utils import timestamp_from_encoded, time_offset],
    executed when [parse] is imported: the name [time_offset] of [parse] is
    bound to the value [time_utils.time_offset] has then. *)
Definition module_body (g : Globals) : Globals :=
  mkGlobals (time_utils_time_offset g) (time_utils_time_offset g)
            (reading_service_time_offset g).

(** [while idx >= 0 and not stop(csvd[idx]): idx -= 1], entered with
    [idx = n - 1]. *)
Fixpoint scan_down (stop : string -> bool) (csvd : list string) (n : nat)
  : result Z :=
  match n with
  | O => OK (-1)
  | S m =>
      tok <- py_getitem csvd (Z.of_nat m) ;;
      if stop tok then OK (Z.of_nat m) else scan_down stop csvd m
  end.

Definition scan_back (stop : string -> bool) (csvd : list string) (idx : Z)
  : result Z :=
  if idx <? 0 then OK idx else scan_down stop csvd (Z.to_nat (idx + 1)).

Definition is_9_or_11 (tok : string) : bool :=
  String.eqb tok "9" || String.eqb tok "11".

Definition is_8_24_3 (tok : string) : bool :=
  String.eqb tok "8" || String.eqb tok "24" || String.eqb tok "3".

Section Decoders.
Context `{LocalClock} `{FloatModel}.

(** The [while idx >= 0] loop of [_read_combined].  The answer carries
    the warnings logged and the list [ret] before it is reversed. *)
Fixpoint read_combined_loop (fuel : nat) (csvd : list string) (idx : Z)
         (ret : list MeterReading)
  : result (list log_record * list MeterReading) :=
  if idx <? 0 then OK ([], ret)
  else
    match fuel with
    | O => Raise OutOfFuel
    | S fuel =>
        idx <- scan_back is_9_or_11 csvd idx ;;
        if idx <? 0 then OK ([Warning UNEXPECTED_EXIT_COMBINED_LIST], ret)
        else
          before <- py_getitem csvd (idx - 2) ;;
          if negb (String.eqb before "10")
          then OK ([Warning UNEXPECTED_EXIT_COMBINED_LIST], ret)
          else
            tok <- py_getitem csvd idx ;;
            if String.eqb tok "11" then OK ([], ret)
            else
              enc <- py_getitem csvd (idx - 1) ;;
              ts <- timestamp_from_encoded enc ;;
              val <- py_getitem csvd (idx - 3) ;;
              k <- py_float val ;;
              read_combined_loop fuel csvd (idx - 1)
                (ret ++ [mkMeterReading ts k])
    end.

Definition _read_combined (csvd : list string)
  : result (list log_record * list MeterReading) :=
  let idx := Z.of_nat (List.length csvd) - 1 in
  '(log, ret) <- read_combined_loop (List.length csvd) csvd idx [] ;;
  OK (log, rev ret).

(** [j = (int(csvd[idx]) // 3) + 2] followed by [combined_readings[j]]
    (lines 87-88 and 96-97). *)
Definition combined_ref (csvd : list string)
           (combined_readings : list MeterReading) (idx : Z)
  : result MeterReading :=
  tok <- py_getitem csvd idx ;;
  v <- py_int tok ;;
  let j := v / 3 + 2 in
  py_getitem combined_readings j.

(** One pass through the body of the loop of [_get_list_readings] after
    the [break] test, entered with [idx] on an entry terminator. *)
Definition read_entry (g : Globals) (csvd : list string)
           (combined_readings : list MeterReading) (idx : Z)
  : result (Z * MeterReading) :=
  let idx := idx - 6 in
  tok <- py_getitem csvd idx ;;
  '(ts, idx) <-
     (if String.eqb tok "9"
      then enc <- py_getitem csvd (idx - 1) ;;
           ts <- timestamp_from_encoded enc ;;
           OK (ts, idx - 2)
      else r <- combined_ref csvd combined_readings idx ;;
           OK (timestamp r, idx - 1)) ;;
  ts <- add_hours ts (parse_time_offset g) ;;
  tok <- py_getitem csvd idx ;;
  k <- (if String.eqb tok "10"
        then val <- py_getitem csvd (idx - 1) ;; py_float val
        else r <- combined_ref csvd combined_readings idx ;; OK (kwh r)) ;;
  OK (idx, mkMeterReading ts k).

Fixpoint get_list_loop (fuel : nat) (g : Globals) (csvd : list string)
         (combined_readings : list MeterReading) (idx : Z)
         (readings : list MeterReading)
  : result (Z * list MeterReading) :=
  if idx <? 0 then OK (idx, readings)
  else
    match fuel with
    | O => Raise OutOfFuel
    | S fuel =>
        idx <- scan_back is_8_24_3 csvd idx ;;
        if idx <? 8 then OK (idx, readings)
        else
          tok <- py_getitem csvd idx ;;
          if negb (String.eqb tok "8") then OK (idx, readings)
          else
            '(idx, r) <- read_entry g csvd combined_readings idx ;;
            get_list_loop fuel g csvd combined_readings idx
              (readings ++ [r])
    end.

Definition _get_list_readings (g : Globals) (csvd : list string) (idx : Z)
           (combined_readings : list MeterReading)
  : result (Z * list MeterReading) :=
  get_list_loop (Z.to_nat (idx + 1)) g csvd combined_readings idx [].

(** [while csvd[idx] != '8': idx -= 1]: no lower bound, so the scan
    goes on through the negative indices and ends in [IndexError] below
    [-len(csvd)]. *)
Fixpoint scan_to_8 (fuel : nat) (csvd : list string) (idx : Z) : result Z :=
  tok <- py_getitem csvd idx ;;
  if String.eqb tok "8" then OK idx
  else
    match fuel with
    | O => Raise OutOfFuel
    | S fuel => scan_to_8 fuel csvd (idx - 1)
    end.

(** The generator [meter_reading_generator] as a pull-based machine: its
    state is the scan position. *)
Definition generator_start (csvd : list string) : result Z :=
  scan_back (fun tok => String.eqb tok "24") csvd
            (Z.of_nat (List.length csvd) - 1).

Definition generator_next (g : Globals) (csvd : list string)
           (combined_readings : list MeterReading) (idx : Z)
  : result (option (list MeterReading * Z)) :=
  if idx <? 0 then OK None
  else
    tok <- py_getitem csvd idx ;;
    if String.eqb tok "3" then OK None
    else if negb (String.eqb tok "24") then Raise AssertionError
    else
      idx <- scan_to_8 (Z.to_nat (idx + Z.of_nat (List.length csvd) + 1))
                       csvd idx ;;
      '(idx, reading_list) <- _get_list_readings g csvd idx combined_readings ;;
      OK (Some (reading_list, idx)).
End Decoders.

(** The scan of one metadata segment ([for v in meta_csv[start+2:end]]);
    the state is [(ret, meter_name, submeter_names)]. *)
Fixpoint segment_loop (vs : list string) (ret : list string)
         (meter_name : string) (submeter_names : list string)
  : list string * string * list string :=
  match vs with
  | [] => (ret, meter_name, submeter_names)
  | v :: vs =>
      if str_in "." v then segment_loop vs ret meter_name submeter_names
      else if str_in "#" v then segment_loop vs ret meter_name submeter_names
      else
        let v := strip_quotes v in
        if str_in meter_name v
        then segment_loop vs ret meter_name (submeter_names ++ [v])
        else if str_in "-" v
        then segment_loop vs ret meter_name submeter_names
        else
          match submeter_names with
          | [] => segment_loop vs (ret ++ [meter_name]) v []
          | _ => segment_loop vs (ret ++ submeter_names) v []
          end
  end.

(** [for start, end in zip(indices, indices[1:])]. *)
Fixpoint segments_loop (meta_csv : list string) (pairs : list (nat * nat))
         (ret : list string) : result (list string) :=
  match pairs with
  | [] => OK ret
  | (start, end_) :: pairs =>
      first <- py_getitem meta_csv (Z.of_nat start + 1) ;;
      let meter_name := strip_quotes first in
      let '(ret, meter_name, submeter_names) :=
        segment_loop (py_slice meta_csv (start + 2) end_) ret meter_name [] in
      match submeter_names with
      | [] => segments_loop meta_csv pairs (ret ++ [meter_name])
      | _ => segments_loop meta_csv pairs (ret ++ submeter_names)
      end
  end.

Definition dq : ascii := "034"%char.

(** The token ["column"], quotation marks included. *)
Definition COLUMN : string := String dq ("column" ++ String dq EmptyString).

Definition _extract_meters (meta_csv : list string) : result (list string) :=
  let indices := indices_where (str_in "+") 0 meta_csv in
  match indices with
  | [] => Raise InvalidMetadata
  | _ =>
      match index_where (String.eqb COLUMN) 0 meta_csv with
      | None => Raise InvalidMetadata
      | Some c =>
          let indices := indices ++ [c] in
          segments_loop meta_csv (zip_next indices) []
      end
  end.

End Parse.

(* ===================================================================== *)
(** * [smarthubp/reading_service.py]: the list-format factory             *)
(* ===================================================================== *)

Module ReadingSvc.

Import TimeUtils Parse.

(** [from smarthubp.time_utils import time_offset], executed when
    [reading_service] is imported (after [parse], which it imports). *)
Definition module_body (g : Globals) : Globals :=
  mkGlobals (time_utils_time_offset g) (parse_time_offset g)
            (time_utils_time_offset g).

(** [s[a:b]] on a [str], negative bounds counting from the end. *)
Definition clamp_index (len i : Z) : Z :=
  if i <? 0 then Z.max 0 (i + len) else Z.min i len.

Definition py_substr (s : string) (a b : Z) : string :=
  let len := Z.of_nat (String.length s) in
  let a := clamp_index len a in
  let b := clamp_index len b in
  if a <? b then take (Z.to_nat (b - a)) (drop (Z.to_nat a) s)
  else EmptyString.

Definition _transform_data_to_list (data : string)
  : result (list string * list string) :=
  if negb (String.eqb (py_substr data 0 5) "//OK[") then Raise InvalidData
  else
    let data := py_strip data in
    let data := py_replace "].concat([" "," data in
    let data := py_replace "]).concat([" "," data in
    let data := py_replace "],[" "," data in
    let data := py_rstrip_char ")" data in
    last <- last_char data ;;
    if negb (Ascii.eqb last "]") then Raise InvalidData
    else
      let metadata_start := py_rfind "[" data in
      if metadata_start =? 4 then Raise InvalidMetadata
      else
        meter_names <-
          _extract_meters (py_split "," (py_substr data metadata_start (-4))) ;;
        let meter_names := rev meter_names in
        let csvd := py_split "," (py_substr data 5 metadata_start) in
        OK (meter_names, csvd).

Section Service.
Context `{LocalClock} `{FloatModel}.

(** A [dict] keyed by meter name, in insertion order; assigning to a key
    already present replaces its value in place. *)
Definition dict : Type := list (string * list MeterReading).

Fixpoint dict_set (d : dict) (key : string) (v : list MeterReading) : dict :=
  match d with
  | [] => [(key, v)]
  | (k, w) :: d => if String.eqb k key then (k, v) :: d
                   else (k, w) :: dict_set d key v
  end.

Record ReadingService : Type := mkReadingService {
  combined : list MeterReading;
  meter : dict
}.

(** [{meter_names.pop(): reading_list for reading_list in reading_gen}]:
    each list pulled from the generator is stored under the name popped
    next.  The state is the generator's position, the names left and the
    dictionary built so far. *)
Fixpoint comprehension (fuel : nat) (g : Globals) (csvd : list string)
         (combined_readings : list MeterReading) (idx : Z)
         (meter_names : list string) (d : dict)
  : result (list string * dict) :=
  match fuel with
  | O => Raise OutOfFuel
  | S fuel =>
      nxt <- generator_next g csvd combined_readings idx ;;
      match nxt with
      | None => OK (meter_names, d)
      | Some (reading_list, idx) =>
          '(name, meter_names) <- py_pop meter_names ;;
          comprehension fuel g csvd combined_readings idx meter_names
                        (dict_set d name reading_list)
      end
  end.

(** What [list(meter_reading_generator(csvd, combined_readings))] is,
    from position [idx] on. *)
Fixpoint generator_all (fuel : nat) (g : Globals) (csvd : list string)
         (combined_readings : list MeterReading) (idx : Z)
  : result (list (list MeterReading)) :=
  match fuel with
  | O => Raise OutOfFuel
  | S fuel =>
      nxt <- generator_next g csvd combined_readings idx ;;
      match nxt with
      | None => OK []
      | Some (reading_list, idx) =>
          rest <- generator_all fuel g csvd combined_readings idx ;;
          OK (reading_list :: rest)
      end
  end.

Definition generator_fuel (csvd : list string) : nat :=
  S (S (List.length csvd)).

Definition MISMATCH : string :=
  "Identified more meters than could be matched to readings.  There may be a list mismatch.".

Definition readings_from_reading_service (g : Globals) (data : string)
  : result (list log_record * ReadingService) :=
  '(meter_names, csvd) <- _transform_data_to_list data ;;
  '(log, combined_readings) <- _read_combined csvd ;;
  idx <- generator_start csvd ;;
  '(meter_names, reading_lists) <-
     comprehension (generator_fuel csvd) g csvd combined_readings idx
                   meter_names [] ;;
  let log :=
    match meter_names with
    | [] => log
    | _ => log ++ [Warning MISMATCH; WarningRemaining meter_names]
    end in
  OK (log, mkReadingService combined_readings reading_lists).
End Service.

End ReadingSvc.

(* ===================================================================== *)
(** * [smarthubp/reading_service.py]: the class [ReadingService]          *)
(* ===================================================================== *)

(** Subtraction on [float], for [reading.kwh -= ...].  Like the carrier,
    the operation is left open. *)
Class FloatArith `{FloatModel} : Type := {
  fsub : float -> float -> float
}.

Module ReadingSvcMethods.

Import TimeUtils Parse ReadingSvc.

Section Methods.
Context `{LocalClock} `{FloatModel}.

(** [d[key]] on the dictionary of the service; [None] stands for
    [KeyError]. *)
Fixpoint dict_get (d : dict) (key : string) : option (list MeterReading) :=
  match d with
  | [] => None
  | (k, v) :: d => if String.eqb k key then Some v else dict_get d key
  end.

(** [ReadingService.__getitem__]. *)
Definition __getitem__ (self : ReadingService) (key : string)
  : option (list MeterReading) :=
  dict_get (meter self) key.

(** [ReadingService.meter_names]: the keys, in insertion order. *)
Definition meter_names (self : ReadingService) : list string :=
  map fst (meter self).

(** [[r.kwh for r in self.meter[meter_name]]]. *)
Definition get_rlist (self : ReadingService) (meter_name : string)
  : option (list float) :=
  option_map (map kwh) (dict_get (meter self) meter_name).

(** [[r.timestamp for r in self.meter[meter_name]]]. *)
Definition get_tslist (self : ReadingService) (meter_name : string)
  : option (list datetime) :=
  option_map (map timestamp) (dict_get (meter self) meter_name).

Definition get_combined (self : ReadingService) : list MeterReading :=
  combined self.

Context `{!FloatArith}.

(** [while subtractive_idx < len(subtractive) and
    subtractive[subtractive_idx].timestamp < reading.timestamp:
    subtractive_idx += 1], on the readings from [subtractive_idx] on. *)
Fixpoint advance_from (rest : list MeterReading) (ts : datetime) (idx : nat)
  : nat :=
  match rest with
  | [] => idx
  | s :: rest =>
      if wall (timestamp s) <? wall ts then advance_from rest ts (S idx)
      else idx
  end.

Definition advance (subtractive : list MeterReading) (ts : datetime)
           (idx : nat) : nat :=
  advance_from (skipn idx subtractive) ts idx.

(** [reading.kwh -= s.kwh]. *)
Definition subtract (reading s : MeterReading) : MeterReading :=
  mkMeterReading (timestamp reading) (fsub (kwh reading) (kwh s)).

(** The [for reading in primary] loop of [apply_subtractive_meter].  The
    readings are objects changed in place: [done] holds the readings of
    [primary] the loop has passed, as they are now, and [todo] those to
    come.  When both names are the same ([same]), [subtractive] is the
    list [primary] itself and shows the changes; otherwise it is another
    list, which shares no reading with [primary] in a service built by
    the factories.  The answer is [primary] as the call leaves it. *)
Fixpoint subtract_loop (same : bool) (done todo subtractive : list MeterReading)
         (subtractive_idx : nat) : list MeterReading :=
  match todo with
  | [] => done
  | reading :: rest =>
      let subtractive := if same then done ++ todo else subtractive in
      let subtractive_idx :=
        advance subtractive (timestamp reading) subtractive_idx in
      if (subtractive_idx =? List.length subtractive)%nat then done ++ todo
      else
        match nth_error subtractive subtractive_idx with
        | None => done ++ todo
        | Some s =>
            if wall (timestamp s) =? wall (timestamp reading)
            then subtract_loop same (done ++ [subtract reading s]) rest
                               subtractive subtractive_idx
            else subtract_loop same (done ++ [reading]) rest
                               subtractive subtractive_idx
        end
  end.

(** [ReadingService.apply_subtractive_meter]: the service after the call. *)
Definition apply_subtractive_meter (self : ReadingService)
           (primary_meter subtractive_meter : string) : ReadingService :=
  match dict_get (meter self) primary_meter,
        dict_get (meter self) subtractive_meter with
  | Some primary, Some subtractive =>
      mkReadingService (combined self)
        (dict_set (meter self) primary_meter
           (subtract_loop (String.eqb primary_meter subtractive_meter)
                          [] primary subtractive 0))
  | _, _ => self
  end.

End Methods.

End ReadingSvcMethods.

(* ===================================================================== *)
(** * Concrete hosts for running the model                                *)
(* ===================================================================== *)

Module Host.

(** A zone at a fixed offset. *)
Definition UTC : LocalZone.
Proof. refine {| utcoffset := 0 |}; lia. Defined.

(** US Central daylight time, the zone of the vectors in
    [tests/test_time_utils.py] that fall in summer. *)
Definition CDT : LocalZone.
Proof. refine {| utcoffset := -18000 |}; lia. Defined.

(** One hour east of UTC at all times (the zone [Etc/GMT-1]). *)
Definition GMT_plus_1 : LocalZone.
Proof. refine {| utcoffset := 3600 |}; lia. Defined.

(** [Europe/Berlin] around the year 2016: summer time, two hours east of
    UTC, from 2016-03-27T01:00Z until 2016-10-30T01:00Z, and one hour east
    before and after. *)
Definition BERLIN_SUMMER_2016 : Z := 1459040400.
Definition BERLIN_WINTER_2016 : Z := 1477789200.

Definition berlin_offset (u : Z) : Z :=
  if u <? BERLIN_SUMMER_2016 then 3600
  else if u <? BERLIN_WINTER_2016 then 7200
  else 3600.

Definition Berlin : LocalClock.
Proof.
  refine {| utcoffset_at := berlin_offset |}.
  intros u. unfold berlin_offset.
  destruct (u <? BERLIN_SUMMER_2016); [lia|].
  destruct (u <? BERLIN_WINTER_2016); lia.
Defined.

(** Readings as exact decimal literals [m * 10^-k] with no trailing zero in
    the fraction: the number a [float] literal denotes before rounding.
    The parser covers the literals [[+-]digits[.digits]]. *)
Fixpoint parse_fraction (s : string) (m : Z) (k : nat) (seen : bool)
  : option (Z * nat * bool) :=
  match s with
  | EmptyString => Some (m, k, seen)
  | String c t =>
      match digit_val c with
      | Some d => parse_fraction t (10 * m + d) (S k) true
      | None => None
      end
  end.

Fixpoint parse_decimal (s : string) (m : Z) (seen : bool)
  : option (Z * nat * bool) :=
  match s with
  | EmptyString => Some (m, O, seen)
  | String c t =>
      match digit_val c with
      | Some d => parse_decimal t (10 * m + d) true
      | None => if Ascii.eqb c "." then parse_fraction t m O seen else None
      end
  end.

Fixpoint normalize (fuel : nat) (m : Z) (k : nat) : Z * nat :=
  match fuel, k with
  | S fuel, S k' => if m mod 10 =? 0 then normalize fuel (m / 10) k' else (m, k)
  | _, _ => (m, k)
  end.

Definition decimal_of_string (s : string) : option (Z * nat) :=
  let s := strip_literal s in
  let '(neg, body) :=
    match s with
    | String "-" t => (true, t)
    | String "+" t => (false, t)
    | _ => (false, s)
    end in
  match parse_decimal body 0 false with
  | Some (m, k, true) =>
      let '(m, k) := normalize k m k in
      Some (if neg then - m else m, k)
  | _ => None
  end.

Definition Decimal : FloatModel :=
  {| float := (Z * nat)%type; float_of_str := decimal_of_string |}.

End Host.

(* ===================================================================== *)
(** * Vocabulary of the statements                                        *)
(* ===================================================================== *)

(** The module-level names once the package is loaded: [time_utils] runs
    first, then [parse], then [reading_service]. *)
Definition after_imports : Globals :=
  ReadingSvc.module_body
    (Parse.module_body (TimeUtils.module_body (mkGlobals 0 0 0))).

(** The spec's [CodecError]: what [timestamp_from_encoded] lets through,
    [binascii.Error] from the base64 decoder and [OverflowError], [OSError]
    or [ValueError] from [datetime.fromtimestamp]. *)
Definition CodecError (e : exn) : Prop :=
  e = BinasciiError \/ e = OverflowError \/ e = OSError \/ e = ValueError.

Module PerMeter.

Import TimeUtils Parse.

Section Run.
Context `{LocalClock} `{FloatModel}.
Variables (g : Globals) (csvd : list string)
          (combined_readings : list MeterReading).

(** With the scan position at [idx], the loop of [_get_list_readings]
    stops its backward search on the terminator ['8'] at index [i] and
    goes on to decode the entry that ends there. *)
Definition entry_at (idx i : Z) : Prop :=
  0 <= idx /\ scan_back is_8_24_3 csvd idx = OK i /\ 8 <= i
  /\ py_getitem csvd i = OK "8".

(** What the timestamp slot of the entry ending at [i] denotes, and the
    index of its value slot: either the marker ['9'] preceded by an
    encoded timestamp, or a back-reference [v] to entry
    [floor(v / 3) + 2] of the combined list. *)
Inductive timestamp_slot (i : Z) : datetime -> Z -> Prop :=
| explicit_timestamp enc t :
    py_getitem csvd (i - 6) = OK "9" ->
    py_getitem csvd (i - 7) = OK enc ->
    timestamp_from_encoded enc = OK t ->
    timestamp_slot i t (i - 8)
| referenced_timestamp tok v c :
    py_getitem csvd (i - 6) = OK tok ->
    tok <> "9" ->
    py_int tok = OK v ->
    py_getitem combined_readings (v / 3 + 2) = OK c ->
    timestamp_slot i (timestamp c) (i - 7).

(** What the value slot at index [idx] denotes: either the marker ['10']
    preceded by a literal, or a back-reference. *)
Inductive value_slot (idx : Z) : float -> Prop :=
| explicit_value val k :
    py_getitem csvd idx = OK "10" ->
    py_getitem csvd (idx - 1) = OK val ->
    py_float val = OK k ->
    value_slot idx k
| referenced_value tok v c :
    py_getitem csvd idx = OK tok ->
    tok <> "10" ->
    py_int tok = OK v ->
    py_getitem combined_readings (v / 3 + 2) = OK c ->
    value_slot idx (kwh c).

(** [visits idx0 idx acc]: a call [_get_list_readings(csvd, idx0, ...)]
    is at the head of its loop with scan position [idx], having decoded
    the readings [acc] so far. *)
Inductive visits (idx0 : Z) : Z -> list MeterReading -> Prop :=
| visits_start : visits idx0 idx0 []
| visits_next idx acc i idx' r :
    visits idx0 idx acc ->
    entry_at idx i ->
    read_entry g csvd combined_readings i = OK (idx', r) ->
    visits idx0 idx' (acc ++ [r]).
(** The entry ending at [i] holds a back-reference that resolves outside
    the combined list: in its timestamp slot, or in its value slot once
    the timestamp has been resolved and shifted. *)
Inductive dangling_reference (i : Z) : Prop :=
| dangling_timestamp tok v :
    py_getitem csvd (i - 6) = OK tok ->
    tok <> "9" ->
    py_int tok = OK v ->
    v / 3 + 2 < - Z.of_nat (List.length combined_readings)
    \/ Z.of_nat (List.length combined_readings) <= v / 3 + 2 ->
    dangling_reference i
| dangling_value t idx t' tok v :
    timestamp_slot i t idx ->
    add_hours t (parse_time_offset g) = OK t' ->
    py_getitem csvd idx = OK tok ->
    tok <> "10" ->
    py_int tok = OK v ->
    v / 3 + 2 < - Z.of_nat (List.length combined_readings)
    \/ Z.of_nat (List.length combined_readings) <= v / 3 + 2 ->
    dangling_reference i.
End Run.

End PerMeter.

Module Combined.

Import TimeUtils Parse.

(** An entry of the combined list as the vendor writes it: the value, the
    marker ['10'], the encoded timestamp, the marker ['9'], filler tokens
    and the terminator ['8']. *)
Record entry : Type := mkentry {
  e_value : string;
  e_enc : string;
  e_fill : list string
}.

Definition entry_tokens (e : entry) : list string :=
  e_value e :: "10" :: e_enc e :: "9" :: e_fill e ++ ["8"].

(** The tokens of a region of entries, oldest entry first. *)
Definition region (es : list entry) : list string :=
  List.concat (map entry_tokens es).

(** [e] is well formed and encodes the reading [r]: its value parses to the
    kwh of [r], its timestamp token decodes to the timestamp of [r], and
    none of its data or filler tokens is one of the reserved markers ['9']
    and ['11'] the decoder searches for. *)
Definition well_formed `{LocalClock} `{FloatModel}
           (e : entry) (r : MeterReading) : Prop :=
  is_9_or_11 (e_value e) = false
  /\ is_9_or_11 (e_enc e) = false
  /\ Forall (fun tok => is_9_or_11 tok = false) (e_fill e)
  /\ py_float (e_value e) = OK (kwh r)
  /\ timestamp_from_encoded (e_enc e) = OK (timestamp r).

(** The log of a scan that ends on the terminal marker: silent when the
    token two places before the marker is ['10'], the diagnostic
    otherwise. *)
Definition exit_log (before : string) : list log_record :=
  if String.eqb before "10" then []
  else [Warning UNEXPECTED_EXIT_COMBINED_LIST].

End Combined.

Module Codec.

Import Base64 TimeUtils.

(** The modified base64 alphabet: letters, digits, ['$'] and ['_']. *)
Definition in_alphabet (c : ascii) : bool :=
  let n := Z.of_nat (nat_of_ascii c) in
  (65 <=? n) && (n <=? 90) || (97 <=? n) && (n <=? 122)
  || (48 <=? n) && (n <=? 57) || (n =? 36) || (n =? 95).

(** The six bits a character of the alphabet stands for. *)
Definition sextet_of (c : ascii) : Z :=
  let n := Z.of_nat (nat_of_ascii c) in
  if (65 <=? n) && (n <=? 90) then n - 65
  else if (97 <=? n) && (n <=? 122) then n - 71
  else if (48 <=? n) && (n <=? 57) then n + 4
  else if n =? 36 then 62
  else 63.

Fixpoint all_in_alphabet (s : string) : bool :=
  match s with
  | EmptyString => true
  | String c t => in_alphabet c && all_in_alphabet t
  end.

(** The characters of a token the decoder does not skip: those of the
    modified alphabet and the two characters ['+'] and ['/'] they stand
    for. *)
Definition is_data (c : ascii) : bool :=
  match table_a2b (translate1 "$" "_" "+" "/" c) with
  | Some _ => true
  | None => false
  end.

Fixpoint data_count (s : string) : nat :=
  match s with
  | EmptyString => O
  | String c t => if is_data c then S (data_count t) else data_count t
  end.

Fixpoint pad_free (s : string) : bool :=
  match s with
  | EmptyString => true
  | String c t => negb (Ascii.eqb c BASE64_PAD) && pad_free t
  end.

(** The big-endian number the sextets of a token spell, continuing [acc]. *)
Fixpoint token_bits (s : string) (acc : Z) : Z :=
  match s with
  | EmptyString => acc
  | String c t => token_bits t (acc * 64 + sextet_of c)
  end.

(** The tick count of a token of the alphabet: its bits without the bits
    that do not fill a byte. *)
Definition token_ticks (s : string) : Z :=
  token_bits s 0 / 2 ^ ((6 * Z.of_nat (String.length s)) mod 8).

(** The wall-clock time the local clock shows at the instant [u]. *)
Definition local_second `{LocalClock} (u : Z) : Z := u + utcoffset_at u.

(** A valid timestamp token: characters of the modified alphabet, a length
    that is not one more than a multiple of four, and a tick count whose
    second lies within the years 1 to 9999 of the local clock. *)
Definition valid_token `{LocalClock} (s : string) : Prop :=
  all_in_alphabet s = true
  /\ Z.of_nat (String.length s) mod 4 <> 1
  /\ wall_in_range (local_second (token_ticks s / 250)) = true.

(** Within two days of the instant [t] the clock changes its offset at
    most once, at the instant [change] from [before] to [after], and by no
    more than a day. *)
Definition one_change_near `{LocalClock} (t : Z) : Prop :=
  exists change before after : Z,
    - 86400 <= after - before <= 86400
    /\ forall u, t - 172800 <= u <= t + 172800 ->
                 utcoffset_at u = if u <? change then before else after.

(** The tokens [timestamp_from_encoded] rejects: without pad character and
    with one data character more than a multiple of four, or decoding to a
    tick count whose second is not a time of the local clock. *)
Inductive rejected `{LocalClock} (s : string) : Prop :=
| bad_length :
    pad_free s = true ->
    Z.of_nat (data_count s) mod 4 = 1 ->
    rejected s
| out_of_range bin :
    b64decode (s ++ "==") = OK bin ->
    wall_in_range (local_second (int_from_bytes bin / 250)) = false ->
    rejected s.

(** What [datetime.fromtimestamp] raises for a second from the epoch on
    that is not a time of the local clock: the error of the conversion to
    [time_t] when the second does not fit, the error of [localtime] when
    the year of its local time does not fit, the error of the year
    otherwise. *)
Definition range_error `{LocalClock} (t : Z) : exn :=
  if 2 ^ 63 <=? t then OverflowError
  else if LOCALTIME_MAX <? local_second t then OSError
  else ValueError.

(** The integers below [n], for checks by enumeration. *)
Definition below (n : nat) : list Z := map Z.of_nat (seq 0 n).

(** The bits of a quad the decoder has read but not yet written. *)
Definition pending_bits (quad_pos : nat) : Z :=
  match quad_pos with
  | 1%nat => 6
  | 2%nat => 4
  | 3%nat => 2
  | _ => 0
  end.

End Codec.

Module Metadata.

Import Parse.

(** Some token holds the start-marker character ['+']. *)
Definition has_start_marker (meta_csv : list string) : bool :=
  existsb (str_in "+") meta_csv.

(** Some token is the terminal marker ["column"]. *)
Definition has_end_marker (meta_csv : list string) : bool :=
  existsb (String.eqb COLUMN) meta_csv.

(** Every token with a ['+'] has a token after it. *)
Definition start_markers_followed (meta_csv : list string) : Prop :=
  forall (i : nat) (tok : string),
    nth_error meta_csv i = Some tok ->
    str_in "+" tok = true ->
    (S i < List.length meta_csv)%nat.

End Metadata.

Module Pairing.

Import ReadingSvc.

Section Assign.
Context `{LocalClock} `{FloatModel}.

(** The names in the order [pop] takes them (the last decoded name first)
    are given to the lists in the order the generator yields them; a list
    with no name left for it ends the pairing in [IndexError], and the
    names left over are returned in their original order. *)
Fixpoint assign (popped : list string) (lists : list (list MeterReading))
         (d : dict) : result (list string * dict) :=
  match lists, popped with
  | [], _ => OK (rev popped, d)
  | _ :: _, [] => Raise IndexError
  | reading_list :: lists, name :: popped =>
      assign popped lists (dict_set d name reading_list)
  end.
End Assign.

End Pairing.

(** ** Per-meter lists, entry by entry *)

Module PerMeterList.

Import TimeUtils Parse.

(** The two ways an entry of a per-meter list gives its timestamp and its
    value (the comment of lines 70-73 of [parse.py]): written out before
    its marker, or as one token that refers to the combined list. *)
Inductive time_part : Type :=
| time_written (enc : string)
| time_referred (tok : string).

Inductive value_part : Type :=
| value_written (val : string)
| value_referred (tok : string).

Record entry : Type := mkentry {
  entry_value : value_part;
  entry_time : time_part;
  entry_fill : list string
}.

Definition value_tokens (v : value_part) : list string :=
  match v with
  | value_written val => [val; "10"]
  | value_referred tok => [tok]
  end.

Definition time_tokens (t : time_part) : list string :=
  match t with
  | time_written enc => [enc; "9"]
  | time_referred tok => [tok]
  end.

(** The tokens of an entry in document order, ending in its terminator. *)
Definition entry_body (e : entry) : list string :=
  value_tokens (entry_value e) ++ time_tokens (entry_time e) ++ entry_fill e.

Definition entry_tokens (e : entry) : list string := entry_body e ++ ["8"].

Definition region (es : list entry) : list string :=
  List.concat (map entry_tokens es).

(** The lists of a stream, one after the other: the entries of a list,
    then the tokens the vendor writes between the last entry and the
    list-start marker (two timestamps, by the comment in the generator),
    then the marker the generator looks for. *)
Definition list_tokens (l : list entry * list string) : list string :=
  region (fst l) ++ snd l ++ ["24"].

Definition lists_stream (ls : list (list entry * list string)) : list string :=
  List.concat (map list_tokens ls).

(** A list the generator can find: it has an entry, and no token between
    its last entry and its marker is a terminator. *)
Definition findable (l : list entry * list string) : Prop :=
  fst l <> [] /\ Forall (fun tok => String.eqb tok "8" = false) (snd l).

Section Denotation.
Context `{LocalClock} `{FloatModel}.
Variables (g : Globals) (combined_readings : list MeterReading).

Definition denotes_time (t : time_part) (d : datetime) : Prop :=
  match t with
  | time_written enc =>
      is_8_24_3 enc = false /\ timestamp_from_encoded enc = OK d
  | time_referred tok =>
      is_8_24_3 tok = false /\ tok <> "9"
      /\ exists v c, py_int tok = OK v
                     /\ py_getitem combined_readings (v / 3 + 2) = OK c
                     /\ timestamp c = d
  end.

Definition denotes_value (v : value_part) (k : float) : Prop :=
  match v with
  | value_written val => is_8_24_3 val = false /\ py_float val = OK k
  | value_referred tok =>
      is_8_24_3 tok = false /\ tok <> "10"
      /\ exists v c, py_int tok = OK v
                     /\ py_getitem combined_readings (v / 3 + 2) = OK c
                     /\ kwh c = k
  end.

(** [denotes e r]: the entry has five tokens between its timestamp slot
    and its terminator, none of its tokens before the terminator is one
    the backward scan stops on, and its slots give the reading [r], the
    timestamp shifted by the offset [parse] holds. *)
Definition denotes (e : entry) (r : MeterReading) : Prop :=
  List.length (entry_fill e) = 5%nat
  /\ Forall (fun t => is_8_24_3 t = false) (entry_fill e)
  /\ (exists d, denotes_time (entry_time e) d
                /\ add_hours d (parse_time_offset g) = OK (timestamp r))
  /\ denotes_value (entry_value e) (kwh r).

(** The call of [_get_list_readings] on the stream that holds, behind
    [front] and the list-start marker [m], the entries [es] and then
    [back], started on the terminator of the last entry. *)
Definition read_list (front : list string) (m : string) (es : list entry)
           (back : list string) : result (Z * list MeterReading) :=
  _get_list_readings g (front ++ m :: region es ++ back)
    (Z.of_nat (List.length front + List.length (region es)))
    combined_readings.

End Denotation.

End PerMeterList.

(** ** The metadata block, segment by segment *)

Module MetadataShape.

Import Parse.

(** A segment of the metadata: the token with the start marker ['+'], the
    token of the meter name, and the tokens that follow up to the next
    segment. *)
Record segment : Type := mksegment {
  seg_marker : string;
  seg_name : string;
  seg_rest : list string
}.

Definition segment_tokens (s : segment) : list string :=
  seg_marker s :: seg_name s :: seg_rest s.

(** A token the scan of a segment passes over at once: a class name (it
    holds a ['.']) or a colour (it holds a ['#']). *)
Definition passed_over (v : string) : bool := str_in "." v || str_in "#" v.

(** A segment that names one meter and no sub-meter. *)
Definition plain (s : segment) : Prop :=
  str_in "+" (seg_marker s) = true
  /\ str_in "+" (seg_name s) = false
  /\ Forall (fun v => str_in "+" v = false /\ passed_over v = true)
            (seg_rest s).

(** The index of the start marker of each segment, the first one at [k]. *)
Fixpoint starts (k : nat) (segs : list segment) : list nat :=
  match segs with
  | [] => []
  | s :: segs => k :: starts (k + List.length (segment_tokens s)) segs
  end.

End MetadataShape.

(** ** What the decoder reads of a token *)

Module CodecShape.

Import Base64 Codec.

(** The data characters of a token, in order: what is left when the
    characters the decoder skips are taken out. *)
Fixpoint data_chars (s : string) : string :=
  match s with
  | EmptyString => EmptyString
  | String c t => if is_data c then String c (data_chars t) else data_chars t
  end.

Definition is_byte (b : Z) : Prop := 0 <= b < 256.

End CodecShape.

(** ** The subtractive meter, reading by reading *)

Module Subtractive.

Import ReadingSvc ReadingSvcMethods.

Section Adjust.
Context `{LocalClock} `{FloatModel} `{!FloatArith}.

(** The first reading of [subtractive] taken at the time of [reading]. *)
Definition same_time (reading : MeterReading) (s : MeterReading) : bool :=
  wall (timestamp s) =? wall (timestamp reading).

(** [reading] less the reading of [subtractive] taken at the same time,
    if there is one. *)
Definition adjusted (subtractive : list MeterReading)
           (reading : MeterReading) : MeterReading :=
  match find (same_time reading) subtractive with
  | Some s => subtract reading s
  | None => reading
  end.

(** Oldest first: no reading is older than one before it. *)
Fixpoint oldest_first (l : list MeterReading) : Prop :=
  match l with
  | [] => True
  | a :: l =>
      Forall (fun b => wall (timestamp a) <= wall (timestamp b)) l
      /\ oldest_first l
  end.

(** Oldest first, no two readings of the same time. *)
Fixpoint strictly_oldest_first (l : list MeterReading) : Prop :=
  match l with
  | [] => True
  | a :: l =>
      Forall (fun b => wall (timestamp a) < wall (timestamp b)) l
      /\ strictly_oldest_first l
  end.

End Adjust.

End Subtractive.

(** ** The text of a response *)

Module Text.

(** The character [c] does not occur in [s]. *)
Fixpoint free_of (c : ascii) (s : string) : bool :=
  match s with
  | EmptyString => true
  | String d t => negb (Ascii.eqb d c) && free_of c t
  end.

(** A response in the vendor's layout: the header, the data tokens each
    followed by a comma, the metadata between brackets, and the footer. *)
Definition layout (body meta : string) : string :=
  ("//OK[" ++ body ++ ",[" ++ meta ++ "],0,7]")%string.

(** The same response as the vendor writes it when the data is long: cut
    in two, the second part handed to javascript's [concat]. *)
Definition concat_layout (body1 body2 meta : string) : string :=
  ("//OK[" ++ body1 ++ "].concat([" ++ body2 ++ ",[" ++ meta ++ "],0,7])")%string.

(** What [_transform_data_to_list] makes of the text before it looks for
    the metadata (lines 199 to 203 of [parse.py]). *)
Definition normalized (data : string) : string :=
  py_rstrip_char ")"
    (py_replace "],[" ","
       (py_replace "]).concat([" ","
          (py_replace "].concat([" "," (py_strip data)))).

End Text.

(** ** A whole response *)

Module Response.

Import Parse Text.

(** [",".join(toks)]. *)
Fixpoint join (toks : list string) : string :=
  match toks with
  | [] => EmptyString
  | [t] => t
  | t :: rest => (t ++ "," ++ join rest)%string
  end.

(** A token as the vendor writes the data: no comma, no bracket. *)
Definition plain_token (t : string) : bool :=
  free_of "," t && free_of "[" t && free_of "]" t.

(** The token stream of a response: the preamble up to its marker ['3'],
    the per-meter lists, the tokens between the last list-start marker
    and the terminal marker ['11'] of the combined list, and the combined
    list. *)
Definition stream (front : list string)
           (ls : list (list PerMeterList.entry * list string))
           (mid : list string) (ces : list Combined.entry) : list string :=
  front ++ "3" :: PerMeterList.lists_stream ls
        ++ mid ++ "11" :: Combined.region ces.

End Response.

(* ===================================================================== *)
(** * Fixtures: the data of the repository's tests                        *)
(* ===================================================================== *)

Module Fixtures.

Import Parse.
Import Host.

(** A token between quotation marks, as the vendor writes strings. *)
Definition q (s : string) : string := String dq (s ++ String dq EmptyString).

(** [tests/test_parse.py], [ExtractMetersCase]. *)
Definition test_data1 : list string :=
  [q "pre"; q "list"; q "data"; "not"; q "counted"; q "including.things";
   q "that#are ignored"; "starthere"; q "xxxx+1"; q "metername1";
   q "class.name"; q "other-name"].

Definition end_data : list string := [COLUMN; "endhere"].

Definition test_data2 : list string :=
  test_data1 ++ ["xxxx+2"; q "metername2"; q "#FFEE32"; q "some.class.second";
                 q "metername3"; q "some.class.third"].

Definition test_data3 : list string :=
  test_data2 ++ ["'xxxx+3'"; q "metername4"; q "#COLOR"; q "metername4 - sub1";
                 q "some.class"; q "metername4 - sub2"; q "metername4 - sub3"].

(** [_generate_entry] of [tests/test_parse.py], with the value and the
    encoded timestamp given as tokens. *)
Definition _generate_entry (reading enc : string) : list string :=
  [reading; "10"; enc; "9"; "0"; "0"; "1"; "0"; "0"; "8"].

(** [_generate_reference(idx)]. *)
Definition _generate_reference (file_idx file_idx_1 : string) : list string :=
  [file_idx; file_idx_1; "0"; "0"; "1"; "0"; "0"; "8"].

(** A per-meter list of one entry that refers to the combined list twice,
    after the list-start marker. *)
Definition reference_stream : list string :=
  "24" :: _generate_reference "-7" "-8".

(** A per-meter list of one explicit entry. *)
Definition explicit_stream : list string :=
  "24" :: _generate_entry "0.5" "VdPMRgA".

(** The stream of [test_combined_read], with one entry. *)
Definition combined_stream : list string :=
  ["13"; "12"; "11"] ++ _generate_entry "0.5" "VdPMRgA".

(** A response in the list format: the preamble marker ['3'], two
    per-meter lists of one entry, each before its list-start marker ['24'],
    the combined list of one entry behind its terminal marker, the metadata
    block and the footer. *)
Definition response (metadata : string) : string :=
  "//OK[3,0.5,10,VdPMRgA,9,0,0,1,0,0,8,24,0.75,10,VdPMRgA,9,0,0,1,0,0,8,24,"
  ++ "10,0,11,0.25,10,VdPMRgA,9,0,0,1,0,0,8,["
  ++ metadata ++ "],0,7]".

(** The token stream of [response]. *)
Definition response_tokens : list string :=
  ["3"; "0.5"; "10"; "VdPMRgA"; "9"; "0"; "0"; "1"; "0"; "0"; "8";
   "24"; "0.75"; "10"; "VdPMRgA"; "9"; "0"; "0"; "1"; "0"; "0"; "8";
   "24"; "10"; "0"; "11"; "0.25"; "10"; "VdPMRgA"; "9"; "0"; "0";
   "1"; "0"; "0"; "8"; ""].

(** Metadata naming one meter, and metadata naming three. *)
Definition one_meter : string :=
  q "x+1" ++ "," ++ q "meter1" ++ "," ++ COLUMN ++ "," ++ q "z".

(** Metadata naming three meters, the first two alike. *)
Definition repeated_names : string :=
  q "x+1" ++ "," ++ q "m" ++ "," ++ q "y+2" ++ "," ++ q "m" ++ ","
  ++ q "z+3" ++ "," ++ q "w" ++ "," ++ COLUMN ++ "," ++ q "z".

Definition three_meters : string :=
  q "x+1" ++ "," ++ q "meter1" ++ "," ++ q "meter2" ++ "," ++ q "meter3"
  ++ "," ++ COLUMN ++ "," ++ q "z".

(** A reading of the decimal host. *)
Definition reading (w : Z) (k : Z * nat) : MeterReading (H := Decimal) :=
  mkMeterReading (H := Decimal) (mkdatetime w) k.

(** Two combined readings, the older first. *)
Definition two_combined : list (MeterReading (H := Decimal)) :=
  [reading 1474498800 (25, 2%nat); reading 1474502400 (5, 1%nat)].

End Fixtures.

(** Per-meter lists for the examples. *)
Module ListFixtures.

Import Parse Host Fixtures.

Definition fill : list string := ["0"; "0"; "1"; "0"; "0"].

(** [_generate_entry] and [_generate_reference] of [tests/test_parse.py]
    as entries. *)
Definition written (val enc : string) : PerMeterList.entry :=
  PerMeterList.mkentry (PerMeterList.value_written val)
                       (PerMeterList.time_written enc) fill.

Definition referred (v t : string) : PerMeterList.entry :=
  PerMeterList.mkentry (PerMeterList.value_referred v)
                       (PerMeterList.time_referred t) fill.

(** The two mixed entries of the comment in [_get_list_readings]:
    [-1200, TIMESTAMP, 9, ...] and [f.ff, 10, -1207, ...]. *)
Definition value_referred_entry (v enc : string) : PerMeterList.entry :=
  PerMeterList.mkentry (PerMeterList.value_referred v)
                       (PerMeterList.time_written enc) fill.

Definition time_referred_entry (val t : string) : PerMeterList.entry :=
  PerMeterList.mkentry (PerMeterList.value_written val)
                       (PerMeterList.time_referred t) fill.

(** A list of two entries, the second one referring to the first reading
    of [two_combined]. *)
Definition one_list : list PerMeterList.entry :=
  [written "0.5" "VdPMRgA"; referred "-10" "-11"].

Definition one_list_readings : list (MeterReading (H := Decimal)) :=
  [reading 1474502400 (5, 1%nat); reading 1474498800 (25, 2%nat)].

Definition other_list : list PerMeterList.entry :=
  [written "0.75" "VdPMRgA"].

Definition other_list_readings : list (MeterReading (H := Decimal)) :=
  [reading 1474502400 (75, 2%nat)].

(** Two lists, the first one followed by two timestamps before its
    marker. *)
Definition two_lists : list (list PerMeterList.entry * list string) :=
  [(one_list, ["VdPMRgA"; "VdPMRgA"]); (other_list, [])].

End ListFixtures.

(** Services for the examples. *)
Module ServiceFixtures.

Import Parse ReadingSvc Host Fixtures.

(** Metadata naming two meters. *)
Definition two_meters : string :=
  q "x+1" ++ "," ++ q "meter1" ++ "," ++ q "meter2"
  ++ "," ++ COLUMN ++ "," ++ q "z".

(** Exact subtraction of decimal literals: the difference before
    rounding. *)
Definition decimal_sub (a b : Z * nat) : Z * nat :=
  let k := Nat.max (snd a) (snd b) in
  normalize k (fst a * 10 ^ Z.of_nat (k - snd a)
               - fst b * 10 ^ Z.of_nat (k - snd b)) k.

Definition DecimalArith : @FloatArith Decimal :=
  @Build_FloatArith Decimal decimal_sub.

(** Two meters read at the same three hours, oldest reading first, as
    the JSON factory stores them. *)
Definition ascending : ReadingService (H0 := Decimal) :=
  mkReadingService []
    [("house", [reading 3600 (5, 0%nat); reading 7200 (75, 1%nat);
                reading 10800 (9, 0%nat)]);
     ("heater", [reading 3600 (2, 0%nat); reading 10800 (25, 1%nat)])].

(** The same readings newest first, as the list decoder yields them. *)
Definition descending : ReadingService (H0 := Decimal) :=
  mkReadingService []
    [("house", [reading 10800 (9, 0%nat); reading 7200 (75, 1%nat);
                reading 3600 (5, 0%nat)]);
     ("heater", [reading 10800 (25, 1%nat); reading 3600 (2, 0%nat)])].

(** The combined entries that decode to [two_combined]. *)
Definition two_combined_entries : list Combined.entry :=
  [Combined.mkentry "0.25" "VdO$imA" ["0"; "0"; "1"; "0"; "0"];
   Combined.mkentry "0.5" "VdPMRgA" ["0"; "0"; "1"; "0"; "0"]].

End ServiceFixtures.

(* ===================================================================== *)
(** * The repository's test vectors, run on the model                     *)
(* ===================================================================== *)

Module Vectors.

Import Base64 TimeUtils Parse Host Fixtures.

Example py_int_ex1 : py_int "-1203" = OK (-1203).
Proof. reflexivity. Qed.
Example py_int_ex2 : py_int " 1_000 " = OK 1000.
Proof. reflexivity. Qed.
Example py_int_ex3 : py_int "0.5" = Raise ValueError.
Proof. reflexivity. Qed.
Example py_int_ex4 : py_int "" = Raise ValueError.
Proof. reflexivity. Qed.
Example py_strip_ex : py_strip "  a b  " = "a b".
Proof. reflexivity. Qed.

(** The separator 28 is whitespace for [str.strip] and none for [int];
    the no-break space is whitespace for both. *)
Example py_strip_separator : py_strip (String (ascii_of_nat 28) "a") = "a".
Proof. reflexivity. Qed.
Example py_int_separator :
  py_int (String (ascii_of_nat 28) "-7") = Raise ValueError.
Proof. reflexivity. Qed.
Example py_int_no_break_space :
  py_int (String (ascii_of_nat 160) "-7") = OK (-7).
Proof. reflexivity. Qed.
Example py_replace_ex : py_replace "],[" "," "[1],[2],[3]" = "[1,2,3]".
Proof. reflexivity. Qed.
Example py_split_ex : py_split "," "a,,b" = ["a"; ""; "b"].
Proof. reflexivity. Qed.
Example py_getitem_neg : py_getitem [10; 20; 30] (-1) = OK 30.
Proof. reflexivity. Qed.
Example py_getitem_out : py_getitem [10; 20; 30] (-4) = Raise IndexError.
Proof. reflexivity. Qed.
Example b64decode_ex : b64decode "Yf3U_WA==" = OK [97; 253; 212; 253; 96].
Proof. reflexivity. Qed.
Example b64decode_bad_length : b64decode "a==" = Raise BinasciiError.
Proof. reflexivity. Qed.
Example b64encode_ex :
  b64encode [0; 0; 0; 97; 253; 212; 253; 96] = "AAAAYf3U_WA=".
Proof. reflexivity. Qed.
Example decimal_ex1 : decimal_of_string "0.50" = Some (5, 1%nat).
Proof. reflexivity. Qed.
Example decimal_ex2 : decimal_of_string "-12.25" = Some (-1225, 2%nat).
Proof. reflexivity. Qed.
Example decimal_ex3 : decimal_of_string "10" = Some (10, 0%nat).
Proof. reflexivity. Qed.
Example decimal_ex4 : decimal_of_string "abc" = None.
Proof. reflexivity. Qed.

(** [tests/test_time_utils.py]: ['VdPMRgA'] is 2016-09-21 19:00 local time,
    that is 2016-09-22T00:00:00Z. *)
Example valid_input_1 :
  timestamp_from_encoded (H := Host.CDT) "VdPMRgA"
  = OK (mkdatetime (1474502400 - 18000)).
Proof. reflexivity. Qed.

Example valid_input_dollar :
  timestamp_from_encoded (H := Host.CDT) "YGoQF$A"
  = OK (mkdatetime (1656385200 - 18000)).
Proof. reflexivity. Qed.

Example valid_input_underscore :
  timestamp_from_encoded (H := Host.CDT) "YGou_gg"
  = OK (mkdatetime (1656393300 - 18000)).
Proof. reflexivity. Qed.

Example valid_input_2021 :
  timestamp_from_encoded (H := Host.CDT) "Xuo9HwA"
  = OK (mkdatetime (1630627200 - 18000)).
Proof. reflexivity. Qed.

(** [datetime.fromtimestamp] looks a day back: one hour into the year 1
    it fails; a day into the year it returns. *)
Example fromtimestamp_first_day :
  fromtimestamp (H := Host.UTC) (MIN_WALL + 3600) = Raise ValueError
  /\ fromtimestamp (H := Host.UTC) (MIN_WALL + 86400)
     = OK (mkdatetime (MIN_WALL + 86400)).
Proof. split; reflexivity. Qed.

(** The second before the clocks of Berlin were set forward in 2016, and
    the second after. *)
Example berlin_spring_forward :
  fromtimestamp (H := Host.Berlin) (Host.BERLIN_SUMMER_2016 - 1)
  = OK (mkdatetime 1459043999)
  /\ fromtimestamp (H := Host.Berlin) Host.BERLIN_SUMMER_2016
     = OK (mkdatetime 1459047600).
Proof. split; reflexivity. Qed.

Example invalid_string_overflows :
  timestamp_from_encoded (H := Host.UTC) "invalid_string" = Raise OverflowError.
Proof. reflexivity. Qed.

Example invalid_input_length :
  timestamp_from_encoded (H := Host.UTC) "invalid_input" = Raise BinasciiError.
Proof. reflexivity. Qed.

Example single_character :
  timestamp_from_encoded (H := Host.UTC) "a" = Raise BinasciiError.
Proof. reflexivity. Qed.

(** [tests/test_parse.py], [ExtractMetersCase]. *)
Example test_extract_meters_1 :
  _extract_meters (test_data1 ++ end_data) = OK ["metername1"].
Proof. reflexivity. Qed.

Example test_extract_meters_2 :
  _extract_meters (test_data2 ++ end_data)
  = OK ["metername1"; "metername2"; "metername3"].
Proof. reflexivity. Qed.

Example test_extract_meters_3 :
  _extract_meters (test_data3 ++ end_data)
  = OK ["metername1"; "metername2"; "metername3";
        "metername4 - sub1"; "metername4 - sub2"; "metername4 - sub3"].
Proof. reflexivity. Qed.

Example test_no_end_marker :
  _extract_meters [q "1234+1"; q "metername1"; q "net-meter-column"; q "some.class"]
  = Raise InvalidMetadata.
Proof. reflexivity. Qed.

Example test_no_start_marker :
  _extract_meters [q "metername1"; COLUMN; q "some.class.stuff"]
  = Raise InvalidMetadata.
Proof. reflexivity. Qed.

End Vectors.

(* ===================================================================== *)
(** * Facts about the Python fragment                                     *)
(* ===================================================================== *)

Module PyFacts.

Lemma bind_OK {A B} (m : result A) (k : A -> result B) (b : B) :
  bind m k = OK b -> exists a, m = OK a /\ k a = OK b.
Proof. destruct m as [a|e]; simpl; [eauto | discriminate]. Qed.

Lemma bind_Raise {A B} (m : result A) (k : A -> result B) (e : exn) :
  bind m k = Raise e -> m = Raise e \/ exists a, m = OK a /\ k a = Raise e.
Proof. destruct m as [a|e']; simpl; intros Hk; [right; eauto | left; congruence]. Qed.

Lemma bind_assoc {A B C} (m : result A) (k : A -> result B) (h : B -> result C) :
  bind (bind m k) h = bind m (fun a => bind (k a) h).
Proof. destruct m; reflexivity. Qed.

Lemma bind_ext {A B} (m : result A) (k1 k2 : A -> result B) :
  (forall a, k1 a = k2 a) -> bind m k1 = bind m k2.
Proof. intros E; destruct m; simpl; auto. Qed.

Section GetItem.
Context {A : Type}.
Implicit Types (l : list A) (i : Z).

Lemma py_getitem_nonneg l i :
  0 <= i -> py_getitem l i = of_option IndexError (nth_error l (Z.to_nat i)).
Proof.
  intros Hi. unfold py_getitem.
  destruct (i <? 0) eqn:E; [apply Z.ltb_lt in E; lia|].
  destruct (0 <=? i) eqn:E0; [|apply Z.leb_gt in E0; lia].
  destruct (i <? Z.of_nat (List.length l)) eqn:E1; simpl; [reflexivity|].
  apply Z.ltb_ge in E1.
  assert (Hn : nth_error l (Z.to_nat i) = None)
    by (apply nth_error_None; lia).
  rewrite Hn. reflexivity.
Qed.

Lemma py_getitem_nat l (n : nat) :
  py_getitem l (Z.of_nat n) = of_option IndexError (nth_error l n).
Proof. rewrite py_getitem_nonneg by lia. rewrite Nat2Z.id. reflexivity. Qed.

Lemma py_getitem_negative l i :
  i < 0 -> - Z.of_nat (List.length l) <= i ->
  py_getitem l i
  = of_option IndexError (nth_error l (Z.to_nat (Z.of_nat (List.length l) + i))).
Proof.
  intros Hi Hl. unfold py_getitem.
  destruct (i <? 0) eqn:E; [|apply Z.ltb_ge in E; lia].
  destruct (0 <=? i + Z.of_nat (List.length l)) eqn:E0;
    [|apply Z.leb_gt in E0; lia].
  destruct (i + Z.of_nat (List.length l) <? Z.of_nat (List.length l)) eqn:E1;
    [|apply Z.ltb_ge in E1; lia].
  simpl. rewrite (Z.add_comm i). reflexivity.
Qed.

Lemma py_getitem_out_of_range l i :
  i < - Z.of_nat (List.length l) \/ Z.of_nat (List.length l) <= i ->
  py_getitem l i = Raise IndexError.
Proof.
  intros Hi. unfold py_getitem.
  destruct (i <? 0) eqn:E.
  - apply Z.ltb_lt in E.
    destruct (0 <=? i + Z.of_nat (List.length l)) eqn:E0; simpl; [|reflexivity].
    apply Z.leb_le in E0. lia.
  - apply Z.ltb_ge in E.
    destruct (i <? Z.of_nat (List.length l)) eqn:E1;
      [apply Z.ltb_lt in E1; lia|].
    rewrite andb_false_r. reflexivity.
Qed.

Lemma py_getitem_raises l i e : py_getitem l i = Raise e -> e = IndexError.
Proof.
  unfold py_getitem.
  destruct ((0 <=? _) && _).
  - destruct (nth_error l _); simpl; congruence.
  - congruence.
Qed.

Lemma py_getitem_in_range l i x :
  py_getitem l i = OK x ->
  - Z.of_nat (List.length l) <= i < Z.of_nat (List.length l).
Proof.
  intros Hx.
  destruct (Z_lt_ge_dec i (- Z.of_nat (List.length l))) as [Hlo|Hlo];
    [rewrite py_getitem_out_of_range in Hx by lia; discriminate|].
  destruct (Z_lt_ge_dec i (Z.of_nat (List.length l))) as [Hhi|Hhi]; [lia|].
  rewrite py_getitem_out_of_range in Hx by lia; discriminate.
Qed.

Lemma py_getitem_total l i :
  - Z.of_nat (List.length l) <= i < Z.of_nat (List.length l) ->
  exists x, py_getitem l i = OK x.
Proof.
  intros Hi. destruct (Z_lt_ge_dec i 0) as [Hn|Hn].
  - rewrite py_getitem_negative by lia.
    destruct (nth_error l _) eqn:E; [simpl; eauto|].
    apply nth_error_None in E. lia.
  - rewrite py_getitem_nonneg by lia.
    destruct (nth_error l _) eqn:E; [simpl; eauto|].
    apply nth_error_None in E. lia.
Qed.

(** Position [len l1 + k] of [l1 ++ l2] is position [k] of [l2]. *)
Lemma py_getitem_app_r l1 l2 (k : nat) :
  py_getitem (l1 ++ l2) (Z.of_nat (List.length l1 + k))
  = of_option IndexError (nth_error l2 k).
Proof.
  rewrite py_getitem_nat. rewrite nth_error_app2 by lia.
  replace (List.length l1 + k - List.length l1)%nat with k by lia.
  reflexivity.
Qed.

Lemma py_getitem_app_l l1 l2 (k : nat) :
  (k < List.length l1)%nat ->
  py_getitem (l1 ++ l2) (Z.of_nat k) = of_option IndexError (nth_error l1 k).
Proof.
  intros Hk. rewrite py_getitem_nat. rewrite nth_error_app1 by lia.
  reflexivity.
Qed.
End GetItem.

Lemma of_option_raises {A} (e e' : exn) (o : option A) :
  of_option e o = Raise e' -> e' = e.
Proof. destruct o; simpl; congruence. Qed.

Lemma py_int_raises s e : py_int s = Raise e -> e = ValueError.
Proof. unfold py_int. apply of_option_raises. Qed.

Lemma py_float_raises `{FloatModel} s e : py_float s = Raise e -> e = ValueError.
Proof. unfold py_float. apply of_option_raises. Qed.

End PyFacts.

(* ===================================================================== *)
(** * The backward scans                                                  *)
(* ===================================================================== *)

Module ScanFacts.

Import Parse PyFacts.

Lemma scan_down_range stop csvd n i :
  scan_down stop csvd n = OK i -> -1 <= i < Z.of_nat n.
Proof.
  induction n as [|m IH]; simpl; intros Hs.
  - inversion Hs. lia.
  - destruct (py_getitem csvd (Z.of_nat m)) as [tok|e]; simpl in Hs;
      [|discriminate].
    destruct (stop tok).
    + inversion Hs. lia.
    + apply IH in Hs. lia.
Qed.

Lemma scan_down_raises stop csvd n e :
  scan_down stop csvd n = Raise e -> e = IndexError.
Proof.
  induction n as [|m IH]; simpl; intros Hs; [discriminate|].
  destruct (py_getitem csvd (Z.of_nat m)) as [tok|e'] eqn:E; simpl in Hs.
  - destruct (stop tok); [discriminate | auto].
  - inversion Hs; subst. eapply py_getitem_raises; eauto.
Qed.

(** Within the list the scan cannot fail. *)
Lemma scan_down_total stop csvd n :
  (n <= List.length csvd)%nat -> exists i, scan_down stop csvd n = OK i.
Proof.
  induction n as [|m IH]; simpl; intros Hn; [eauto|].
  destruct (py_getitem_total csvd (Z.of_nat m)) as [tok Ht]; [lia|].
  rewrite Ht. simpl. destruct (stop tok); [eauto | apply IH; lia].
Qed.

(** Where the scan stops, and what it skipped. *)
Lemma scan_down_found stop csvd n i :
  scan_down stop csvd n = OK i -> 0 <= i ->
  exists tok, py_getitem csvd i = OK tok /\ stop tok = true.
Proof.
  induction n as [|m IH]; simpl; intros Hs Hi.
  - inversion Hs. lia.
  - destruct (py_getitem csvd (Z.of_nat m)) as [tok|e] eqn:E; simpl in Hs;
      [|discriminate].
    destruct (stop tok) eqn:Es.
    + inversion Hs; subst. eauto.
    + auto.
Qed.

Lemma scan_back_range stop csvd idx i :
  scan_back stop csvd idx = OK i -> i <= idx /\ (0 <= idx -> -1 <= i).
Proof.
  unfold scan_back. destruct (idx <? 0) eqn:E.
  - apply Z.ltb_lt in E. intros Hs. inversion Hs. lia.
  - apply Z.ltb_ge in E. intros Hs. apply scan_down_range in Hs. lia.
Qed.

Lemma scan_back_raises stop csvd idx e :
  scan_back stop csvd idx = Raise e -> e = IndexError.
Proof.
  unfold scan_back. destruct (idx <? 0); [discriminate|].
  apply scan_down_raises.
Qed.

Lemma scan_back_found stop csvd idx i :
  scan_back stop csvd idx = OK i -> 0 <= i ->
  exists tok, py_getitem csvd i = OK tok /\ stop tok = true.
Proof.
  unfold scan_back. destruct (idx <? 0) eqn:E.
  - apply Z.ltb_lt in E. intros Hs. inversion Hs. lia.
  - apply scan_down_found.
Qed.

(** Scanning a stream [front ++ m :: skipped] from any position of
    [skipped] (or from [m]) stops on [m] when [m] is a stop token and no
    token of [skipped] is. *)
Lemma scan_down_stops stop front m skipped back (k : nat) :
  stop m = true ->
  Forall (fun t => stop t = false) skipped ->
  (k <= List.length skipped)%nat ->
  scan_down stop (front ++ m :: skipped ++ back) (List.length front + 1 + k)
  = OK (Z.of_nat (List.length front)).
Proof.
  intros Hm Hsk. induction k as [|k IH]; intros Hk.
  - replace (List.length front + 1 + 0)%nat with (S (List.length front)) by lia.
    simpl. replace (List.length front) with (List.length front + 0)%nat at 1 by lia.
    rewrite py_getitem_app_r. simpl. rewrite Hm. reflexivity.
  - replace (List.length front + 1 + S k)%nat
      with (S (List.length front + 1 + k)) by lia.
    simpl.
    replace (List.length front + 1 + k)%nat
      with (List.length front + S k)%nat at 1 by lia.
    rewrite py_getitem_app_r. simpl.
    rewrite nth_error_app1 by lia.
    destruct (nth_error skipped k) as [t|] eqn:E;
      [|apply nth_error_None in E; lia].
    simpl.
    assert (Ht : stop t = false).
    { rewrite Forall_forall in Hsk. apply Hsk. eapply nth_error_In; eauto. }
    rewrite Ht. apply IH. lia.
Qed.

Lemma scan_back_stops stop front m skipped back (k : nat) :
  stop m = true ->
  Forall (fun t => stop t = false) skipped ->
  (k <= List.length skipped)%nat ->
  scan_back stop (front ++ m :: skipped ++ back)
            (Z.of_nat (List.length front + k))
  = OK (Z.of_nat (List.length front)).
Proof.
  intros Hm Hsk Hk. unfold scan_back.
  destruct (Z.of_nat (List.length front + k) <? 0) eqn:E;
    [apply Z.ltb_lt in E; lia|].
  replace (Z.to_nat (Z.of_nat (List.length front + k) + 1))
    with (List.length front + 1 + k)%nat by lia.
  apply scan_down_stops; auto.
Qed.

(** With no stop token at or below the start, the scan runs off the front. *)
Lemma scan_down_runs_off stop skipped back (k : nat) :
  Forall (fun t => stop t = false) skipped ->
  (k <= List.length skipped)%nat ->
  scan_down stop (skipped ++ back) k = OK (-1).
Proof.
  intros Hsk. induction k as [|k IH]; intros Hk; simpl; [reflexivity|].
  rewrite py_getitem_app_l by lia.
  destruct (nth_error skipped k) as [t|] eqn:E;
    [|apply nth_error_None in E; lia].
  simpl.
  assert (Ht : stop t = false).
  { rewrite Forall_forall in Hsk. apply Hsk. eapply nth_error_In; eauto. }
  rewrite Ht. apply IH. lia.
Qed.

End ScanFacts.

(* ===================================================================== *)
(** * What the codec raises                                               *)
(* ===================================================================== *)

Module CodecFacts.

Import Base64 TimeUtils PyFacts.

Lemma a2b_base64_raises s quad_pos leftchar pads bin e :
  a2b_base64 s quad_pos leftchar pads bin = Raise e -> e = BinasciiError.
Proof.
  revert quad_pos leftchar pads bin.
  induction s as [|c rest IH]; intros quad_pos leftchar pads bin; simpl.
  - destruct quad_pos; congruence.
  - destruct (Ascii.eqb c BASE64_PAD).
    + destruct quad_pos as [|[|q]]; try apply IH.
      destruct (4 <=? _); [discriminate|apply IH].
    + destruct (table_a2b c); [|apply IH].
      destruct quad_pos as [|[|[|q]]]; apply IH.
Qed.

Lemma local_raises `{LocalClock} u e : local u = Raise e -> e = ValueError.
Proof. unfold local. destruct (wall_in_range _); congruence. Qed.

Lemma local_OK `{LocalClock} u w :
  local u = OK w -> w = u + utcoffset_at u /\ wall_in_range w = true.
Proof.
  unfold local. destruct (wall_in_range _) eqn:E; [|discriminate].
  intros Hw. inversion Hw; subst. auto.
Qed.

Lemma local_in_range `{LocalClock} u :
  wall_in_range (u + utcoffset_at u) = true ->
  local u = OK (u + utcoffset_at u).
Proof. unfold local. intros ->. reflexivity. Qed.

Lemma wall_in_range_iff w :
  wall_in_range w = true <-> MIN_WALL <= w <= MAX_WALL.
Proof. unfold wall_in_range. rewrite andb_true_iff, !Z.leb_le. tauto. Qed.

Lemma fromtimestamp_raises `{LocalClock} t e :
  fromtimestamp t = Raise e ->
  e = OverflowError \/ e = OSError \/ e = ValueError.
Proof.
  unfold fromtimestamp.
  destruct (_ || _); [intros E; inversion E; auto|].
  destruct (_ || _); [intros E; inversion E; auto|].
  intros Hr.
  apply bind_Raise in Hr as [Hr | (w & _ & Hr)];
    [apply local_raises in Hr; auto|].
  apply bind_Raise in Hr as [Hr | (p & _ & Hr)];
    [apply local_raises in Hr; auto|].
  destruct (_ <? 0); [|discriminate].
  apply bind_Raise in Hr as [Hr | (p' & _ & Hr)];
    [apply local_raises in Hr; auto | discriminate].
Qed.

(** On a host at a fixed offset no wall-clock time is shown twice: what
    [datetime.fromtimestamp] returns has [fold] 0. *)
Lemma fromtimestamp_fixed `{LocalZone} t d :
  fromtimestamp t = OK d -> d = mkdatetime (t + utcoffset).
Proof.
  unfold fromtimestamp.
  destruct (_ || _); [discriminate|].
  destruct (_ || _); [discriminate|].
  intros Hr.
  apply bind_OK in Hr as (w & Hw & Hr). apply local_OK in Hw as [-> _].
  apply bind_OK in Hr as (p & Hp & Hr). apply local_OK in Hp as [-> _].
  simpl utcoffset_at in Hr. unfold max_fold_seconds in Hr.
  destruct (_ <? 0) eqn:E; [apply Z.ltb_lt in E; lia|].
  inversion Hr. reflexivity.
Qed.

Lemma timestamp_from_encoded_raises `{LocalClock} s e :
  timestamp_from_encoded s = Raise e -> CodecError e.
Proof.
  unfold timestamp_from_encoded, b64decode, CodecError. intros Hr.
  apply bind_Raise in Hr as [Hr | (bin & _ & Hr)].
  - apply a2b_base64_raises in Hr. auto.
  - apply fromtimestamp_raises in Hr. tauto.
Qed.

Lemma add_hours_raises d h e : add_hours d h = Raise e -> e = OverflowError.
Proof. unfold add_hours. destruct (wall_in_range _); congruence. Qed.

Lemma add_hours_wall d h d' :
  add_hours d h = OK d' -> wall d' = wall d + 3600 * h.
Proof.
  unfold add_hours. destruct (wall_in_range _); [|discriminate].
  intros E; inversion E. reflexivity.
Qed.

Lemma add_hours_zero `{LocalZone} s d :
  timestamp_from_encoded s = OK d -> add_hours d 0 = OK d.
Proof.
  unfold timestamp_from_encoded. intros Hd.
  apply bind_OK in Hd as (bin & _ & Hd).
  pose proof (fromtimestamp_fixed _ _ Hd) as ->.
  unfold fromtimestamp in Hd.
  destruct (_ || _); [discriminate|].
  destruct (_ || _); [discriminate|].
  apply bind_OK in Hd as (w & Hw & _). apply local_OK in Hw as [-> Hw].
  simpl utcoffset_at in Hw.
  unfold add_hours, mkdatetime. simpl wall.
  rewrite Z.add_0_r, Hw. reflexivity.
Qed.

End CodecFacts.

(* ===================================================================== *)
(** * The per-meter decoder, entry by entry                               *)
(* ===================================================================== *)

Module PerMeterFacts.

Import TimeUtils Parse PerMeter PyFacts ScanFacts CodecFacts.

Section Run.
Context `{LocalClock} `{FloatModel}.
Variables (g : Globals) (csvd : list string)
          (combined_readings : list MeterReading).

Local Abbreviation read_entry := (read_entry g csvd combined_readings).
Local Abbreviation get_list_loop fuel := (get_list_loop fuel g csvd combined_readings).
Local Abbreviation _get_list_readings idx :=
  (_get_list_readings g csvd idx combined_readings).
Local Abbreviation entry_at := (entry_at csvd).
Local Abbreviation timestamp_slot := (timestamp_slot csvd combined_readings).
Local Abbreviation value_slot := (value_slot csvd combined_readings).
Local Abbreviation visits := (visits g csvd combined_readings).

(** An entry takes seven or eight tokens. *)
Lemma read_entry_position i idx' r :
  read_entry i = OK (idx', r) -> i - 8 <= idx' <= i - 7.
Proof.
  unfold Parse.read_entry. intros Hr.
  apply bind_OK in Hr as (tok & _ & Hr).
  apply bind_OK in Hr as ([ts idx1] & Hts & Hr).
  apply bind_OK in Hr as (ts' & _ & Hr).
  apply bind_OK in Hr as (tok' & _ & Hr).
  apply bind_OK in Hr as (k & _ & Hr).
  inversion Hr; subst; clear Hr.
  destruct (String.eqb tok "9").
  - apply bind_OK in Hts as (enc & _ & Hts).
    apply bind_OK in Hts as (t & _ & Hts).
    inversion Hts. lia.
  - apply bind_OK in Hts as (c & _ & Hts).
    inversion Hts. lia.
Qed.

(** The slots determine the reading. *)
Lemma read_entry_slots i t idx' t' k :
  timestamp_slot i t idx' ->
  add_hours t (parse_time_offset g) = OK t' ->
  value_slot idx' k ->
  read_entry i = OK (idx', mkMeterReading t' k).
Proof.
  intros Hts Hadd Hval. unfold Parse.read_entry.
  assert (Hfirst :
    (tok <- py_getitem csvd (i - 6) ;;
     (if String.eqb tok "9"
      then enc <- py_getitem csvd (i - 6 - 1) ;;
           ts <- timestamp_from_encoded enc ;; OK (ts, i - 6 - 2)
      else r <- combined_ref csvd combined_readings (i - 6) ;;
           OK (timestamp r, i - 6 - 1))) = OK (t, idx')).
  { destruct Hts as [enc t Hm Henc Hdec | tok v c Htok Hne Hint Hc].
    - rewrite Hm. simpl.
      replace (i - 6 - 1) with (i - 7) by lia. rewrite Henc. simpl.
      rewrite Hdec. simpl. f_equal. f_equal. lia.
    - rewrite Htok. simpl.
      apply String.eqb_neq in Hne. rewrite Hne.
      unfold combined_ref. rewrite Htok. simpl. rewrite Hint. simpl.
      rewrite Hc. simpl. f_equal. f_equal. lia. }
  destruct (py_getitem csvd (i - 6)) as [tok|e]; simpl in *; [|discriminate].
  rewrite Hfirst. simpl. rewrite Hadd. simpl.
  destruct Hval as [val k Hm Hval Hf | tok' v c Htok Hne Hint Hc].
  - rewrite Hm. simpl. rewrite Hval. simpl. rewrite Hf. reflexivity.
  - rewrite Htok. simpl. apply String.eqb_neq in Hne. rewrite Hne.
    unfold combined_ref. rewrite Htok. simpl. rewrite Hint. simpl.
    rewrite Hc. reflexivity.
Qed.

(** Conversely, a decoded entry has slots that denote its reading. *)
Lemma read_entry_inv i idx' r :
  read_entry i = OK (idx', r) ->
  exists t, timestamp_slot i t idx'
            /\ add_hours t (parse_time_offset g) = OK (timestamp r)
            /\ value_slot idx' (kwh r).
Proof.
  unfold Parse.read_entry. intros Hr.
  apply bind_OK in Hr as (tok & Htok & Hr).
  apply bind_OK in Hr as ([ts idx1] & Hts & Hr).
  apply bind_OK in Hr as (ts' & Hadd & Hr).
  apply bind_OK in Hr as (tok' & Htok' & Hr).
  apply bind_OK in Hr as (k & Hk & Hr).
  inversion Hr; subst; clear Hr. simpl.
  exists ts. split; [|split; [exact Hadd|]].
  - destruct (String.eqb tok "9") eqn:E.
    + apply String.eqb_eq in E. subst tok.
      apply bind_OK in Hts as (enc & Henc & Hts).
      apply bind_OK in Hts as (t & Ht & Hts).
      inversion Hts; subst.
      replace (i - 6 - 2) with (i - 8) by lia.
      replace (i - 6 - 1) with (i - 7) in Henc by lia.
      econstructor; eauto.
    + apply String.eqb_neq in E.
      apply bind_OK in Hts as (c & Hc & Hts).
      inversion Hts; subst.
      unfold combined_ref in Hc.
      apply bind_OK in Hc as (tok2 & Htok2 & Hc).
      apply bind_OK in Hc as (v & Hv & Hc).
      rewrite Htok in Htok2. inversion Htok2; subst tok2.
      replace (i - 6 - 1) with (i - 7) by lia.
      econstructor; eauto.
  - destruct (String.eqb tok' "10") eqn:E.
    + apply String.eqb_eq in E. subst tok'.
      apply bind_OK in Hk as (val & Hval & Hk).
      econstructor; eauto.
    + apply String.eqb_neq in E.
      apply bind_OK in Hk as (c & Hc & Hk).
      inversion Hk; subst.
      unfold combined_ref in Hc.
      apply bind_OK in Hc as (tok2 & Htok2 & Hc).
      apply bind_OK in Hc as (v & Hv & Hc).
      rewrite Htok' in Htok2. inversion Htok2; subst tok2.
      eapply referenced_value; eauto.
Qed.

(** The readings decoded before the loop is entered are a prefix of the
    answer and do not influence the rest of the run. *)
Lemma get_list_loop_prefix fuel idx readings :
  get_list_loop fuel idx readings
  = ('(stop, rs) <- get_list_loop fuel idx [] ;; OK (stop, readings ++ rs)).
Proof.
  revert idx readings. induction fuel as [|fuel IH]; intros idx readings.
  - simpl. destruct (idx <? 0); simpl; [rewrite app_nil_r|]; reflexivity.
  - simpl. destruct (idx <? 0); simpl; [rewrite app_nil_r; reflexivity|].
    destruct (scan_back is_8_24_3 csvd idx) as [i|e]; simpl; [|reflexivity].
    destruct (i <? 8); simpl; [rewrite app_nil_r; reflexivity|].
    destruct (py_getitem csvd i) as [tok|e]; simpl; [|reflexivity].
    destruct (negb (String.eqb tok "8")); simpl;
      [rewrite app_nil_r; reflexivity|].
    destruct (Parse.read_entry g csvd combined_readings i) as [[idx' r]|e];
      simpl; [|reflexivity].
    rewrite (IH idx' (readings ++ [r])). rewrite (IH idx' [r]).
    rewrite bind_assoc. apply bind_ext. intros [stop rs]. simpl.
    rewrite <- app_assoc. reflexivity.
Qed.

(** Any bound above the scan position gives the same run. *)
Lemma get_list_loop_fuel fuel1 fuel2 idx readings :
  (Z.to_nat (idx + 1) <= fuel1)%nat -> (Z.to_nat (idx + 1) <= fuel2)%nat ->
  get_list_loop fuel1 idx readings = get_list_loop fuel2 idx readings.
Proof.
  revert fuel2 idx readings.
  induction fuel1 as [|fuel1 IH]; intros fuel2 idx readings H1 H2.
  - assert (Hneg : idx < 0) by lia.
    apply Z.ltb_lt in Hneg.
    destruct fuel2; simpl; rewrite Hneg; reflexivity.
  - destruct fuel2 as [|fuel2].
    + assert (Hneg : idx < 0) by lia.
      apply Z.ltb_lt in Hneg. simpl. rewrite Hneg. reflexivity.
    + simpl. destruct (idx <? 0) eqn:E; [reflexivity|].
      apply Z.ltb_ge in E.
      destruct (scan_back is_8_24_3 csvd idx) as [i|e] eqn:Es; simpl;
        [|reflexivity].
      destruct (i <? 8); [reflexivity|].
      destruct (py_getitem csvd i) as [tok|e]; simpl; [|reflexivity].
      destruct (negb (String.eqb tok "8")); [reflexivity|].
      destruct (Parse.read_entry g csvd combined_readings i)
        as [[idx' r]|e] eqn:Er; simpl; [|reflexivity].
      apply scan_back_range in Es. apply read_entry_position in Er.
      apply IH; lia.
Qed.

Lemma combined_ref_raises idx e :
  combined_ref csvd combined_readings idx = Raise e ->
  e = IndexError \/ e = ValueError.
Proof.
  unfold combined_ref. intros Hr.
  apply bind_Raise in Hr as [Hr | (tok & _ & Hr)];
    [apply py_getitem_raises in Hr; auto|].
  apply bind_Raise in Hr as [Hr | (v & _ & Hr)];
    [apply py_int_raises in Hr; auto|].
  apply py_getitem_raises in Hr; auto.
Qed.

(** What an entry can raise. *)
Lemma read_entry_raises i e :
  read_entry i = Raise e -> e = IndexError \/ CodecError e.
Proof.
  unfold Parse.read_entry, CodecError. intros Hr.
  apply bind_Raise in Hr as [Hr | (tok & _ & Hr)];
    [apply py_getitem_raises in Hr; auto|].
  apply bind_Raise in Hr as [Hr | ([ts idx1] & _ & Hr)].
  { destruct (String.eqb tok "9").
    - apply bind_Raise in Hr as [Hr | (enc & _ & Hr)];
        [apply py_getitem_raises in Hr; auto|].
      apply bind_Raise in Hr as [Hr | (t & _ & Hr)]; [|discriminate].
      apply timestamp_from_encoded_raises in Hr. auto.
    - apply bind_Raise in Hr as [Hr | (c & _ & Hr)]; [|discriminate].
      apply combined_ref_raises in Hr. tauto. }
  apply bind_Raise in Hr as [Hr | (ts' & _ & Hr)];
    [apply add_hours_raises in Hr; auto|].
  apply bind_Raise in Hr as [Hr | (tok' & _ & Hr)];
    [apply py_getitem_raises in Hr; auto|].
  apply bind_Raise in Hr as [Hr | (k & _ & Hr)]; [|discriminate].
  destruct (String.eqb tok' "10").
  - apply bind_Raise in Hr as [Hr | (val & _ & Hr)];
      [apply py_getitem_raises in Hr; auto|].
    apply py_float_raises in Hr. auto.
  - apply bind_Raise in Hr as [Hr | (c & _ & Hr)]; [|discriminate].
    apply combined_ref_raises in Hr. tauto.
Qed.

Lemma read_entry_terminates i : read_entry i <> Raise OutOfFuel.
Proof.
  intros Hr. apply read_entry_raises in Hr. unfold CodecError in Hr.
  intuition discriminate.
Qed.

(** The bound of [_get_list_readings] is never reached. *)
Lemma get_list_loop_terminates fuel idx readings :
  (Z.to_nat (idx + 1) <= fuel)%nat ->
  get_list_loop fuel idx readings <> Raise OutOfFuel.
Proof.
  revert idx readings. induction fuel as [|fuel IH]; intros idx readings Hf.
  - assert (Hneg : idx < 0) by lia.
    apply Z.ltb_lt in Hneg. simpl. rewrite Hneg. discriminate.
  - simpl. destruct (idx <? 0) eqn:E; [discriminate|].
    apply Z.ltb_ge in E.
    destruct (scan_back is_8_24_3 csvd idx) as [i|e] eqn:Es; simpl.
    2:{ apply scan_back_raises in Es. subst. discriminate. }
    destruct (i <? 8); [discriminate|].
    destruct (py_getitem csvd i) as [tok|e] eqn:Et; simpl.
    2:{ apply py_getitem_raises in Et. subst. discriminate. }
    destruct (negb (String.eqb tok "8")); [discriminate|].
    destruct (Parse.read_entry g csvd combined_readings i)
      as [[idx' r]|e] eqn:Er; simpl.
    + apply scan_back_range in Es. apply read_entry_position in Er.
      apply IH. lia.
    + intros Hf'. inversion Hf'. subst. revert Er. apply read_entry_terminates.
Qed.

(** One more entry: the run from [idx] is the entry's reading followed by
    the run from where the entry leaves the scan position. *)
Lemma get_list_readings_step idx i idx' r :
  entry_at idx i ->
  read_entry i = OK (idx', r) ->
  _get_list_readings idx
  = ('(stop, rs) <- _get_list_readings idx' ;; OK (stop, r :: rs)).
Proof.
  intros (Hidx & Hscan & Hi & Htok) Hr.
  unfold Parse._get_list_readings.
  destruct (Z.to_nat (idx + 1)) as [|fuel] eqn:Ef; [lia|].
  simpl. destruct (idx <? 0) eqn:E; [apply Z.ltb_lt in E; lia|].
  rewrite Hscan. simpl.
  destruct (i <? 8) eqn:E8; [apply Z.ltb_lt in E8; lia|].
  rewrite Htok. simpl. rewrite Hr. simpl.
  rewrite get_list_loop_prefix.
  apply scan_back_range in Hscan. pose proof (read_entry_position _ _ _ Hr).
  rewrite (get_list_loop_fuel fuel (Z.to_nat (idx' + 1))) by lia.
  reflexivity.
Qed.

(** A failing entry fails the run. *)
Lemma get_list_readings_step_raise idx i e :
  entry_at idx i ->
  read_entry i = Raise e ->
  _get_list_readings idx = Raise e.
Proof.
  intros (Hidx & Hscan & Hi & Htok) Hr.
  unfold Parse._get_list_readings.
  destruct (Z.to_nat (idx + 1)) as [|fuel] eqn:Ef; [lia|].
  simpl. destruct (idx <? 0) eqn:E; [apply Z.ltb_lt in E; lia|].
  rewrite Hscan. simpl.
  destruct (i <? 8) eqn:E8; [apply Z.ltb_lt in E8; lia|].
  rewrite Htok. simpl. rewrite Hr. reflexivity.
Qed.

(** The run from [idx0] is what it has decoded when it visits [idx],
    followed by the run from [idx]. *)
Lemma visits_run idx0 idx acc :
  visits idx0 idx acc ->
  _get_list_readings idx0
  = ('(stop, rs) <- _get_list_readings idx ;; OK (stop, acc ++ rs)).
Proof.
  induction 1 as [|idx acc i idx' r Hv IH He Hr].
  - destruct (_get_list_readings idx0) as [[stop rs]|e]; reflexivity.
  - rewrite IH. rewrite (get_list_readings_step _ _ _ _ He Hr).
    rewrite bind_assoc. apply bind_ext. intros [stop rs]. simpl.
    rewrite <- app_assoc. reflexivity.
Qed.

Lemma visits_run_raise idx0 idx acc e :
  visits idx0 idx acc ->
  _get_list_readings idx = Raise e ->
  _get_list_readings idx0 = Raise e.
Proof. intros Hv He. rewrite (visits_run _ _ _ Hv), He. reflexivity. Qed.

Lemma get_list_readings_terminates idx :
  _get_list_readings idx <> Raise OutOfFuel.
Proof. apply get_list_loop_terminates. lia. Qed.

End Run.

End PerMeterFacts.

(* ===================================================================== *)
(** * Claims about the per-meter decoder                                  *)
(* ===================================================================== *)

Module PerMeterClaims.

Import TimeUtils Parse PerMeter PyFacts ScanFacts CodecFacts PerMeterFacts.
Import Host Fixtures.

(** C4. In every run of [_get_list_readings], an entry with a
    back-reference that resolves outside the combined list makes the whole
    call raise [IndexError]: the readings decoded before it are not
    returned. *)
Theorem dangling_reference_is_a_hard_failure `{LocalClock} `{FloatModel}
        (g : Globals) (csvd : list string)
        (combined_readings : list MeterReading)
        (idx0 idx i : Z) (acc : list MeterReading) :
  visits g csvd combined_readings idx0 idx acc ->
  entry_at csvd idx i ->
  dangling_reference g csvd combined_readings i ->
  _get_list_readings g csvd idx0 combined_readings = Raise IndexError.
Proof.
  intros Hv He Hd.
  apply (visits_run_raise _ _ _ _ _ _ _ Hv).
  apply (get_list_readings_step_raise _ _ _ _ _ _ He).
  unfold read_entry.
  destruct Hd as [tok v Htok Hne Hint Hj | t idx1 t' tok v Hts Hadd Htok Hne Hint Hj].
  - rewrite Htok. simpl. apply String.eqb_neq in Hne. rewrite Hne.
    unfold combined_ref. rewrite Htok. simpl. rewrite Hint. simpl.
    rewrite py_getitem_out_of_range by exact Hj. reflexivity.
  - assert (Hfirst :
      (tok <- py_getitem csvd (i - 6) ;;
       '(ts, idx) <-
         (if String.eqb tok "9"
          then enc <- py_getitem csvd (i - 6 - 1) ;;
               ts <- timestamp_from_encoded enc ;; OK (ts, i - 6 - 2)
          else r <- combined_ref csvd combined_readings (i - 6) ;;
               OK (timestamp r, i - 6 - 1)) ;;
       OK (ts, idx)) = OK (t, idx1)).
    { destruct Hts as [enc t Hm Henc Hdec | tok1 v1 c Htok1 Hne1 Hint1 Hc].
      - rewrite Hm. simpl.
        replace (i - 6 - 1) with (i - 7) by lia. rewrite Henc. simpl.
        rewrite Hdec. simpl. f_equal. f_equal. lia.
      - rewrite Htok1. simpl.
        apply String.eqb_neq in Hne1. rewrite Hne1.
        unfold combined_ref. rewrite Htok1. simpl. rewrite Hint1. simpl.
        rewrite Hc. simpl. f_equal. f_equal. lia. }
    destruct (py_getitem csvd (i - 6)) as [tok0|e]; simpl in *; [|discriminate].
    destruct (if String.eqb tok0 "9" then _ else _) as [[ts idx2]|e];
      simpl in *; [|discriminate].
    inversion Hfirst; subst. rewrite Hadd. simpl. rewrite Htok. simpl.
    apply String.eqb_neq in Hne. rewrite Hne.
    unfold combined_ref. rewrite Htok. simpl. rewrite Hint. simpl.
    rewrite py_getitem_out_of_range by exact Hj. reflexivity.
Qed.

Lemma dangling_reference_witness :
  _get_list_readings (H := UTC) (H0 := Decimal) after_imports
                     reference_stream 8 [] = Raise IndexError.
Proof.
  refine (dangling_reference_is_a_hard_failure
            (H := UTC) (H0 := Decimal) after_imports reference_stream []
            8 8 8 [] _ _ _).
  - apply visits_start.
  - repeat split; [lia | lia].
  - refine (dangling_timestamp (H := UTC) (H0 := Decimal) after_imports reference_stream [] 8 "-8" (-8)
              eq_refl (fun E => ltac:(discriminate E)) eq_refl _).
    left. reflexivity.
Defined.

(** The offset handed to [set_import_time_offset] is stored under the name
    of [time_utils]; the name [parse] reads stays what the import made it. *)
Lemma set_import_time_offset_parse (hours : Z) (g : Globals) :
  parse_time_offset (set_import_time_offset hours g) = parse_time_offset g.
Proof. reflexivity. Qed.

Lemma read_entry_offset `{LocalClock} `{FloatModel}
      (g1 g2 : Globals) csvd (combined_readings : list MeterReading) i :
  parse_time_offset g1 = parse_time_offset g2 ->
  read_entry g1 csvd combined_readings i = read_entry g2 csvd combined_readings i.
Proof. unfold read_entry. intros ->. reflexivity. Qed.

Lemma get_list_loop_offset `{LocalClock} `{FloatModel}
      (g1 g2 : Globals) csvd (combined_readings : list MeterReading)
      fuel idx readings :
  parse_time_offset g1 = parse_time_offset g2 ->
  get_list_loop fuel g1 csvd combined_readings idx readings
  = get_list_loop fuel g2 csvd combined_readings idx readings.
Proof.
  intros Hg. revert idx readings.
  induction fuel as [|fuel IH]; intros idx readings; simpl; [reflexivity|].
  destruct (idx <? 0); [reflexivity|].
  apply bind_ext. intros i. destruct (i <? 8); [reflexivity|].
  apply bind_ext. intros tok. destruct (negb _); [reflexivity|].
  rewrite (read_entry_offset g1 g2) by exact Hg.
  apply bind_ext. intros [idx' r]. apply IH.
Qed.

(** Whatever offset is configured after the package is loaded, the
    per-meter decoder runs as if none had been. *)
Lemma configured_offset_is_ignored `{LocalClock} `{FloatModel}
      (hours : Z) csvd idx (combined_readings : list MeterReading) :
  _get_list_readings (set_import_time_offset hours after_imports)
                     csvd idx combined_readings
  = _get_list_readings after_imports csvd idx combined_readings.
Proof. apply get_list_loop_offset. reflexivity. Qed.

(** C3 (the code departs from the claim). After
    [set_import_time_offset(5)], decoding the per-meter list that holds the
    one explicit entry [0.5, 10, VdPMRgA, 9, ...] gives the timestamp
    2016-09-22T00:00:00 the token encodes, with no hour added: the decoder
    reads the name [time_offset] of [parse], which the import bound to 0
    and which [set_import_time_offset] does not rebind. *)
Theorem configured_offset_not_applied :
  time_utils_time_offset (set_import_time_offset 5 after_imports) = 5
  /\ _get_list_readings (H := UTC) (H0 := Decimal)
       (set_import_time_offset 5 after_imports) explicit_stream 10 []
     = OK (0, [reading 1474502400 (5, 1%nat)]).
Proof. split; reflexivity. Qed.

End PerMeterClaims.

(* ===================================================================== *)
(** * Claims about the combined-list decoder                              *)
(* ===================================================================== *)

Module CombinedClaims.

Import TimeUtils Parse Combined PyFacts ScanFacts CodecFacts.
Import Host Fixtures.

(** The token at a known place of a stream. *)
Lemma py_getitem_at {A} (l front back : list A) (x : A) (i : Z) :
  l = front ++ x :: back ->
  i = Z.of_nat (List.length front) ->
  py_getitem l i = OK x.
Proof.
  intros -> ->. rewrite py_getitem_nat.
  rewrite nth_error_app2 by lia. rewrite Nat.sub_diag. reflexivity.
Qed.

Lemma scan_back_at stop (l front skipped back : list string) (m : string)
      (idx : Z) :
  l = front ++ m :: skipped ++ back ->
  stop m = true ->
  Forall (fun t => stop t = false) skipped ->
  Z.of_nat (List.length front) <= idx
    <= Z.of_nat (List.length front + List.length skipped) ->
  scan_back stop l idx = OK (Z.of_nat (List.length front)).
Proof.
  intros -> Hm Hsk Hidx.
  replace idx
    with (Z.of_nat (List.length front
                    + Z.to_nat (idx - Z.of_nat (List.length front)))) by lia.
  apply scan_back_stops; auto. lia.
Qed.

Lemma markers_not_9_or_11 :
  is_9_or_11 "10" = false /\ is_9_or_11 "8" = false
  /\ is_9_or_11 "9" = true /\ is_9_or_11 "11" = true.
Proof. repeat split. Qed.

Lemma region_snoc es e : region (es ++ [e]) = region es ++ entry_tokens e.
Proof.
  unfold region. rewrite map_app, concat_app. simpl.
  rewrite app_nil_r. reflexivity.
Qed.

Lemma region_length es : (List.length es <= List.length (region es))%nat.
Proof.
  induction es as [|e es IH]; simpl; [lia|].
  unfold region in *. simpl. rewrite length_app. simpl. lia.
Qed.

Section Scan.
Context `{LocalClock} `{FloatModel}.
Variable pre : list string.

(** The loop, entered above a region of well-formed entries with at most
    [k] unreserved tokens between the scan position and the region, reads
    the region from its last entry to its first and ends on the terminal
    marker. *)
Lemma read_combined_loop_region es :
  forall rs back (k : nat) fuel ret before,
    Forall2 well_formed es rs ->
    Forall (fun tok => is_9_or_11 tok = false) (firstn k back) ->
    (k <= List.length back)%nat ->
    (List.length es < fuel)%nat ->
    py_getitem (pre ++ "11" :: region es ++ back)
               (Z.of_nat (List.length pre) - 2) = OK before ->
    read_combined_loop fuel (pre ++ "11" :: region es ++ back)
      (Z.of_nat (List.length pre + List.length (region es) + k)) ret
    = OK (exit_log before, ret ++ rev rs).
Proof.
  induction es as [|e es IH] using rev_ind;
    intros rs back k fuel ret before Hwf Hback Hk Hfuel Hbefore.
  - inversion Hwf; subst. simpl. rewrite app_nil_r.
    destruct fuel as [|fuel]; [lia|]. simpl region in *. simpl app in *.
    cbn [read_combined_loop].
    destruct (_ <? 0) eqn:E; [apply Z.ltb_lt in E; lia|].
    rewrite (scan_back_at is_9_or_11 _ pre (firstn k back) (skipn k back) "11");
      [ | rewrite firstn_skipn; reflexivity | reflexivity | exact Hback
        | rewrite length_firstn; simpl; lia ].
    simpl.
    destruct (Z.of_nat (List.length pre) <? 0) eqn:E0;
      [apply Z.ltb_lt in E0; lia|].
    rewrite Hbefore. simpl. unfold exit_log.
    destruct (String.eqb before "10"); simpl; [|reflexivity].
    rewrite (py_getitem_at _ pre back "11") by reflexivity.
    reflexivity.
  - apply Forall2_app_inv_l in Hwf as (rs1 & rs2 & Hwf1 & Hwf2 & ->).
    inversion Hwf2 as [|e' r es' rs' Hr Hnil]; subst.
    inversion Hnil; subst. clear Hwf2 Hnil.
    destruct Hr as (Hval & Henc & Hfill & Hfloat & Hdec).
    destruct fuel as [|fuel]; [rewrite length_app in Hfuel; simpl in Hfuel; lia|].
    rewrite region_snoc in *.
    set (base := (List.length pre + 1 + List.length (region es))%nat).
    assert (Hstream :
      pre ++ "11" :: (region es ++ entry_tokens e) ++ back
      = (pre ++ "11" :: region es ++ [e_value e; "10"; e_enc e])
          ++ "9" :: (e_fill e ++ ["8"] ++ firstn k back) ++ skipn k back).
    { unfold entry_tokens. rewrite <- !app_assoc. simpl.
      rewrite <- !app_assoc. simpl. rewrite firstn_skipn. reflexivity. }
    assert (Hfront :
      List.length (pre ++ "11" :: region es ++ [e_value e; "10"; e_enc e])
      = (base + 3)%nat).
    { rewrite !length_app. simpl. rewrite length_app. simpl. unfold base. lia. }
    cbn [read_combined_loop].
    destruct (_ <? 0) eqn:E; [apply Z.ltb_lt in E; lia|].
    rewrite (scan_back_at is_9_or_11 _ _ _ _ _ _ Hstream eq_refl).
    2:{ apply Forall_app. split; [exact Hfill|].
        apply Forall_app. split; [repeat constructor | exact Hback]. }
    2:{ rewrite Hfront. rewrite !length_app. unfold entry_tokens. simpl.
        rewrite !length_app. simpl. rewrite length_firstn. unfold base. lia. }
    rewrite Hfront. simpl bind.
    destruct (Z.of_nat (base + 3) <? 0) eqn:E0; [apply Z.ltb_lt in E0; lia|].
    rewrite (py_getitem_at _ (pre ++ "11" :: region es ++ [e_value e])
               (e_enc e :: "9" :: e_fill e ++ ["8"] ++ back) "10").
    2:{ unfold entry_tokens. rewrite <- !app_assoc. simpl.
        rewrite <- !app_assoc. reflexivity. }
    2:{ rewrite !length_app. simpl. rewrite length_app. simpl. unfold base. lia. }
    simpl.
    rewrite (py_getitem_at _ _ _ "9" _ Hstream) by (rewrite Hfront; reflexivity).
    simpl.
    rewrite (py_getitem_at _ (pre ++ "11" :: region es ++ [e_value e; "10"])
               ("9" :: e_fill e ++ ["8"] ++ back) (e_enc e)).
    2:{ unfold entry_tokens. rewrite <- !app_assoc. simpl.
        rewrite <- !app_assoc. reflexivity. }
    2:{ rewrite !length_app. simpl. rewrite length_app. simpl. unfold base. lia. }
    simpl. rewrite Hdec. simpl.
    rewrite (py_getitem_at _ (pre ++ "11" :: region es)
               ("10" :: e_enc e :: "9" :: e_fill e ++ ["8"] ++ back) (e_value e)).
    2:{ unfold entry_tokens. rewrite <- !app_assoc. simpl.
        rewrite <- !app_assoc. reflexivity. }
    2:{ rewrite !length_app. simpl. unfold base. lia. }
    simpl. rewrite Hfloat. simpl.
    replace (pre ++ "11" :: (region es ++ entry_tokens e) ++ back)
      with (pre ++ "11" :: region es ++ (entry_tokens e ++ back))
      by (rewrite <- app_assoc; reflexivity).
    replace (Z.of_nat (base + 3) - 1)
      with (Z.of_nat (List.length pre + List.length (region es) + 3))
      by (unfold base; lia).
    rewrite (IH rs1 (entry_tokens e ++ back) 3%nat fuel
               (ret ++ [mkMeterReading (timestamp r) (kwh r)]) before).
    + rewrite rev_app_distr. simpl. rewrite <- app_assoc. simpl.
      destruct r. reflexivity.
    + exact Hwf1.
    + unfold entry_tokens. simpl. repeat constructor; assumption.
    + unfold entry_tokens. simpl. lia.
    + rewrite length_app in Hfuel. simpl in Hfuel. lia.
    + rewrite <- Hbefore. f_equal. rewrite <- app_assoc. reflexivity.
Qed.
End Scan.

(** C2 (amended). For every stream of at least two tokens made of any
    tokens, the terminal marker ['11'] and a region of [N] well-formed
    entries, [_read_combined] returns exactly the [N] readings the entries
    encode, in the order of the stream (oldest first). The log is
    [exit_log] of the token two places before the marker. *)
Theorem read_combined_returns_the_region `{LocalClock} `{FloatModel}
        (pre : list string) (es : list entry) (rs : list MeterReading) :
  Forall2 well_formed es rs ->
  (2 <= List.length (pre ++ "11" :: region es))%nat ->
  exists before,
    py_getitem (pre ++ "11" :: region es) (Z.of_nat (List.length pre) - 2)
    = OK before
    /\ _read_combined (pre ++ "11" :: region es) = OK (exit_log before, rs)
    /\ List.length rs = List.length es.
Proof.
  intros Hwf Hlen.
  destruct (py_getitem_total (pre ++ "11" :: region es)
              (Z.of_nat (List.length pre) - 2)) as [before Hbefore].
  { rewrite length_app in *. simpl in *. lia. }
  exists before. split; [exact Hbefore|]. split.
  - unfold _read_combined.
    pose proof (read_combined_loop_region pre es rs [] 0
                  (List.length (pre ++ "11" :: region es)) [] before Hwf) as Hloop.
    rewrite app_nil_r in Hloop.
    replace (Z.of_nat (List.length (pre ++ "11" :: region es)) - 1)
      with (Z.of_nat (List.length pre + List.length (region es) + 0))
      by (rewrite length_app; simpl; lia).
    rewrite Hloop.
    + simpl. rewrite rev_involutive. reflexivity.
    + constructor.
    + simpl. lia.
    + rewrite length_app. simpl. pose proof (region_length es). lia.
    + exact Hbefore.
  - symmetry. eapply Forall2_length. exact Hwf.
Qed.

Lemma read_combined_region_witness :
  exists before,
    py_getitem (["13"; "12"] ++ "11" :: region [mkentry "0.5" "VdPMRgA"
                                                  ["0"; "0"; "1"; "0"; "0"]])
               (Z.of_nat (List.length ["13"; "12"]) - 2) = OK before
    /\ _read_combined (H := UTC) (H0 := Decimal)
         (["13"; "12"] ++ "11" :: region [mkentry "0.5" "VdPMRgA"
                                            ["0"; "0"; "1"; "0"; "0"]])
       = OK (exit_log before, [reading 1474502400 (5, 1%nat)])
    /\ List.length [reading 1474502400 (5, 1%nat)]
       = List.length [mkentry "0.5" "VdPMRgA" ["0"; "0"; "1"; "0"; "0"]].
Proof.
  apply (read_combined_returns_the_region (H := UTC) (H0 := Decimal)).
  - constructor; [|constructor].
    repeat split; repeat constructor.
  - simpl. lia.
Defined.

(** C2, as stated, fails on a region whose second entry has the reading
    ['9']: the entry has the shape the claim asks for (a value token,
    ['10'], an encoded timestamp, ['9'], fillers and ['8']) and its tokens
    parse, to 9.0 kWh at 2016-09-22T00:00:00; but on the way from this
    entry to the one before it the backward scan takes the value token for
    the marker ['9'], and of the two readings one is returned, with the
    diagnostic. *)
Lemma marker_valued_reading_cuts_the_scan :
  py_float (H := Decimal) "9" = OK (9, 0%nat)
  /\ timestamp_from_encoded (H := UTC) "VdPMRgA"
     = OK (mkdatetime 1474502400)
  /\ _read_combined (H := UTC) (H0 := Decimal)
       (["10"; "12"] ++ "11"
          :: region [mkentry "0.5" "VdPMRgA" ["0"; "0"; "1"; "0"; "0"];
                     mkentry "9" "VdPMRgA" ["0"; "0"; "1"; "0"; "0"]])
     = OK ([Warning UNEXPECTED_EXIT_COMBINED_LIST],
           [reading 1474502400 (9, 0%nat)]).
Proof. repeat split. Qed.

(** With the reading written ['9.0'] the same region gives its two
    readings, and no diagnostic behind a ['10']. *)
Example unreserved_reading_is_read :
  _read_combined (H := UTC) (H0 := Decimal)
    (["10"; "12"] ++ "11"
       :: region [mkentry "0.5" "VdPMRgA" ["0"; "0"; "1"; "0"; "0"];
                  mkentry "9.0" "VdPMRgA" ["0"; "0"; "1"; "0"; "0"]])
  = OK ([], [reading 1474502400 (5, 1%nat); reading 1474502400 (9, 0%nat)]).
Proof. reflexivity. Qed.

(** C5 (the code departs from the claim). On the stream of
    [test_combined_read], with one entry, the backward scan finds the
    terminal marker ['11'] and still logs the diagnostic: the token two
    places before the marker, ['13'], is compared with ['10'] before the
    marker is looked at. The reading is returned. *)
Theorem terminal_marker_logs_the_diagnostic :
  _read_combined (H := UTC) (H0 := Decimal) combined_stream
  = OK ([Warning UNEXPECTED_EXIT_COMBINED_LIST],
        [reading 1474502400 (5, 1%nat)]).
Proof. reflexivity. Qed.

(** The exit on the terminal marker is silent only behind a ['10']. *)
Example terminal_marker_silent_exit :
  _read_combined (H := UTC) (H0 := Decimal)
    (["10"; "12"; "11"] ++ _generate_entry "0.5" "VdPMRgA")
  = OK ([], [reading 1474502400 (5, 1%nat)]).
Proof. reflexivity. Qed.

(** The stream that holds the terminal marker and nothing else: the test
    of the token two places before the marker, made before the marker is
    looked at, indexes outside the one-token list. *)
Example lone_terminal_marker_raises :
  _read_combined (H := UTC) (H0 := Decimal) ["11"] = Raise IndexError.
Proof. reflexivity. Qed.

(** A found ['9'] on a one-token stream is no diagnostic either. *)
Example lone_nine_raises :
  _read_combined (H := UTC) (H0 := Decimal) ["9"] = Raise IndexError.
Proof. reflexivity. Qed.

End CombinedClaims.

(* ===================================================================== *)
(** * The timestamp codec                                                 *)
(* ===================================================================== *)

Module CodecClaims.

Import Base64 TimeUtils Codec CodecShape PyFacts CodecFacts.
Import Host Fixtures.

(** ** Checks by enumeration *)

Lemma forall_below (n : nat) (p : Z -> bool) :
  forallb p (below n) = true ->
  forall v, 0 <= v < Z.of_nat n -> p v = true.
Proof.
  unfold below. intros Hall v Hv.
  rewrite forallb_forall in Hall. apply Hall.
  apply in_map_iff. exists (Z.to_nat v). split; [lia|].
  apply in_seq. lia.
Qed.

Lemma forall_below2 (n m : nat) (p : Z -> Z -> bool) :
  forallb (fun a => forallb (p a) (below m)) (below n) = true ->
  forall a b, 0 <= a < Z.of_nat n -> 0 <= b < Z.of_nat m -> p a b = true.
Proof.
  intros Hall a b Ha Hb.
  apply (forall_below m (p a)); [|exact Hb].
  apply (forall_below n (fun a => forallb (p a) (below m))); assumption.
Qed.

Lemma forall_ascii (p : ascii -> bool) :
  forallb (fun n => p (ascii_of_nat n)) (seq 0 256) = true ->
  forall c, p c = true.
Proof.
  intros Hall c. rewrite forallb_forall in Hall.
  rewrite <- (ascii_nat_embedding c). apply Hall.
  apply in_seq. pose proof (nat_ascii_bounded c). lia.
Qed.

(** A character of the alphabet is no pad and decodes to its sextet. *)
Lemma alphabet_char c :
  in_alphabet c = true ->
  Ascii.eqb (translate1 "$" "_" "+" "/" c) BASE64_PAD = false
  /\ table_a2b (translate1 "$" "_" "+" "/" c) = Some (sextet_of c)
  /\ 0 <= sextet_of c < 64.
Proof.
  intros Hc.
  pose proof (forall_ascii
    (fun c => implb (in_alphabet c)
       (negb (Ascii.eqb (translate1 "$" "_" "+" "/" c) BASE64_PAD)
        && match table_a2b (translate1 "$" "_" "+" "/" c) with
           | Some v => v =? sextet_of c
           | None => false
           end
        && (0 <=? sextet_of c) && (sextet_of c <? 64)))
    eq_refl c) as Hp.
  cbv beta in Hp. rewrite Hc in Hp. cbn [implb] in Hp.
  apply andb_prop in Hp as [Hp H4]. apply andb_prop in Hp as [Hp H3].
  apply andb_prop in Hp as [H1 H2].
  split; [apply negb_true_iff; exact H1|].
  split.
  - destruct (table_a2b _) as [v|]; [|discriminate].
    apply Z.eqb_eq in H2. congruence.
  - apply Z.leb_le in H3. apply Z.ltb_lt in H4. lia.
Qed.

(** The characters the encoder writes decode to the sextets it encoded. *)
Lemma encoded_char v :
  0 <= v < 64 ->
  Ascii.eqb (translate1 "$" "_" "+" "/"
               (translate1 "+" "/" "$" "_" (table_b2a v))) BASE64_PAD = false
  /\ table_a2b (translate1 "$" "_" "+" "/"
                  (translate1 "+" "/" "$" "_" (table_b2a v))) = Some v.
Proof.
  intros Hv.
  pose proof (forall_below 64
    (fun v =>
       negb (Ascii.eqb (translate1 "$" "_" "+" "/"
                          (translate1 "+" "/" "$" "_" (table_b2a v)))
                       BASE64_PAD)
       && match table_a2b (translate1 "$" "_" "+" "/"
                             (translate1 "+" "/" "$" "_" (table_b2a v))) with
          | Some w => w =? v
          | None => false
          end)
    eq_refl v Hv) as Hp.
  cbv beta in Hp.
  apply andb_prop in Hp as [H1 H2].
  split; [apply negb_true_iff; exact H1|].
  destruct (table_a2b _) as [w|]; [|discriminate].
  apply Z.eqb_eq in H2. congruence.
Qed.

Lemma int_from_bytes_snoc bin b :
  int_from_bytes (bin ++ [b]) = int_from_bytes bin * 256 + b.
Proof. unfold int_from_bytes. rewrite fold_left_app. reflexivity. Qed.

(** How the decoder packs sextets into bytes, in arithmetic. *)
Lemma pack_first lc v :
  0 <= lc < 64 -> 0 <= v < 64 ->
  Z.land (Z.lor (Z.shiftl lc 2) (Z.shiftr v 4)) 255 = lc * 4 + v / 16
  /\ Z.land v 15 = v mod 16.
Proof.
  intros Hl Hv.
  pose proof (forall_below2 64 64
    (fun lc v =>
       (Z.land (Z.lor (Z.shiftl lc 2) (Z.shiftr v 4)) 255 =? lc * 4 + v / 16)
       && (Z.land v 15 =? v mod 16)) eq_refl lc v Hl Hv) as Hp.
  apply andb_prop in Hp as [H1 H2].
  split; apply Z.eqb_eq; assumption.
Qed.

Lemma pack_second lc v :
  0 <= lc < 16 -> 0 <= v < 64 ->
  Z.land (Z.lor (Z.shiftl lc 4) (Z.shiftr v 2)) 255 = lc * 16 + v / 4
  /\ Z.land v 3 = v mod 4.
Proof.
  intros Hl Hv.
  pose proof (forall_below2 16 64
    (fun lc v =>
       (Z.land (Z.lor (Z.shiftl lc 4) (Z.shiftr v 2)) 255 =? lc * 16 + v / 4)
       && (Z.land v 3 =? v mod 4)) eq_refl lc v Hl Hv) as Hp.
  apply andb_prop in Hp as [H1 H2].
  split; apply Z.eqb_eq; assumption.
Qed.

Lemma pack_third lc v :
  0 <= lc < 4 -> 0 <= v < 64 ->
  Z.land (Z.lor (Z.shiftl lc 6) v) 255 = lc * 64 + v.
Proof.
  intros Hl Hv.
  pose proof (forall_below2 4 64
    (fun lc v => Z.land (Z.lor (Z.shiftl lc 6) v) 255 =? lc * 64 + v)
    eq_refl lc v Hl Hv) as Hp.
  apply Z.eqb_eq. assumption.
Qed.

Lemma translate_app f1 f2 t1 t2 s1 s2 :
  translate f1 f2 t1 t2 (s1 ++ s2)
  = (translate f1 f2 t1 t2 s1 ++ translate f1 f2 t1 t2 s2)%string.
Proof. induction s1 as [|c s1 IH]; simpl; [reflexivity | rewrite IH; reflexivity]. Qed.

(** ** The decoder on tokens of the alphabet *)

(** From a state that has [pending_bits quad_pos] bits in [leftchar], the
    decoder rejects the token when it leaves one character in the last
    quad, and otherwise returns the bytes of the number the token spells,
    without the bits that do not fill a byte. *)
Lemma a2b_base64_alphabet s :
  all_in_alphabet s = true ->
  forall quad_pos leftchar bin,
    (quad_pos < 4)%nat ->
    0 <= leftchar < 2 ^ pending_bits quad_pos ->
    if ((quad_pos + String.length s) mod 4 =? 1)%nat
    then a2b_base64 (translate "$" "_" "+" "/" s ++ "==") quad_pos leftchar 0 bin
         = Raise BinasciiError
    else exists out,
        a2b_base64 (translate "$" "_" "+" "/" s ++ "==") quad_pos leftchar 0 bin
        = OK out
        /\ int_from_bytes out
           = token_bits s (int_from_bytes bin * 2 ^ pending_bits quad_pos
                           + leftchar)
             / 2 ^ pending_bits ((quad_pos + String.length s) mod 4).
Proof.
  induction s as [|c t IH]; intros Hall quad_pos leftchar bin Hq Hl.
  - destruct quad_pos as [|[|[|[|q]]]]; try lia; cbn in *.
    + exists bin. split; [reflexivity|].
      rewrite Z.div_1_r. lia.
    + reflexivity.
    + exists bin. split; [reflexivity|].
      change (Z.pow_pos 2 4) with 16 in *. Z.div_mod_to_equations. lia.
    + exists bin. split; [reflexivity|].
      change (Z.pow_pos 2 2) with 4 in *. Z.div_mod_to_equations. lia.
  - cbn [all_in_alphabet] in Hall. apply andb_prop in Hall as [Hc Ht].
    destruct (alphabet_char c Hc) as (Hpad & Htab & Hv).
    cbn [translate append a2b_base64]. rewrite Hpad, Htab.
    cbn [String.length token_bits].
    destruct quad_pos as [|[|[|[|q]]]]; try lia.
    + specialize (IH Ht 1%nat (sextet_of c) bin ltac:(lia) ltac:(cbn; lia)).
      replace ((0 + S (String.length t)) mod 4)%nat
        with ((1 + String.length t) mod 4)%nat by (f_equal; lia).
      cbn [pending_bits] in Hl |- *.
      replace (int_from_bytes bin * 2 ^ 0 + leftchar) with (int_from_bytes bin)
        by lia.
      change (2 ^ pending_bits 1) with 64 in IH.
      replace ((int_from_bytes bin) * 64 + sextet_of c)
        with (int_from_bytes bin * 64 + sextet_of c) by lia.
      exact IH.
    + cbn [pending_bits] in Hl. change (2 ^ 6) with 64 in Hl.
      destruct (pack_first leftchar (sextet_of c) Hl Hv) as [Hb Hr].
      rewrite Hb, Hr.
      specialize (IH Ht 2%nat (sextet_of c mod 16)
                     (bin ++ [leftchar * 4 + sextet_of c / 16]) ltac:(lia)).
      replace ((1 + S (String.length t)) mod 4)%nat
        with ((2 + String.length t) mod 4)%nat by (f_equal; lia).
      rewrite int_from_bytes_snoc in IH.
      cbn [pending_bits] in IH |- *. change (2 ^ 4) with 16 in IH.
      change (2 ^ 6) with 64.
      replace ((int_from_bytes bin * 64 + leftchar) * 64 + sextet_of c)
        with ((int_from_bytes bin * 256 + (leftchar * 4 + sextet_of c / 16)) * 16
              + sextet_of c mod 16)
        by (Z.div_mod_to_equations; lia).
      apply IH. Z.div_mod_to_equations. lia.
    + cbn [pending_bits] in Hl. change (2 ^ 4) with 16 in Hl.
      destruct (pack_second leftchar (sextet_of c) Hl Hv) as [Hb Hr].
      rewrite Hb, Hr.
      specialize (IH Ht 3%nat (sextet_of c mod 4)
                     (bin ++ [leftchar * 16 + sextet_of c / 4]) ltac:(lia)).
      replace ((2 + S (String.length t)) mod 4)%nat
        with ((3 + String.length t) mod 4)%nat by (f_equal; lia).
      rewrite int_from_bytes_snoc in IH.
      cbn [pending_bits] in IH |- *. change (2 ^ 2) with 4 in IH.
      change (2 ^ 4) with 16.
      replace ((int_from_bytes bin * 16 + leftchar) * 64 + sextet_of c)
        with ((int_from_bytes bin * 256 + (leftchar * 16 + sextet_of c / 4)) * 4
              + sextet_of c mod 4)
        by (Z.div_mod_to_equations; lia).
      apply IH. Z.div_mod_to_equations. lia.
    + cbn [pending_bits] in Hl. change (2 ^ 2) with 4 in Hl.
      rewrite (pack_third leftchar (sextet_of c) Hl Hv).
      specialize (IH Ht 0%nat 0
                     (bin ++ [leftchar * 64 + sextet_of c]) ltac:(lia)).
      replace ((3 + S (String.length t)) mod 4)%nat
        with ((0 + String.length t) mod 4)%nat.
      2:{ replace (3 + S (String.length t))%nat
            with (String.length t + 1 * 4)%nat by lia.
          rewrite Nat.Div0.mod_add. reflexivity. }
      rewrite int_from_bytes_snoc in IH.
      cbn [pending_bits] in IH |- *. change (2 ^ 0) with 1 in IH.
      change (2 ^ 2) with 4.
      replace ((int_from_bytes bin * 4 + leftchar) * 64 + sextet_of c)
        with ((int_from_bytes bin * 256 + (leftchar * 64 + sextet_of c)) * 1 + 0)
        by lia.
      apply IH. lia.
Qed.

Lemma token_bits_nonneg s acc : 0 <= acc -> 0 <= token_bits s acc.
Proof.
  revert acc. induction s as [|c t IH]; intros acc Hacc; simpl; [exact Hacc|].
  apply IH.
  assert (0 <= sextet_of c); [|lia].
  unfold sextet_of.
  repeat match goal with |- context [if ?b then _ else _] =>
    let E := fresh "E" in destruct b eqn:E end;
  repeat match goal with
  | E : (_ && _) = true |- _ => apply andb_prop in E as [? ?]
  | E : (_ <=? _) = true |- _ => apply Z.leb_le in E
  end; lia.
Qed.

Lemma time_t_range `{LocalClock} t :
  0 <= t <= MAX_WALL + 86400 ->
  (t <? - 2 ^ 63) || (2 ^ 63 <=? t) = false
  /\ (t + utcoffset_at t <? LOCALTIME_MIN)
     || (LOCALTIME_MAX <? t + utcoffset_at t) = false.
Proof.
  intros Ht. pose proof (utcoffset_at_bound t) as Hb.
  unfold LOCALTIME_MIN, LOCALTIME_MAX, MAX_WALL in *.
  split; apply orb_false_iff; split;
    first [apply Z.ltb_ge | apply Z.leb_gt]; lia.
Qed.

Lemma fromtimestamp_in_range `{LocalZone} t :
  0 <= t -> wall_in_range (t + utcoffset) = true ->
  fromtimestamp t = OK (mkdatetime (t + utcoffset)).
Proof.
  intros Ht Hr. unfold fromtimestamp. pose proof utcoffset_bound as Hz.
  pose proof (proj1 (wall_in_range_iff _) Hr) as Hw.
  destruct (time_t_range t) as [-> ->]; [lia|].
  unfold local, max_fold_seconds. simpl utcoffset_at. rewrite Hr.
  cbn [bind].
  assert (Hp : wall_in_range (t - 24 * 3600 + utcoffset) = true).
  { apply wall_in_range_iff. unfold MIN_WALL, MAX_WALL in *. lia. }
  rewrite Hp. cbn [bind].
  destruct (_ <? 0) eqn:E; [apply Z.ltb_lt in E; lia|].
  reflexivity.
Qed.

Lemma token_ticks_nonneg s : 0 <= token_ticks s.
Proof.
  unfold token_ticks. apply Z.div_pos; [apply token_bits_nonneg; lia|].
  apply Z.pow_pos_nonneg; [lia|]. apply Z.mod_pos_bound. lia.
Qed.

(** A token of the alphabet whose length is not one more than a multiple
    of four decodes to the bytes of its tick count. *)
Lemma timestamp_from_alphabet_token `{LocalClock} s :
  all_in_alphabet s = true ->
  Z.of_nat (String.length s) mod 4 <> 1 ->
  timestamp_from_encoded s = fromtimestamp (token_ticks s / 250).
Proof.
  intros Hall Hlen.
  unfold timestamp_from_encoded, b64decode. rewrite translate_app.
  change (translate "$" "_" "+" "/" "==") with "==".
  pose proof (a2b_base64_alphabet s Hall 0%nat 0 [] ltac:(lia) ltac:(cbn; lia))
    as Hdec.
  assert (Hmod : Z.of_nat ((0 + String.length s) mod 4)
                 = Z.of_nat (String.length s) mod 4).
  { rewrite Nat.add_0_l. apply (Nat2Z.inj_mod (String.length s) 4). }
  destruct (((0 + String.length s) mod 4 =? 1)%nat) eqn:E1.
  { apply Nat.eqb_eq in E1. rewrite E1 in Hmod. simpl in Hmod. lia. }
  destruct Hdec as (out & Hout & Hval). rewrite Hout. simpl.
  assert (Hv : int_from_bytes out = token_ticks s).
  { rewrite Hval. unfold token_ticks. simpl int_from_bytes.
    replace (0 * 2 ^ pending_bits 0 + 0) with 0 by (cbn; lia).
    f_equal.
    assert (Hcase : ((0 + String.length s) mod 4 < 4)%nat)
      by (apply Nat.mod_upper_bound; lia).
    apply Nat.eqb_neq in E1.
    remember ((0 + String.length s) mod 4)%nat as r.
    destruct r as [|[|[|[|r]]]]; try lia; cbn [pending_bits];
      f_equal; Z.div_mod_to_equations; lia. }
  rewrite Hv. reflexivity.
Qed.

(** On a host at a fixed offset a valid token decodes to the second of
    its tick count. *)
Lemma timestamp_from_valid_token `{LocalZone} s :
  valid_token s ->
  0 <= token_ticks s
  /\ timestamp_from_encoded s
     = OK (mkdatetime (token_ticks s / 250 + utcoffset)).
Proof.
  intros (Hall & Hlen & Hrange).
  pose proof (token_ticks_nonneg s) as Hticks.
  split; [exact Hticks|].
  rewrite (timestamp_from_alphabet_token s Hall Hlen).
  apply fromtimestamp_in_range; [|exact Hrange].
  apply Z.div_pos; lia.
Qed.

(** ** Local time and back *)

Section OneChange.
Context `{LocalClock}.
Variables (t change before after : Z).
Hypothesis Ht : 0 <= t.
Hypothesis Hmax : local_second t + 172800 <= MAX_WALL.
Hypothesis Hjump : - 86400 <= after - before <= 86400.
Hypothesis Hoff :
  forall u, t - 172800 <= u <= t + 172800 ->
            utcoffset_at u = if u <? change then before else after.

Lemma local_near u :
  t - 172800 <= u <= t + 172800 ->
  u + (if u <? change then before else after) <= MAX_WALL ->
  local u = OK (u + if u <? change then before else after).
Proof.
  intros Hu Hm. rewrite <- (Hoff u Hu) in *. apply local_in_range.
  apply wall_in_range_iff.
  pose proof (utcoffset_at_bound u).
  unfold MIN_WALL, MAX_WALL in *. lia.
Qed.

Ltac local_bound :=
  repeat match goal with
  | |- context [?a <? ?b] => destruct (Z.ltb_spec a b)
  end; unfold MAX_WALL in *; lia.

Ltac by_cases :=
  repeat first
    [ match goal with
      | |- context [if ?a <? ?b then _ else _] =>
          destruct (Z.ltb_spec a b); try lia
      end
    | match goal with
      | |- context [if ?a =? ?b then _ else _] =>
          destruct (Z.eqb_spec a b); try lia
      end
    | match goal with
      | |- context [if ?a <=? ?b then _ else _] =>
          destruct (Z.leb_spec a b); try lia
      end
    | match goal with
      | |- context [bind (local ?u) _] =>
          rewrite (local_near u) by local_bound; cbn [bind]
      end ].

(** The wall-clock time of [t] is shown for the second time when the
    clock was set back less than the step before [t]. *)
Lemma fromtimestamp_near :
  fromtimestamp t
  = OK {| wall := local_second t;
          fold := (change <=? t) && (t <? change + (before - after)) |}.
Proof.
  pose proof (utcoffset_at_bound t) as Hb.
  pose proof (Hoff t ltac:(lia)) as Ho.
  unfold local_second in *.
  unfold fromtimestamp, max_fold_seconds.
  destruct (time_t_range t) as [-> ->]; [unfold MAX_WALL in *; lia|].
  change (24 * 3600) with 86400.
  rewrite Ho in *.
  by_cases; cbn [andb]; try reflexivity.
  all: repeat match goal with
       | |- context [?a =? ?b] => destruct (Z.eqb_spec a b); try lia
       | |- context [?a <? ?b] => destruct (Z.ltb_spec a b); try lia
       | |- context [?a <=? ?b] => destruct (Z.leb_spec a b); try lia
       end; cbn [andb]; try reflexivity.
  all: exfalso;
    repeat match goal with
    | H : context [?a <? ?b] |- _ => destruct (Z.ltb_spec a b); try lia
    end.
Qed.

(** [local_to_seconds] finds the instant back. *)
Lemma local_to_seconds_near :
  local_to_seconds (local_second t)
    ((change <=? t) && (t <? change + (before - after)))
  = OK t.
Proof.
  pose proof (utcoffset_at_bound t) as Hb.
  pose proof (Hoff t ltac:(lia)) as Ho.
  unfold local_second in *.
  unfold local_to_seconds, max_fold_seconds.
  change (24 * 3600) with 86400.
  rewrite Ho in *.
  destruct (Z.leb_spec change t);
    destruct (Z.ltb_spec t (change + (before - after)));
    cbn [andb]; by_cases; try (f_equal; lia).
Qed.

End OneChange.

(** Where the clock changes its offset at most once around [t], the local
    time of [t] is converted back to [t]. *)
Lemma timestamp_of_fromtimestamp `{LocalClock} t :
  0 <= t ->
  one_change_near t ->
  local_second t + 172800 <= MAX_WALL ->
  exists d,
    fromtimestamp t = OK d
    /\ wall d = local_second t
    /\ int_timestamp d = OK t.
Proof.
  intros Ht (change & before & after & Hjump & Hoff) Hmax.
  eexists. split; [|split].
  - apply (fromtimestamp_near t change before after); assumption.
  - reflexivity.
  - apply (local_to_seconds_near t change before after); assumption.
Qed.

(** A host at a fixed offset has no change of offset. *)
Lemma fixed_clock_one_change `{LocalZone} t : one_change_near t.
Proof.
  exists 0, utcoffset, utcoffset. split; [lia|].
  intros u _. simpl. destruct (u <? 0); reflexivity.
Qed.

(** ** The encoder, and decoding what it writes *)

Lemma byte_land x : 0 <= Z.land x 255 < 256.
Proof.
  change 255 with (Z.ones 8). rewrite Z.land_ones by lia.
  apply Z.mod_pos_bound. lia.
Qed.

Lemma split_byte a :
  0 <= a < 256 ->
  0 <= Z.shiftr a 2 < 64
  /\ 0 <= Z.land a 63 < 64
  /\ Z.land (Z.lor (Z.shiftl (Z.shiftr a 6) 6) (Z.land a 63)) 255 = a
  /\ 0 <= Z.shiftl (Z.land a 15) 2 < 64
  /\ Z.land (Z.lor (Z.shiftl (Z.shiftr a 4) 4)
                   (Z.shiftr (Z.shiftl (Z.land a 15) 2) 2)) 255 = a.
Proof.
  intros Ha.
  pose proof (forall_below 256
    (fun a =>
       (0 <=? Z.shiftr a 2) && (Z.shiftr a 2 <? 64)
       && (0 <=? Z.land a 63) && (Z.land a 63 <? 64)
       && (Z.land (Z.lor (Z.shiftl (Z.shiftr a 6) 6) (Z.land a 63)) 255 =? a)
       && (0 <=? Z.shiftl (Z.land a 15) 2) && (Z.shiftl (Z.land a 15) 2 <? 64)
       && (Z.land (Z.lor (Z.shiftl (Z.shiftr a 4) 4)
                         (Z.shiftr (Z.shiftl (Z.land a 15) 2) 2)) 255 =? a))
    eq_refl a Ha) as Hp.
  cbv beta in Hp.
  repeat match type of Hp with
         | (_ && _) = true => let H := fresh "H" in apply andb_prop in Hp as [Hp H]
         end.
  repeat match goal with
         | H : (_ <=? _) = true |- _ => apply Z.leb_le in H
         | H : (_ <? _) = true |- _ => apply Z.ltb_lt in H
         | H : (_ =? _) = true |- _ => apply Z.eqb_eq in H
         end.
  repeat split; assumption.
Qed.

Lemma split_first a b :
  0 <= a < 256 -> 0 <= b < 256 ->
  0 <= Z.lor (Z.shiftl (Z.land a 3) 4) (Z.shiftr b 4) < 64
  /\ Z.land (Z.lor (Z.shiftl (Z.shiftr a 2) 2)
                   (Z.shiftr (Z.lor (Z.shiftl (Z.land a 3) 4) (Z.shiftr b 4)) 4))
            255 = a
  /\ Z.land (Z.lor (Z.shiftl (Z.land a 3) 4) (Z.shiftr b 4)) 15 = Z.shiftr b 4.
Proof.
  intros Ha Hb.
  pose proof (forall_below2 256 256
    (fun a b =>
       (0 <=? Z.lor (Z.shiftl (Z.land a 3) 4) (Z.shiftr b 4))
       && (Z.lor (Z.shiftl (Z.land a 3) 4) (Z.shiftr b 4) <? 64)
       && (Z.land (Z.lor (Z.shiftl (Z.shiftr a 2) 2)
                         (Z.shiftr (Z.lor (Z.shiftl (Z.land a 3) 4)
                                          (Z.shiftr b 4)) 4)) 255 =? a)
       && (Z.land (Z.lor (Z.shiftl (Z.land a 3) 4) (Z.shiftr b 4)) 15
           =? Z.shiftr b 4))
    ltac:(vm_compute; reflexivity) a b Ha Hb) as Hp.
  cbv beta in Hp.
  repeat match type of Hp with
         | (_ && _) = true => let H := fresh "H" in apply andb_prop in Hp as [Hp H]
         end.
  repeat match goal with
         | H : (_ <=? _) = true |- _ => apply Z.leb_le in H
         | H : (_ <? _) = true |- _ => apply Z.ltb_lt in H
         | H : (_ =? _) = true |- _ => apply Z.eqb_eq in H
         end.
  repeat split; assumption.
Qed.

Lemma split_second b c :
  0 <= b < 256 -> 0 <= c < 256 ->
  0 <= Z.lor (Z.shiftl (Z.land b 15) 2) (Z.shiftr c 6) < 64
  /\ Z.land (Z.lor (Z.shiftl (Z.shiftr b 4) 4)
                   (Z.shiftr (Z.lor (Z.shiftl (Z.land b 15) 2) (Z.shiftr c 6)) 2))
            255 = b
  /\ Z.land (Z.lor (Z.shiftl (Z.land b 15) 2) (Z.shiftr c 6)) 3 = Z.shiftr c 6.
Proof.
  intros Hb Hc.
  pose proof (forall_below2 256 256
    (fun b c =>
       (0 <=? Z.lor (Z.shiftl (Z.land b 15) 2) (Z.shiftr c 6))
       && (Z.lor (Z.shiftl (Z.land b 15) 2) (Z.shiftr c 6) <? 64)
       && (Z.land (Z.lor (Z.shiftl (Z.shiftr b 4) 4)
                         (Z.shiftr (Z.lor (Z.shiftl (Z.land b 15) 2)
                                          (Z.shiftr c 6)) 2)) 255 =? b)
       && (Z.land (Z.lor (Z.shiftl (Z.land b 15) 2) (Z.shiftr c 6)) 3
           =? Z.shiftr c 6))
    ltac:(vm_compute; reflexivity) b c Hb Hc) as Hp.
  cbv beta in Hp.
  repeat match type of Hp with
         | (_ && _) = true => let H := fresh "H" in apply andb_prop in Hp as [Hp H]
         end.
  repeat match goal with
         | H : (_ <=? _) = true |- _ => apply Z.leb_le in H
         | H : (_ <? _) = true |- _ => apply Z.ltb_lt in H
         | H : (_ =? _) = true |- _ => apply Z.eqb_eq in H
         end.
  repeat split; assumption.
Qed.

(** One decoding step on a character that carries a sextet. *)
Lemma a2b_base64_data c v rest quad_pos leftchar pads bin :
  Ascii.eqb c BASE64_PAD = false ->
  table_a2b c = Some v ->
  a2b_base64 (String c rest) quad_pos leftchar pads bin
  = match quad_pos with
    | 0%nat => a2b_base64 rest 1 v 0 bin
    | 1%nat =>
        a2b_base64 rest 2 (Z.land v 15) 0
          (bin ++ [Z.land (Z.lor (Z.shiftl leftchar 2) (Z.shiftr v 4)) 255])
    | 2%nat =>
        a2b_base64 rest 3 (Z.land v 3) 0
          (bin ++ [Z.land (Z.lor (Z.shiftl leftchar 4) (Z.shiftr v 2)) 255])
    | _ =>
        a2b_base64 rest 0 0 0
          (bin ++ [Z.land (Z.lor (Z.shiftl leftchar 6) v) 255])
    end.
Proof. intros H1 H2. cbn [a2b_base64]. rewrite H1, H2. reflexivity. Qed.

Local Abbreviation recode s :=
  (translate "$" "_" "+" "/" (translate "+" "/" "$" "_" s)).

(** A full group of three bytes is decoded back, whatever follows. *)
Lemma decode_group a b c rest suffix leftchar pads bin :
  0 <= a < 256 -> 0 <= b < 256 -> 0 <= c < 256 ->
  a2b_base64 (recode (b2a_base64 (a :: b :: c :: rest)) ++ suffix)
             0 leftchar pads bin
  = a2b_base64 (recode (b2a_base64 rest) ++ suffix) 0 0 0 (bin ++ [a; b; c]).
Proof.
  intros Ha Hb Hc.
  destruct (split_byte a Ha) as (Ha0 & _).
  destruct (split_first a b Ha Hb) as (Hs1 & Hb0 & Hl1).
  destruct (split_second b c Hb Hc) as (Hs2 & Hb1 & Hl2).
  destruct (split_byte c Hc) as (_ & Hs3 & Hb2 & _).
  cbn [b2a_base64 translate append].
  destruct (encoded_char _ Ha0) as [P0 T0].
  destruct (encoded_char _ Hs1) as [P1 T1].
  destruct (encoded_char _ Hs2) as [P2 T2].
  destruct (encoded_char _ Hs3) as [P3 T3].
  rewrite (a2b_base64_data _ _ _ _ _ _ _ P0 T0).
  rewrite (a2b_base64_data _ _ _ _ _ _ _ P1 T1).
  rewrite (a2b_base64_data _ _ _ _ _ _ _ P2 T2).
  rewrite (a2b_base64_data _ _ _ _ _ _ _ P3 T3).
  rewrite Hb0, Hl1, Hb1, Hl2, Hb2.
  rewrite <- !app_assoc. reflexivity.
Qed.

(** A last group of two bytes ends in a pad, where the decoder stops. *)
Lemma decode_tail a b suffix leftchar pads bin :
  0 <= a < 256 -> 0 <= b < 256 ->
  a2b_base64 (recode (b2a_base64 [a; b]) ++ suffix) 0 leftchar pads bin
  = OK (bin ++ [a; b]).
Proof.
  intros Ha Hb.
  destruct (split_byte a Ha) as (Ha0 & _).
  destruct (split_first a b Ha Hb) as (Hs1 & Hb0 & Hl1).
  destruct (split_byte b Hb) as (_ & _ & _ & Hs2 & Hb1).
  cbn [b2a_base64 translate append].
  destruct (encoded_char _ Ha0) as [P0 T0].
  destruct (encoded_char _ Hs1) as [P1 T1].
  destruct (encoded_char _ Hs2) as [P2 T2].
  rewrite (a2b_base64_data _ _ _ _ _ _ _ P0 T0).
  rewrite (a2b_base64_data _ _ _ _ _ _ _ P1 T1).
  rewrite (a2b_base64_data _ _ _ _ _ _ _ P2 T2).
  rewrite Hb0, Hl1, Hb1.
  cbn. rewrite <- !app_assoc. reflexivity.
Qed.

(** Eight bytes, as [to_bytes8] writes them, survive the round trip. *)
Lemma to_bytes8_round_trip n :
  0 <= n < 2 ^ 64 ->
  exists bin,
    to_bytes8 n = OK bin
    /\ b64decode (b64encode bin ++ "==") = OK bin
    /\ int_from_bytes bin = n.
Proof.
  intros Hn. unfold to_bytes8.
  destruct (n <? 0) eqn:E1; [apply Z.ltb_lt in E1; lia|].
  destruct (2 ^ 64 <=? n) eqn:E2; [apply Z.leb_le in E2; lia|].
  cbn [orb map]. eexists. split; [reflexivity|]. split.
  - unfold b64decode, b64encode. rewrite translate_app.
    rewrite decode_group by apply byte_land.
    rewrite decode_group by apply byte_land.
    rewrite decode_tail by apply byte_land.
    reflexivity.
  - unfold int_from_bytes. cbn [fold_left].
    change 255 with (Z.ones 8). rewrite !Z.land_ones by lia.
    rewrite !Z.shiftr_div_pow2 by lia.
    change (8 * 7) with 56. change (8 * 6) with 48. change (8 * 5) with 40.
    change (8 * 4) with 32. change (8 * 3) with 24. change (8 * 2) with 16.
    change (8 * 1) with 8. change (8 * 0) with 0.
    change (2 ^ 56) with 72057594037927936.
    change (2 ^ 48) with 281474976710656.
    change (2 ^ 40) with 1099511627776.
    change (2 ^ 32) with 4294967296.
    change (2 ^ 24) with 16777216.
    change (2 ^ 16) with 65536.
    change (2 ^ 8) with 256.
    change (2 ^ 0) with 1.
    change (2 ^ 64) with 18446744073709551616 in Hn.
    Z.div_mod_to_equations. lia.
Qed.

(** C6 (amended). On a host whose clock changes its offset from UTC at
    most once within two days of the decoded instant, and by no more than
    a day, a valid timestamp token [s] whose second lies two days or more
    before the end of the year 9999 on the local clock decodes, to the
    local time of the second of its tick count (the model is a function,
    so to one time only); the decoded time encodes, and the encoding
    decodes to the same time, [fold] included. *)
Theorem decode_encode_decode `{LocalClock} (s : string) :
  valid_token s ->
  one_change_near (token_ticks s / 250) ->
  local_second (token_ticks s / 250) + 172800 <= MAX_WALL ->
  exists (t : datetime) (e : string),
    timestamp_from_encoded s = OK t
    /\ wall t = local_second (token_ticks s / 250)
    /\ encoded_from_timestamp t = OK e
    /\ timestamp_from_encoded e = OK t.
Proof.
  intros (Hall & Hlen & Hrange) Hnear Hmax.
  pose proof (token_ticks_nonneg s) as Hticks.
  set (secs := token_ticks s / 250) in *.
  assert (Hsecs : 0 <= secs) by (apply Z.div_pos; lia).
  destruct (timestamp_of_fromtimestamp secs Hsecs Hnear Hmax)
    as (t & Hfrom & Hwall & Hback).
  pose proof (utcoffset_at_bound secs) as Hz.
  unfold local_second, MAX_WALL in Hmax.
  destruct (to_bytes8_round_trip (secs * 250)) as (bin & Hbytes & Hround & Hint).
  { change (2 ^ 64) with 18446744073709551616. lia. }
  exists t, (b64encode bin).
  split; [|split; [exact Hwall|split]].
  - rewrite (timestamp_from_alphabet_token s Hall Hlen). exact Hfrom.
  - unfold encoded_from_timestamp. rewrite Hback. cbn [bind].
    rewrite Hbytes. reflexivity.
  - unfold timestamp_from_encoded. rewrite Hround. cbn [bind].
    rewrite Hint. rewrite Z.div_mul by lia. exact Hfrom.
Qed.

(** In the night the clocks of Berlin were set back in 2016 the token
    below decodes to 02:10, shown for the second time. *)
Lemma berlin_one_change u :
  BERLIN_WINTER_2016 - 172800 <= u <= BERLIN_WINTER_2016 + 172800 ->
  one_change_near (H := Berlin) u.
Proof.
  intros Hu. exists BERLIN_WINTER_2016, 7200, 3600. split; [lia|].
  intros v Hv. simpl. unfold berlin_offset.
  unfold BERLIN_WINTER_2016, BERLIN_SUMMER_2016 in *.
  destruct (Z.ltb_spec v 1459040400); [lia|]. reflexivity.
Qed.

Lemma decode_encode_decode_witness :
  exists (t : datetime) (e : string),
    timestamp_from_encoded (H := Berlin) "VgTItZA" = OK t
    /\ wall t = local_second (H := Berlin) (token_ticks "VgTItZA" / 250)
    /\ encoded_from_timestamp (H := Berlin) t = OK e
    /\ timestamp_from_encoded (H := Berlin) e = OK t.
Proof.
  apply (decode_encode_decode (H := Berlin) "VgTItZA").
  - split; [reflexivity|]. split; [|reflexivity].
    vm_compute. discriminate.
  - apply berlin_one_change. vm_compute. split; discriminate.
  - vm_compute. discriminate.
Defined.

(** C6, as stated, fails one hour east of UTC on the token of the last
    second of the year 9999: the token is valid and decodes, and the
    decoded time does not encode, [datetime.timestamp] looking for the
    local time an hour later. *)
Lemma last_second_is_not_encoded :
  valid_token (H := GMT_plus_1) "OZ30ejpm"
  /\ timestamp_from_encoded (H := GMT_plus_1) "OZ30ejpm"
     = OK (mkdatetime MAX_WALL)
  /\ encoded_from_timestamp (H := GMT_plus_1) (mkdatetime MAX_WALL)
     = Raise ValueError.
Proof.
  split; [|split; reflexivity].
  split; [reflexivity|]. split; [|reflexivity].
  vm_compute. discriminate.
Qed.

(** On a host at UTC the last second of the year 9999 decodes and encodes
    again. *)
Example last_second_utc :
  timestamp_from_encoded (H := UTC) "OZ30h_YG" = OK (mkdatetime MAX_WALL)
  /\ encoded_from_timestamp (H := UTC) (mkdatetime MAX_WALL)
     = OK "AAA5nfSH9gY=".
Proof. split; reflexivity. Qed.

(** The hour shown twice in Berlin: the first and the second 02:10 of
    2016-10-30 are told apart by [fold], and each is converted back to its
    instant. *)
Example berlin_hour_shown_twice :
  timestamp_from_encoded (H := Berlin) "VgS6$fA"
  = OK {| wall := 1477793400; fold := false |}
  /\ timestamp_from_encoded (H := Berlin) "VgTItZA"
     = OK {| wall := 1477793400; fold := true |}
  /\ int_timestamp (H := Berlin) {| wall := 1477793400; fold := false |}
     = OK 1477786200
  /\ int_timestamp (H := Berlin) {| wall := 1477793400; fold := true |}
     = OK 1477789800.
Proof. repeat split. Qed.

(** The hour the clocks of Berlin skip: 02:30 of 2016-03-27 encodes, and
    the token decodes to 03:30. *)
Example berlin_skipped_hour :
  encoded_from_timestamp (H := Berlin) (mkdatetime 1459045800)
  = OK "AAAAVO1sSnA="
  /\ timestamp_from_encoded (H := Berlin) "AAAAVO1sSnA="
     = OK (mkdatetime 1459049400).
Proof. split; reflexivity. Qed.

(** The round trip keeps the time, not the text. *)
Example reencoded_token_differs :
  encoded_from_timestamp (H := UTC) (mkdatetime 1474502400)
  = OK "AAAAVdPMRgA=".
Proof. reflexivity. Qed.

(** ** What the decoder rejects *)

Lemma translate1_pad c :
  Ascii.eqb (translate1 "$" "_" "+" "/" c) BASE64_PAD = Ascii.eqb c BASE64_PAD.
Proof.
  pose proof (forall_ascii
    (fun c => Bool.eqb (Ascii.eqb (translate1 "$" "_" "+" "/" c) BASE64_PAD)
                       (Ascii.eqb c BASE64_PAD)) eq_refl c) as Hp.
  apply Bool.eqb_prop in Hp. exact Hp.
Qed.

(** On a token without pad character the decoder skips what is no data
    character, and rejects the token exactly when the data characters
    leave one character in the last quad. *)
Lemma a2b_base64_pad_free s :
  pad_free s = true ->
  forall quad_pos leftchar bin,
    (quad_pos < 4)%nat ->
    if ((quad_pos + data_count s) mod 4 =? 1)%nat
    then a2b_base64 (translate "$" "_" "+" "/" s ++ "==") quad_pos leftchar 0 bin
         = Raise BinasciiError
    else exists out,
        a2b_base64 (translate "$" "_" "+" "/" s ++ "==") quad_pos leftchar 0 bin
        = OK out.
Proof.
  induction s as [|c t IH]; intros Hfree quad_pos leftchar bin Hq.
  - destruct quad_pos as [|[|[|[|q]]]]; try lia; cbn; eauto.
  - cbn [pad_free] in Hfree. apply andb_prop in Hfree as [Hc Ht].
    apply negb_true_iff in Hc.
    cbn [translate append a2b_base64 data_count]. rewrite translate1_pad, Hc.
    unfold is_data.
    destruct (table_a2b (translate1 "$" "_" "+" "/" c)) as [v|].
    + destruct quad_pos as [|[|[|[|q]]]]; try lia.
      * replace ((0 + S (data_count t)) mod 4)%nat
          with ((1 + data_count t) mod 4)%nat by (f_equal; lia).
        apply IH; [exact Ht | lia].
      * replace ((1 + S (data_count t)) mod 4)%nat
          with ((2 + data_count t) mod 4)%nat by (f_equal; lia).
        apply IH; [exact Ht | lia].
      * replace ((2 + S (data_count t)) mod 4)%nat
          with ((3 + data_count t) mod 4)%nat by (f_equal; lia).
        apply IH; [exact Ht | lia].
      * replace ((3 + S (data_count t)) mod 4)%nat
          with ((0 + data_count t) mod 4)%nat.
        2:{ replace (3 + S (data_count t))%nat
              with (data_count t + 1 * 4)%nat by lia.
            rewrite Nat.Div0.mod_add. reflexivity. }
        apply IH; [exact Ht | lia].
    + apply IH; [exact Ht | exact Hq].
Qed.

Lemma a2b_base64_bytes s :
  forall quad_pos leftchar pads bin out,
    Forall is_byte bin ->
    a2b_base64 s quad_pos leftchar pads bin = OK out ->
    Forall is_byte out.
Proof.
  induction s as [|c t IH]; intros quad_pos leftchar pads bin out Hbin.
  - simpl. destruct quad_pos; [|discriminate].
    intros E; inversion E; subst. exact Hbin.
  - cbn [a2b_base64].
    assert (Hsnoc : forall x, Forall is_byte (bin ++ [Z.land x 255])).
    { intros x. apply Forall_app. split; [exact Hbin|].
      constructor; [apply byte_land | constructor]. }
    destruct (Ascii.eqb c BASE64_PAD).
    + destruct (2 <=? quad_pos)%nat.
      * destruct (4 <=? _).
        -- intros E; inversion E; subst. exact Hbin.
        -- apply IH. exact Hbin.
      * apply IH. exact Hbin.
    + destruct (table_a2b c) as [v|]; [|apply IH; exact Hbin].
      destruct quad_pos as [|[|[|q]]]; apply IH; auto.
Qed.

Lemma int_from_bytes_nonneg bin :
  Forall is_byte bin -> 0 <= int_from_bytes bin.
Proof.
  unfold int_from_bytes. intros Hall.
  assert (Hgen : forall acc, 0 <= acc ->
            0 <= fold_left (fun acc b => acc * 256 + b) bin acc).
  { induction Hall as [|b bin Hb _ IH]; intros acc Hacc; simpl; [exact Hacc|].
    apply IH. unfold is_byte in Hb. lia. }
  apply Hgen. lia.
Qed.

(** What a token decodes to is a tick count that is not negative. *)
Lemma b64decode_nonneg s bin :
  b64decode s = OK bin -> 0 <= int_from_bytes bin.
Proof.
  unfold b64decode. intros Hdec. apply int_from_bytes_nonneg.
  eapply a2b_base64_bytes; [|exact Hdec]. constructor.
Qed.

(** A second from the epoch on that is no time of the local clock is
    refused with the error of its size. *)
Lemma fromtimestamp_out_of_range `{LocalClock} t :
  0 <= t ->
  wall_in_range (local_second t) = false ->
  fromtimestamp t = Raise (range_error t).
Proof.
  intros Ht Hr. unfold fromtimestamp, range_error, local_second in *.
  pose proof (utcoffset_at_bound t) as Hb.
  destruct (t <? - 2 ^ 63) eqn:E1; [apply Z.ltb_lt in E1; lia|].
  destruct (2 ^ 63 <=? t); [reflexivity|]. cbn [orb].
  destruct (t + utcoffset_at t <? LOCALTIME_MIN) eqn:E3;
    [apply Z.ltb_lt in E3; unfold LOCALTIME_MIN in E3; lia|].
  destruct (LOCALTIME_MAX <? t + utcoffset_at t); [reflexivity|]. cbn [orb].
  unfold local. rewrite Hr. reflexivity.
Qed.

(** C7 (amended). [timestamp_from_encoded] fails with a [CodecError] on
    every rejected token: with [binascii.Error] on every token without pad
    character whose data characters number one more than a multiple of
    four; and on every token whose decoded tick count gives a second that
    is no time of the local clock with [OverflowError] when the second
    does not fit [time_t], with [OSError] when [localtime] cannot convert
    it, and with [ValueError] otherwise, the year being after 9999. A
    character outside the alphabet does not make a token rejected: the
    decoder skips it. *)
Theorem rejected_token_raises_codec_error `{LocalClock} (s : string) :
  rejected s ->
  exists e,
    timestamp_from_encoded s = Raise e
    /\ CodecError e
    /\ ((pad_free s = true
         /\ Z.of_nat (data_count s) mod 4 = 1
         /\ e = BinasciiError)
        \/ (exists bin,
              b64decode (s ++ "==") = OK bin
              /\ wall_in_range (local_second (int_from_bytes bin / 250))
                 = false
              /\ e = range_error (int_from_bytes bin / 250))).
Proof.
  intros [Hfree Hcount | bin Hbin Hrange].
  - exists BinasciiError. split; [|split; [left; reflexivity|left; auto]].
    unfold timestamp_from_encoded, b64decode. rewrite translate_app.
    change (translate "$" "_" "+" "/" "==") with "==".
    pose proof (a2b_base64_pad_free s Hfree 0%nat 0 [] ltac:(lia)) as Hdec.
    rewrite Nat.add_0_l in Hdec.
    destruct ((data_count s mod 4 =? 1)%nat) eqn:E.
    + rewrite Hdec. reflexivity.
    + apply Nat.eqb_neq in E. exfalso. apply E.
      apply Nat2Z.inj. rewrite Nat2Z.inj_mod. exact Hcount.
  - exists (range_error (int_from_bytes bin / 250)).
    assert (Hraise : timestamp_from_encoded s
                     = Raise (range_error (int_from_bytes bin / 250))).
    { unfold timestamp_from_encoded. rewrite Hbin. cbn [bind].
      apply fromtimestamp_out_of_range; [|exact Hrange].
      apply Z.div_pos; [|lia]. eapply b64decode_nonneg. exact Hbin. }
    split; [exact Hraise|]. split.
    + eapply timestamp_from_encoded_raises. exact Hraise.
    + right. exists bin. auto.
Qed.

Lemma rejected_token_witness :
  exists e,
    timestamp_from_encoded (H := UTC) "invalid_input" = Raise e
    /\ CodecError e
    /\ ((pad_free "invalid_input" = true
         /\ Z.of_nat (data_count "invalid_input") mod 4 = 1
         /\ e = BinasciiError)
        \/ (exists bin,
              b64decode ("invalid_input" ++ "==") = OK bin
              /\ wall_in_range
                   (local_second (H := UTC) (int_from_bytes bin / 250))
                 = false
              /\ e = range_error (H := UTC) (int_from_bytes bin / 250))).
Proof.
  apply (rejected_token_raises_codec_error (H := UTC) "invalid_input").
  apply bad_length; reflexivity.
Defined.

(** The three errors of a second that is no time of the local clock: a
    year after 9999, a second [localtime] cannot convert, a second beyond
    [time_t]. *)
Example out_of_range_tokens :
  timestamp_from_encoded (H := UTC) "OZ30h_cA" = Raise ValueError
  /\ timestamp_from_encoded (H := UTC) "AOseG3dqrYcA" = Raise OSError
  /\ timestamp_from_encoded (H := UTC) "fQAAAAAAAAAA" = Raise OverflowError.
Proof. repeat split. Qed.

(** C7, as stated, fails on a token between quotation marks, the way the
    vendor writes timestamps: the quotation mark is no character of the
    modified alphabet, and the token decodes, to the time of the token
    without the marks. *)
Lemma quoted_token_is_decoded :
  all_in_alphabet (q "VdPMRgA") = false
  /\ timestamp_from_encoded (H := UTC) (q "VdPMRgA")
     = OK (mkdatetime 1474502400)
  /\ timestamp_from_encoded (H := UTC) "VdPMRgA"
     = OK (mkdatetime 1474502400).
Proof. repeat split. Qed.

End CodecClaims.

(* ===================================================================== *)
(** * The meter-name extractor                                            *)
(* ===================================================================== *)

Module MetadataClaims.

Import Parse Metadata PyFacts.
Import Fixtures.

Lemma indices_where_nil {A} (p : A -> bool) k l :
  indices_where p k l = [] <-> existsb p l = false.
Proof.
  revert k. induction l as [|x l IH]; intros k; simpl; [tauto|].
  destruct (p x); simpl; [split; discriminate | apply IH].
Qed.

Lemma index_where_none {A} (p : A -> bool) k l :
  index_where p k l = None <-> existsb p l = false.
Proof.
  revert k. induction l as [|x l IH]; intros k; simpl; [tauto|].
  destruct (p x); simpl; [split; discriminate | apply IH].
Qed.

Lemma indices_where_in {A} (p : A -> bool) k l i :
  In i (indices_where p k l) ->
  exists x, nth_error l (i - k) = Some x /\ p x = true /\ (k <= i)%nat.
Proof.
  revert k. induction l as [|x l IH]; intros k; simpl; [tauto|].
  destruct (p x) eqn:E.
  - intros [<- | Hin].
    + exists x. rewrite Nat.sub_diag. auto.
    + destruct (IH _ Hin) as (y & Hy & Hp & Hk).
      exists y. replace (i - k)%nat with (S (i - S k)) by lia. auto with arith.
  - intros Hin. destruct (IH _ Hin) as (y & Hy & Hp & Hk).
    exists y. replace (i - k)%nat with (S (i - S k)) by lia. auto with arith.
Qed.

Lemma zip_next_in {A} (l : list A) (c a b : A) :
  In (a, b) (zip_next (l ++ [c])) -> In a l.
Proof.
  induction l as [|x l IH]; simpl; [tauto|].
  destruct (l ++ [c]) as [|y t] eqn:E.
  - destruct l; discriminate.
  - simpl. intros [Heq | Hin].
    + inversion Heq. auto.
    + right. apply IH. exact Hin.
Qed.

(** The segments fail on a start marker that ends the list, and only so. *)
Lemma segments_loop_raises meta_csv pairs ret e :
  segments_loop meta_csv pairs ret = Raise e -> e = IndexError.
Proof.
  revert ret. induction pairs as [|[start end_] pairs IH]; intros ret; simpl;
    [discriminate|].
  destruct (py_getitem meta_csv (Z.of_nat start + 1)) as [first|e'] eqn:E; simpl.
  - destruct (segment_loop _ _ _ _) as [[ret' name] subs].
    destruct subs; apply IH.
  - intros Hr. inversion Hr; subst. eapply py_getitem_raises; eauto.
Qed.

Lemma segments_loop_total meta_csv pairs ret :
  Forall (fun se => (S (fst se) < List.length meta_csv)%nat) pairs ->
  exists names, segments_loop meta_csv pairs ret = OK names.
Proof.
  intros Hall. revert ret.
  induction Hall as [|[start end_] pairs Hs Hall IH]; intros ret; simpl;
    [eauto|].
  simpl in Hs.
  destruct (py_getitem_total meta_csv (Z.of_nat start + 1)) as [first Hf];
    [lia|].
  rewrite Hf. simpl.
  destruct (segment_loop _ _ _ _) as [[ret' name] subs].
  destruct subs; apply IH.
Qed.

(** C9 (amended). [_extract_meters] raises [InvalidMetadata] exactly when
    no token holds a ['+'] or no token is the terminal marker ["column"].
    When both markers are present and every token with a ['+'] has a
    token after it, the call returns a list of names. *)
Theorem extract_meters_invalid_metadata (meta_csv : list string) :
  (_extract_meters meta_csv = Raise InvalidMetadata
   <-> has_start_marker meta_csv = false \/ has_end_marker meta_csv = false)
  /\ (has_start_marker meta_csv = true ->
      has_end_marker meta_csv = true ->
      start_markers_followed meta_csv ->
      exists names, _extract_meters meta_csv = OK names).
Proof.
  unfold _extract_meters, has_start_marker, has_end_marker.
  destruct (indices_where (str_in "+") 0 meta_csv) as [|i0 indices] eqn:Ei.
  { apply indices_where_nil in Ei. rewrite Ei. split; [|discriminate].
    split; auto. }
  assert (Hstart : existsb (str_in "+") meta_csv = true).
  { destruct (existsb (str_in "+") meta_csv) eqn:E; [reflexivity|].
    apply (indices_where_nil _ 0%nat) in E. congruence. }
  rewrite Hstart.
  destruct (index_where (String.eqb COLUMN) 0 meta_csv) as [c|] eqn:Ec.
  - assert (Hend : existsb (String.eqb COLUMN) meta_csv = true).
    { destruct (existsb (String.eqb COLUMN) meta_csv) eqn:E; [reflexivity|].
      apply (index_where_none _ 0%nat) in E. congruence. }
    rewrite Hend. split.
    + split; [|intros [H|H]; discriminate].
      intros Hr. apply segments_loop_raises in Hr. discriminate.
    + intros _ _ Hfollowed. apply segments_loop_total.
      apply Forall_forall. intros [start end_] Hin. simpl.
      apply zip_next_in in Hin. rewrite <- Ei in Hin.
      apply indices_where_in in Hin as (tok & Htok & Hplus & _).
      rewrite Nat.sub_0_r in Htok. eapply Hfollowed; eauto.
  - apply index_where_none in Ec. rewrite Ec. split; [|discriminate].
    split; auto.
Qed.

Lemma extract_meters_witness :
  exists names, _extract_meters (test_data1 ++ end_data) = OK names.
Proof.
  apply (proj2 (extract_meters_invalid_metadata (test_data1 ++ end_data)));
    [reflexivity | reflexivity |].
  intros i tok Hi Hplus.
  do 14 (destruct i as [|i]; [simpl in Hi; inversion Hi; subst;
                              first [discriminate Hplus | simpl; lia] |]).
  destruct i; discriminate Hi.
Defined.

(** C9, as stated, fails on metadata that holds both markers and ends in
    a token with a ['+']: the name expected after the start marker is
    missing, and [IndexError] is raised. *)
Lemma trailing_start_marker_raises :
  has_start_marker [COLUMN; "1234+1"] = true
  /\ has_end_marker [COLUMN; "1234+1"] = true
  /\ _extract_meters [COLUMN; "1234+1"] = Raise IndexError.
Proof. repeat split. Qed.

End MetadataClaims.

(* ===================================================================== *)
(** * The list-format factory                                             *)
(* ===================================================================== *)

Module ReadingSvcClaims.

Import TimeUtils Parse ReadingSvc Pairing PyFacts.
Import Host Fixtures.

Section Service.
Context `{LocalClock} `{FloatModel}.

Lemma py_pop_rev (popped : list string) :
  py_pop (rev popped)
  = match popped with
    | [] => Raise IndexError
    | name :: popped => OK (name, rev popped)
    end.
Proof. unfold py_pop. rewrite rev_involutive. destruct popped; reflexivity. Qed.

(** The comprehension gives the lists the generator yields to the names
    in the order [pop] takes them. *)
Lemma comprehension_assign fuel g csvd (combined_readings : list MeterReading) :
  forall idx lists popped d,
    generator_all fuel g csvd combined_readings idx = OK lists ->
    comprehension fuel g csvd combined_readings idx (rev popped) d
    = assign popped lists d.
Proof.
  induction fuel as [|fuel IH]; intros idx lists popped d; simpl;
    [discriminate|].
  destruct (generator_next g csvd combined_readings idx) as [[[l idx']|]|e];
    simpl; [| |discriminate].
  - intros Hall. apply bind_OK in Hall as (rest & Hrest & Hl).
    inversion Hl; subst. rewrite py_pop_rev.
    destruct popped as [|name popped]; [reflexivity|]. simpl.
    apply IH. exact Hrest.
  - intros Hall. inversion Hall; subst. destruct popped; reflexivity.
Qed.

Lemma comprehension_names fuel g csvd (combined_readings : list MeterReading)
      idx lists meter_names d :
  generator_all fuel g csvd combined_readings idx = OK lists ->
  comprehension fuel g csvd combined_readings idx meter_names d
  = assign (rev meter_names) lists d.
Proof.
  intros Hall. rewrite <- (comprehension_assign _ _ _ _ _ _ _ _ Hall).
  rewrite rev_involutive. reflexivity.
Qed.

(** With no more lists than names every list gets a name, and the names
    not taken are the first of the decoded list. *)
Lemma assign_enough_names (lists : list (list MeterReading)) :
  forall popped d,
    (List.length lists <= List.length popped)%nat ->
    exists d',
      assign popped lists d
      = OK (rev (skipn (List.length lists) popped), d').
Proof.
  induction lists as [|l lists IH]; intros popped d Hlen.
  - exists d. destruct popped; reflexivity.
  - destruct popped as [|name popped]; simpl in *; [lia|].
    apply IH. lia.
Qed.

(** With more lists than names the pairing ends in [IndexError]. *)
Lemma assign_too_few_names (lists : list (list MeterReading)) :
  forall popped d,
    (List.length popped < List.length lists)%nat ->
    assign popped lists d = Raise IndexError.
Proof.
  induction lists as [|l lists IH]; intros popped d Hlen; simpl in *; [lia|].
  destruct popped as [|name popped]; simpl in *; [reflexivity|].
  apply IH. lia.
Qed.

End Service.

(** The response that names three meters, step by step. *)
Example response_three_transformed :
  _transform_data_to_list (response three_meters)
  = OK (["meter3"; "meter2"; "meter1"], response_tokens).
Proof. vm_compute. reflexivity. Qed.

Example response_combined :
  _read_combined (H := UTC) (H0 := Decimal) response_tokens
  = OK ([], [reading 1474502400 (25, 2%nat)]).
Proof. reflexivity. Qed.

Example response_generator_start : generator_start response_tokens = OK 22.
Proof. vm_compute. reflexivity. Qed.

Example response_lists :
  generator_all (H := UTC) (H0 := Decimal) (generator_fuel response_tokens)
    after_imports response_tokens [reading 1474502400 (25, 2%nat)] 22
  = OK [[reading 1474502400 (75, 2%nat)]; [reading 1474502400 (5, 1%nat)]].
Proof. reflexivity. Qed.

(** C8, as stated, fails when the lists outnumber the names: the response
    below holds two per-meter lists and names one meter, and the run ends
    in the [IndexError] of [pop] on the empty list of names. *)
Lemma more_lists_than_names_raises :
  _transform_data_to_list (response one_meter)
  = OK (["meter1"], response_tokens)
  /\ generator_all (H := UTC) (H0 := Decimal) (generator_fuel response_tokens)
       after_imports response_tokens [reading 1474502400 (25, 2%nat)] 22
     = OK [[reading 1474502400 (75, 2%nat)]; [reading 1474502400 (5, 1%nat)]]
  /\ readings_from_reading_service (H := UTC) (H0 := Decimal)
       after_imports (response one_meter)
     = Raise IndexError.
Proof.
  split; [vm_compute; reflexivity|]. split; reflexivity.
Qed.

End ReadingSvcClaims.

(* ===================================================================== *)
(** * The bounds of the loops are never reached                           *)
(* ===================================================================== *)

Module Termination.

Import TimeUtils Parse ReadingSvc PyFacts ScanFacts CodecFacts PerMeterFacts.
Import MetadataClaims.

Section Loops.
Context `{LocalClock} `{FloatModel}.

Lemma codec_error_not_fuel e : CodecError e -> e <> OutOfFuel.
Proof. unfold CodecError. intros [E|[E|[E|E]]]; subst; discriminate. Qed.

Lemma read_combined_loop_terminates fuel csvd idx (ret : list MeterReading) :
  (Z.to_nat (idx + 1) <= fuel)%nat ->
  read_combined_loop fuel csvd idx ret <> Raise OutOfFuel.
Proof.
  revert idx ret. induction fuel as [|fuel IH]; intros idx ret Hf.
  - assert (Hneg : idx < 0) by lia. apply Z.ltb_lt in Hneg.
    simpl. rewrite Hneg. discriminate.
  - simpl. destruct (idx <? 0) eqn:E; [discriminate|]. apply Z.ltb_ge in E.
    destruct (scan_back is_9_or_11 csvd idx) as [i|e] eqn:Es; simpl.
    2:{ apply scan_back_raises in Es. subst. discriminate. }
    destruct (i <? 0) eqn:Ei; [discriminate|]. apply Z.ltb_ge in Ei.
    destruct (py_getitem csvd (i - 2)) as [before|e] eqn:Eb; simpl.
    2:{ apply py_getitem_raises in Eb. subst. discriminate. }
    destruct (negb (String.eqb before "10")); [discriminate|].
    destruct (py_getitem csvd i) as [tok|e] eqn:Et; simpl.
    2:{ apply py_getitem_raises in Et. subst. discriminate. }
    destruct (String.eqb tok "11"); [discriminate|].
    destruct (py_getitem csvd (i - 1)) as [enc|e] eqn:Ee; simpl.
    2:{ apply py_getitem_raises in Ee. subst. discriminate. }
    destruct (timestamp_from_encoded enc) as [ts|e] eqn:Ed; simpl.
    2:{ apply timestamp_from_encoded_raises in Ed.
        apply codec_error_not_fuel in Ed. congruence. }
    destruct (py_getitem csvd (i - 3)) as [val|e] eqn:Ev; simpl.
    2:{ apply py_getitem_raises in Ev. subst. discriminate. }
    destruct (py_float val) as [k|e] eqn:Ek; simpl.
    2:{ apply py_float_raises in Ek. subst. discriminate. }
    apply scan_back_range in Es. apply IH. lia.
Qed.

(** [_read_combined] answers with a value or a Python exception. *)
Lemma read_combined_terminates csvd : _read_combined csvd <> Raise OutOfFuel.
Proof.
  unfold _read_combined. intros Hr.
  apply bind_Raise in Hr as [Hr | ([log ret] & _ & Hr)]; [|discriminate].
  revert Hr. apply read_combined_loop_terminates. lia.
Qed.

Lemma get_list_loop_position fuel g csvd (combined_readings : list MeterReading)
      idx readings stop rs :
  get_list_loop fuel g csvd combined_readings idx readings = OK (stop, rs) ->
  stop <= idx.
Proof.
  revert idx readings. induction fuel as [|fuel IH]; intros idx readings; simpl.
  - destruct (idx <? 0); [|discriminate]. intros E; inversion E. lia.
  - destruct (idx <? 0); [intros E; inversion E; lia|].
    destruct (scan_back is_8_24_3 csvd idx) as [i|e] eqn:Es; simpl;
      [|discriminate].
    apply scan_back_range in Es.
    destruct (i <? 8); [intros E; inversion E; lia|].
    destruct (py_getitem csvd i) as [tok|e]; simpl; [|discriminate].
    destruct (negb (String.eqb tok "8")); [intros E; inversion E; lia|].
    destruct (read_entry g csvd combined_readings i) as [[idx' r]|e] eqn:Er;
      simpl; [|discriminate].
    apply read_entry_position in Er. intros Hl. apply IH in Hl. lia.
Qed.

Lemma scan_to_8_terminates fuel csvd idx :
  (Z.to_nat (idx + Z.of_nat (List.length csvd) + 1) <= fuel)%nat ->
  scan_to_8 fuel csvd idx <> Raise OutOfFuel.
Proof.
  revert idx. induction fuel as [|fuel IH]; intros idx Hf; simpl.
  - destruct (py_getitem csvd idx) as [tok|e] eqn:Et; simpl.
    + apply py_getitem_in_range in Et. lia.
    + apply py_getitem_raises in Et. subst. discriminate.
  - destruct (py_getitem csvd idx) as [tok|e] eqn:Et; simpl.
    + destruct (String.eqb tok "8"); [discriminate|]. apply IH. lia.
    + apply py_getitem_raises in Et. subst. discriminate.
Qed.

Lemma scan_to_8_position fuel csvd idx i :
  scan_to_8 fuel csvd idx = OK i ->
  i <= idx /\ py_getitem csvd i = OK "8".
Proof.
  revert idx. induction fuel as [|fuel IH]; intros idx; simpl.
  - destruct (py_getitem csvd idx) as [tok|e] eqn:Et; simpl; [|discriminate].
    destruct (String.eqb tok "8") eqn:E8; [|discriminate].
    apply String.eqb_eq in E8. subst. intros E; inversion E; subst.
    split; [lia | assumption].
  - destruct (py_getitem csvd idx) as [tok|e] eqn:Et; simpl; [|discriminate].
    destruct (String.eqb tok "8") eqn:E8.
    + apply String.eqb_eq in E8. subst. intros E; inversion E; subst.
      split; [lia | assumption].
    + intros Hs. apply IH in Hs. split; [lia | tauto].
Qed.

Lemma generator_next_terminates g csvd (combined_readings : list MeterReading)
      idx :
  generator_next g csvd combined_readings idx <> Raise OutOfFuel.
Proof.
  unfold generator_next. destruct (idx <? 0); [discriminate|].
  destruct (py_getitem csvd idx) as [tok|e] eqn:Et; simpl.
  2:{ apply py_getitem_raises in Et. subst. discriminate. }
  destruct (String.eqb tok "3"); [discriminate|].
  destruct (negb (String.eqb tok "24")); [discriminate|].
  destruct (scan_to_8 _ csvd idx) as [i|e] eqn:Es; simpl.
  2:{ intros E; inversion E; subst. revert Es. apply scan_to_8_terminates. lia. }
  destruct (_get_list_readings g csvd i combined_readings) as [[stop rl]|e] eqn:El;
    simpl; [discriminate|].
  intros E; inversion E; subst. revert El. apply get_list_readings_terminates.
Qed.

(** Each list the generator yields moves the scan position down. *)
Lemma generator_next_position g csvd (combined_readings : list MeterReading)
      idx reading_list idx' :
  generator_next g csvd combined_readings idx = OK (Some (reading_list, idx')) ->
  0 <= idx /\ idx' < idx.
Proof.
  unfold generator_next. destruct (idx <? 0) eqn:E; [discriminate|].
  apply Z.ltb_ge in E.
  destruct (py_getitem csvd idx) as [tok|e] eqn:Et; simpl; [|discriminate].
  destruct (String.eqb tok "3"); [discriminate|].
  destruct (String.eqb tok "24") eqn:E24; simpl; [|discriminate].
  apply String.eqb_eq in E24. subst tok.
  destruct (scan_to_8 _ csvd idx) as [i|e] eqn:Es; simpl; [|discriminate].
  apply scan_to_8_position in Es as [Hle H8].
  assert (i <> idx) by (intros ->; congruence).
  destruct (_get_list_readings g csvd i combined_readings) as [[stop rl]|e] eqn:El;
    simpl; [|discriminate].
  apply get_list_loop_position in El.
  intros Hn; inversion Hn; subst. lia.
Qed.

Lemma generator_all_terminates fuel g csvd
      (combined_readings : list MeterReading) idx :
  (Z.to_nat (idx + 1) < fuel)%nat ->
  generator_all fuel g csvd combined_readings idx <> Raise OutOfFuel.
Proof.
  revert idx. induction fuel as [|fuel IH]; intros idx Hf; [lia|]. simpl.
  destruct (generator_next g csvd combined_readings idx)
    as [[[l idx']|]|e] eqn:En; simpl.
  - apply generator_next_position in En.
    destruct (generator_all fuel g csvd combined_readings idx') as [rest|e] eqn:Ea;
      simpl; [discriminate|].
    intros E; inversion E; subst. revert Ea. apply IH. lia.
  - discriminate.
  - intros E; inversion E; subst. revert En. apply generator_next_terminates.
Qed.

Lemma comprehension_terminates fuel g csvd
      (combined_readings : list MeterReading) idx meter_names d :
  (Z.to_nat (idx + 1) < fuel)%nat ->
  comprehension fuel g csvd combined_readings idx meter_names d
  <> Raise OutOfFuel.
Proof.
  revert idx meter_names d.
  induction fuel as [|fuel IH]; intros idx meter_names d Hf; [lia|]. simpl.
  destruct (generator_next g csvd combined_readings idx)
    as [[[l idx']|]|e] eqn:En; simpl.
  - apply generator_next_position in En.
    unfold py_pop. destruct (rev meter_names) as [|name r]; simpl;
      [discriminate|].
    apply IH. lia.
  - discriminate.
  - intros E; inversion E; subst. revert En. apply generator_next_terminates.
Qed.

Lemma transform_data_terminates data :
  _transform_data_to_list data <> Raise OutOfFuel.
Proof.
  unfold _transform_data_to_list.
  destruct (negb _); [discriminate|].
  destruct (last_char _) as [c|e] eqn:El; simpl.
  2:{ intros E; inversion E; subst. revert El. clear.
      generalize (py_rstrip_char ")"
        (py_replace "],[" "," (py_replace "]).concat([" ","
           (py_replace "].concat([" "," (py_strip data))))).
      intros s. induction s as [|a s IH]; simpl; [discriminate|].
      destruct s; [discriminate | exact IH]. }
  destruct (negb _); [discriminate|].
  destruct (_ =? 4); [discriminate|].
  destruct (_extract_meters _) as [names|e] eqn:Ee; simpl; [discriminate|].
  intros E; inversion E; subst.
  unfold _extract_meters in Ee.
  destruct (indices_where _ _ _); [discriminate|].
  destruct (index_where _ _ _); [|discriminate].
  apply segments_loop_raises in Ee. discriminate.
Qed.

(** The factory answers with a value or a Python exception. *)
Lemma readings_from_reading_service_terminates g data :
  readings_from_reading_service g data <> Raise OutOfFuel.
Proof.
  unfold readings_from_reading_service. intros Hr.
  apply bind_Raise in Hr as [Hr | ([names csvd] & _ & Hr)];
    [revert Hr; apply transform_data_terminates|].
  apply bind_Raise in Hr as [Hr | ([log combined_readings] & _ & Hr)];
    [revert Hr; apply read_combined_terminates|].
  apply bind_Raise in Hr as [Hr | (idx & Hstart & Hr)];
    [apply scan_back_raises in Hr; discriminate|].
  apply bind_Raise in Hr as [Hr | ([left d] & _ & Hr)]; [|discriminate].
  revert Hr. apply comprehension_terminates.
  unfold generator_start in Hstart. apply scan_back_range in Hstart.
  unfold generator_fuel. lia.
Qed.

End Loops.

End Termination.

(* ===================================================================== *)
(** * Further properties of the code                                      *)
(* ===================================================================== *)

(** * Whole per-meter lists *)

Module PerMeterListFacts.

Import TimeUtils Parse PerMeter PerMeterList PyFacts ScanFacts CodecFacts
       PerMeterFacts.

Lemma list_region_snoc es e :
  region (es ++ [e]) = region es ++ entry_tokens e.
Proof.
  unfold region. rewrite map_app, concat_app. simpl.
  rewrite app_nil_r. reflexivity.
Qed.

Lemma py_getitem_mid {A} (a b c : list A) (k : nat) (x : A) (i : Z) :
  nth_error b k = Some x ->
  i = Z.of_nat (List.length a + k) ->
  py_getitem (a ++ b ++ c) i = OK x.
Proof.
  intros Hk ->. rewrite py_getitem_app_r.
  rewrite nth_error_app1 by (apply nth_error_Some; congruence).
  rewrite Hk. reflexivity.
Qed.

Lemma stop_tokens_split :
  is_8_24_3 "10" = false /\ is_8_24_3 "9" = false /\ is_8_24_3 "8" = true
  /\ is_8_24_3 "24" = true /\ is_8_24_3 "3" = true.
Proof. repeat split. Qed.

Section Lists.
Context `{LocalClock} `{FloatModel}.
Variables (g : Globals) (combined_readings : list MeterReading).

Local Abbreviation denotes := (denotes g combined_readings).

Lemma entry_body_unreserved e r :
  denotes e r -> Forall (fun t => is_8_24_3 t = false) (entry_body e).
Proof.
  intros (_ & Hfill & (d & Ht & _) & Hv). unfold entry_body.
  apply Forall_app. split; [|apply Forall_app; split; [|exact Hfill]].
  - destruct (entry_value e); simpl in *.
    + destruct Hv. repeat constructor. assumption.
    + destruct Hv as (? & _). repeat constructor. assumption.
  - destruct (entry_time e); simpl in *.
    + destruct Ht. repeat constructor. assumption.
    + destruct Ht as (? & _). repeat constructor. assumption.
Qed.

Lemma value_tokens_bounds v :
  (1 <= List.length (value_tokens v) <= 2)%nat.
Proof. destruct v; simpl; lia. Qed.

Lemma entry_tokens_length e r :
  denotes e r ->
  List.length (entry_tokens e)
  = (List.length (value_tokens (entry_value e))
     + List.length (time_tokens (entry_time e)) + 6)%nat
  /\ (8 <= List.length (entry_tokens e) <= 10)%nat.
Proof.
  intros (Hlen & _). unfold entry_tokens, entry_body.
  rewrite !length_app. rewrite Hlen. simpl.
  destruct (entry_value e), (entry_time e); simpl; lia.
Qed.

(** The entry decoded in place: [read_entry] on the terminator of an
    entry that denotes [r] returns [r] and the index of the value slot. *)
Lemma read_entry_denoted (a back : list string) e r :
  denotes e r ->
  read_entry g (a ++ entry_tokens e ++ back) combined_readings
    (Z.of_nat (List.length a + List.length (entry_tokens e)) - 1)
  = OK (Z.of_nat (List.length a
                  + List.length (value_tokens (entry_value e))) - 1, r).
Proof.
  intros (Hlen & Hfill & (d & Ht & Hadd) & Hv).
  destruct r as [t' k]. simpl in Hadd, Hv.
  destruct e as [v t fill]. simpl in Hlen, Hfill, Ht, Hv.
  destruct fill as [|f1 [|f2 [|f3 [|f4 [|f5 [|]]]]]]; try discriminate.
  clear Hlen Hfill.
  set (csvd := a ++ _ ++ back).
  set (i := Z.of_nat _ - 1).
  assert (Hts : exists idx',
             timestamp_slot csvd combined_readings i d idx'
             /\ idx' = Z.of_nat (List.length a
                                 + List.length (value_tokens v)) - 1
             /\ value_slot csvd combined_readings idx' k).
  { destruct t as [enc|tok]; simpl in Ht.
    - destruct Ht as (_ & Hdec).
      exists (i - 8). split; [|split].
      + eapply explicit_timestamp with (enc := enc); [| |exact Hdec].
        * unfold csvd, i.
          eapply (py_getitem_mid a _ back
                    (List.length (value_tokens v) + 1)); destruct v;
            [reflexivity | reflexivity | cbn; lia | cbn; lia].
        * unfold csvd, i.
          eapply (py_getitem_mid a _ back (List.length (value_tokens v)));
            destruct v; [reflexivity | reflexivity | cbn; lia | cbn; lia].
      + unfold i. destruct v; cbn; lia.
      + destruct v as [val|vtok]; simpl in Hv.
        * destruct Hv as (_ & Hf).
          eapply explicit_value with (val := val); [| |exact Hf].
          -- unfold csvd, i.
             eapply (py_getitem_mid a _ back 1); [reflexivity | cbn; lia].
          -- unfold csvd, i.
             eapply (py_getitem_mid a _ back 0); [reflexivity | cbn; lia].
        * destruct Hv as (_ & Hne & n & c & Hint & Hc & <-).
          eapply referenced_value with (tok := vtok); eauto.
          unfold csvd, i.
          eapply (py_getitem_mid a _ back 0); [reflexivity | cbn; lia].
    - destruct Ht as (_ & Hne9 & n & c & Hint & Hc & <-).
      exists (i - 7). split; [|split].
      + eapply referenced_timestamp with (tok := tok); eauto.
        unfold csvd, i.
        eapply (py_getitem_mid a _ back (List.length (value_tokens v)));
          destruct v; [reflexivity | reflexivity | cbn; lia | cbn; lia].
      + unfold i. destruct v; cbn; lia.
      + destruct v as [val|vtok]; simpl in Hv.
        * destruct Hv as (_ & Hf).
          eapply explicit_value with (val := val); [| |exact Hf].
          -- unfold csvd, i.
             eapply (py_getitem_mid a _ back 1); [reflexivity | cbn; lia].
          -- unfold csvd, i.
             eapply (py_getitem_mid a _ back 0); [reflexivity | cbn; lia].
        * destruct Hv as (_ & Hne & n' & c' & Hint' & Hc' & <-).
          eapply referenced_value with (tok := vtok); eauto.
          unfold csvd, i.
          eapply (py_getitem_mid a _ back 0); [reflexivity | cbn; lia]. }
  destruct Hts as (idx' & Hts & Hidx & Hval).
  cbn [entry_value]. rewrite <- Hidx.
  exact (read_entry_slots g csvd combined_readings i d idx' t' k Hts Hadd Hval).
Qed.

(** A whole list: [_get_list_readings], started on or above the last
    terminator of a region of entries that follows a list-start marker,
    decodes the entries from the last to the first and stops on the
    marker. *)
Lemma get_list_readings_region (m : string) front es :
  m = "24" \/ m = "3" ->
  forall rs back (k : nat),
    Forall2 denotes es rs ->
    Forall (fun t => is_8_24_3 t = false) (firstn k back) ->
    (k <= List.length back)%nat ->
    _get_list_readings g (front ++ m :: region es ++ back)
      (Z.of_nat (List.length front + List.length (region es) + k))
      combined_readings
    = OK (Z.of_nat (List.length front), rev rs).
Proof.
  intros Hm. induction es as [|e es IH] using rev_ind;
    intros rs back k Hwf Hback Hk.
  - inversion Hwf; subst rs. simpl region. simpl app. simpl rev.
    unfold _get_list_readings.
    destruct (Z.to_nat _) as [|fuel] eqn:Ef; [simpl in Ef; lia|].
    cbn [get_list_loop].
    destruct (_ <? 0) eqn:E; [apply Z.ltb_lt in E; lia|].
    rewrite (CombinedClaims.scan_back_at is_8_24_3 _ front (firstn k back) (skipn k back) m);
      [ | rewrite firstn_skipn; reflexivity
        | destruct Hm; subst m; reflexivity
        | exact Hback
        | rewrite length_firstn; simpl; lia ].
    simpl bind.
    destruct (Z.of_nat (List.length front) <? 8); [reflexivity|].
    rewrite (CombinedClaims.py_getitem_at _ front back m) by reflexivity.
    simpl bind.
    destruct Hm; subst m; reflexivity.
  - apply Forall2_app_inv_l in Hwf as (rs1 & rs2 & Hwf1 & Hwf2 & ->).
    inversion Hwf2 as [|e' r es' rs' Hr Hnil]; subst.
    inversion Hnil; subst. clear Hwf2 Hnil.
    rewrite list_region_snoc.
    pose proof (entry_tokens_length e r Hr) as (Hlen & Hlen8).
    pose proof (entry_body_unreserved e r Hr) as Hbody.
    set (a := front ++ m :: region es).
    assert (Ha : List.length a = (List.length front + 1 + List.length (region es))%nat).
    { unfold a. rewrite length_app. simpl. lia. }
    assert (Hstream :
      front ++ m :: (region es ++ entry_tokens e) ++ back
      = a ++ entry_tokens e ++ back).
    { unfold a. rewrite <- ?app_assoc. simpl. rewrite <- ?app_assoc.
      reflexivity. }
    rewrite Hstream.
    assert (Hlenb : List.length (entry_tokens e)
                    = S (List.length (entry_body e))).
    { unfold entry_tokens. rewrite length_app. simpl. lia. }
    set (i := Z.of_nat (List.length a + List.length (entry_tokens e)) - 1).
    assert (Hentry :
      entry_at (a ++ entry_tokens e ++ back)
        (Z.of_nat (List.length front
                   + List.length (region es ++ entry_tokens e) + k)) i).
    { unfold entry_at. rewrite length_app. repeat split.
      - lia.
      - replace i with (Z.of_nat (List.length (a ++ entry_body e)))
          by (unfold i; rewrite length_app; lia).
        apply (CombinedClaims.scan_back_at is_8_24_3 _ (a ++ entry_body e)
                 (firstn k back) (skipn k back) "8").
        + unfold entry_tokens. rewrite <- !app_assoc. simpl.
          rewrite firstn_skipn. reflexivity.
        + reflexivity.
        + exact Hback.
        + rewrite length_firstn, length_app. lia.
      - unfold i. lia.
      - unfold i.
        eapply (py_getitem_mid a _ back (List.length (entry_body e))).
        + unfold entry_tokens. rewrite nth_error_app2 by lia.
          rewrite Nat.sub_diag. reflexivity.
        + lia. }
    rewrite (get_list_readings_step g _ combined_readings _ _ _ _ Hentry
               (read_entry_denoted a back e r Hr)).
    replace (a ++ entry_tokens e ++ back)
      with (front ++ m :: region es ++ (entry_tokens e ++ back))
      by (unfold a; rewrite <- ?app_assoc; simpl; rewrite <- ?app_assoc;
          reflexivity).
    replace (Z.of_nat (List.length a
                       + List.length (value_tokens (entry_value e))) - 1)
      with (Z.of_nat (List.length front + List.length (region es)
                      + List.length (value_tokens (entry_value e))))
      by lia.
    rewrite (IH rs1 (entry_tokens e ++ back)
               (List.length (value_tokens (entry_value e)))).
    + simpl. rewrite rev_app_distr. reflexivity.
    + exact Hwf1.
    + unfold entry_tokens, entry_body. rewrite <- !app_assoc.
      rewrite firstn_app. rewrite Nat.sub_diag. simpl firstn at 2.
      rewrite app_nil_r. rewrite firstn_all.
      unfold entry_body in Hbody. apply Forall_app in Hbody. tauto.
    + rewrite length_app. lia.
Qed.

(** One entry among the others: the reading of the entry stands in the
    answer between the readings of the entries behind it and those of the
    entries before it. *)
Lemma get_list_readings_entry (m : string) front older e newer back
      rs_older r rs_newer :
  m = "24" \/ m = "3" ->
  Forall2 denotes older rs_older ->
  denotes e r ->
  Forall2 denotes newer rs_newer ->
  read_list g combined_readings front m (older ++ e :: newer) back
  = OK (Z.of_nat (List.length front), rev rs_newer ++ r :: rev rs_older).
Proof.
  intros Hm Ho He Hn. unfold read_list.
  pose proof (get_list_readings_region m front (older ++ e :: newer) Hm
                (rs_older ++ r :: rs_newer) back 0) as Hl.
  rewrite Nat.add_0_r in Hl. rewrite Hl.
  - rewrite rev_app_distr. simpl. rewrite <- app_assoc. reflexivity.
  - apply Forall2_app; [exact Ho|]. constructor; assumption.
  - constructor.
  - lia.
Qed.

(** An entry whose timestamp slot holds a reference. *)
Lemma time_referred_denotes value tok v c fill k t' :
  List.length fill = 5%nat ->
  Forall (fun t => is_8_24_3 t = false) fill ->
  is_8_24_3 tok = false ->
  tok <> "9" ->
  py_int tok = OK v ->
  py_getitem combined_readings (v / 3 + 2) = OK c ->
  add_hours (timestamp c) (parse_time_offset g) = OK t' ->
  denotes_value combined_readings value k ->
  denotes (mkentry value (time_referred tok) fill) (mkMeterReading t' k).
Proof.
  intros Hlen Hfill Htok Hne Hint Hc Hadd Hv.
  split; [exact Hlen|]. split; [exact Hfill|]. split; [|exact Hv].
  exists (timestamp c). split; [|exact Hadd].
  split; [exact Htok|]. split; [exact Hne|]. exists v, c. auto.
Qed.

(** An entry whose value slot holds a reference. *)
Lemma value_referred_denotes time tok v c fill d t' :
  List.length fill = 5%nat ->
  Forall (fun t => is_8_24_3 t = false) fill ->
  is_8_24_3 tok = false ->
  tok <> "10" ->
  py_int tok = OK v ->
  py_getitem combined_readings (v / 3 + 2) = OK c ->
  denotes_time combined_readings time d ->
  add_hours d (parse_time_offset g) = OK t' ->
  denotes (mkentry (value_referred tok) time fill) (mkMeterReading t' (kwh c)).
Proof.
  intros Hlen Hfill Htok Hne Hint Hc Ht Hadd.
  split; [exact Hlen|]. split; [exact Hfill|]. split.
  - exists d. split; [exact Ht | exact Hadd].
  - split; [exact Htok|]. split; [exact Hne|]. exists v, c. auto.
Qed.

End Lists.

(** A negative index that is within the list counts from its end. *)
Lemma py_getitem_from_the_end {A} (l : list A) (j : Z) :
  j < 0 ->
  - j <= Z.of_nat (List.length l) ->
  exists c,
    nth_error l (Z.to_nat (Z.of_nat (List.length l) + j)) = Some c
    /\ py_getitem l j = OK c.
Proof.
  intros Hneg Hlen. rewrite py_getitem_negative by lia.
  destruct (nth_error l _) as [c|] eqn:E.
  - exists c. split; reflexivity.
  - apply nth_error_None in E. lia.
Qed.

(** The back-reference formula sends exactly the tokens [v <= -7] to
    negative indices. *)
Lemma reference_index_negative v : v <= -7 <-> v / 3 + 2 < 0.
Proof.
  split; intros Hv; Z.div_mod_to_equations; lia.
Qed.

(** A token that resolves to a negative index is none of the tokens the
    decoder looks for. *)
Lemma negative_reference_token tok v :
  py_int tok = OK v ->
  v / 3 + 2 < 0 ->
  is_8_24_3 tok = false /\ tok <> "9" /\ tok <> "10".
Proof.
  intros Hint Hneg.
  assert (Hno : forall m n, py_int m = OK n -> 0 <= n / 3 + 2 -> tok <> m).
  { intros m n Hm Hn ->. rewrite Hm in Hint.
    assert (n = v) by congruence. subst. lia. }
  assert (H8 : tok <> "8") by (apply (Hno "8" 8); [reflexivity | cbn; lia]).
  assert (H24 : tok <> "24") by (apply (Hno "24" 24); [reflexivity | cbn; lia]).
  assert (H3 : tok <> "3") by (apply (Hno "3" 3); [reflexivity | cbn; lia]).
  assert (H9 : tok <> "9") by (apply (Hno "9" 9); [reflexivity | cbn; lia]).
  assert (H10 : tok <> "10") by (apply (Hno "10" 10); [reflexivity | cbn; lia]).
  split; [|split; assumption].
  unfold is_8_24_3.
  apply String.eqb_neq in H8, H24, H3. rewrite H8, H24, H3. reflexivity.
Qed.

End PerMeterListFacts.

(** * Back-references into the combined list *)

Module ReferenceClaims.

Import TimeUtils Parse PerMeter PerMeterList PyFacts ScanFacts CodecFacts
       PerMeterFacts PerMeterListFacts.
Import Host Fixtures ListFixtures.


Example written_entry_denotes :
  Forall2 (denotes (H := UTC) (H0 := Decimal) after_imports two_combined)
          [written "0.5" "VdPMRgA"] [reading 1474502400 (5, 1%nat)].
Proof.
  constructor; [|constructor].
  split; [reflexivity|]. split; [repeat constructor|]. split.
  - exists (mkdatetime 1474502400). repeat split.
  - split; reflexivity.
Qed.


(** The list of the tests in which the second entry refers to the first
    combined reading in both slots, and the same list with the entry
    written out. *)
Example referred_and_written :
  read_list (H := UTC) (H0 := Decimal) after_imports two_combined
    ["12"] "24" [written "0.5" "VdPMRgA"; referred "-10" "-11"] ["24"]
  = OK (1, [reading 1474498800 (25, 2%nat); reading 1474502400 (5, 1%nat)])
  /\ read_list (H := UTC) (H0 := Decimal) after_imports two_combined
       ["12"] "24" [written "0.5" "VdPMRgA"; written "0.25" "VdO$imA"] ["24"]
     = OK (1, [reading 1474498800 (25, 2%nat); reading 1474502400 (5, 1%nat)]).
Proof. split; reflexivity. Qed.

(** C10. A reference with a negative index counts from the end of the
    combined list. Let an entry of a list whose other entries denote
    readings hold in a slot the token [tok], an integer literal [v] whose
    index [j = floor(v / 3) + 2] is negative and no larger in magnitude
    than the combined list. Then the list has an element [c] at position
    [len + j], and [_get_list_readings] returns: with [tok] in the
    timestamp slot, whatever the value slot holds, the reading with the
    timestamp of [c] shifted by the hour offset of [parse]; with [tok] in
    the value slot, whatever the timestamp slot holds, the reading with
    the kwh of [c]. The tokens with a negative index are exactly the
    tokens [v <= -7]. *)
Theorem negative_reference_counts_from_the_end `{LocalClock} `{FloatModel}
        (g : Globals) (combined_readings : list MeterReading)
        (m : string) (front : list string) (older newer : list entry)
        (back : list string) (rs_older rs_newer : list MeterReading)
        (fill : list string) (tok : string) (v : Z) :
  m = "24" \/ m = "3" ->
  Forall2 (denotes g combined_readings) older rs_older ->
  Forall2 (denotes g combined_readings) newer rs_newer ->
  List.length fill = 5%nat ->
  Forall (fun t => is_8_24_3 t = false) fill ->
  py_int tok = OK v ->
  v / 3 + 2 < 0 ->
  - (v / 3 + 2) <= Z.of_nat (List.length combined_readings) ->
  (forall v', v' <= -7 <-> v' / 3 + 2 < 0)
  /\ exists c,
      nth_error combined_readings
        (Z.to_nat (Z.of_nat (List.length combined_readings) + (v / 3 + 2)))
      = Some c
      /\ (forall value k t',
            denotes_value combined_readings value k ->
            add_hours (timestamp c) (parse_time_offset g) = OK t' ->
            read_list g combined_readings front m
              (older ++ mkentry value (time_referred tok) fill :: newer) back
            = OK (Z.of_nat (List.length front),
                  rev rs_newer ++ mkMeterReading t' k :: rev rs_older))
      /\ (forall time d t',
            denotes_time combined_readings time d ->
            add_hours d (parse_time_offset g) = OK t' ->
            read_list g combined_readings front m
              (older ++ mkentry (value_referred tok) time fill :: newer) back
            = OK (Z.of_nat (List.length front),
                  rev rs_newer ++ mkMeterReading t' (kwh c) :: rev rs_older)).
Proof.
  intros Hm Ho Hn Hlen Hfill Hint Hneg Hin.
  split; [exact reference_index_negative|].
  destruct (py_getitem_from_the_end combined_readings (v / 3 + 2) Hneg Hin)
    as (c & Hnth & Hc).
  destruct (negative_reference_token tok v Hint Hneg) as (Htok & H9 & H10).
  exists c. split; [exact Hnth|]. split.
  - intros value k t' Hv Hadd.
    apply get_list_readings_entry; try assumption.
    eapply time_referred_denotes; eauto.
  - intros time d t' Ht Hadd.
    apply get_list_readings_entry; try assumption.
    eapply value_referred_denotes; eauto.
Qed.

Lemma negative_reference_witness :
  (forall v', v' <= -7 <-> v' / 3 + 2 < 0)
  /\ exists c,
      nth_error two_combined
        (Z.to_nat (Z.of_nat (List.length two_combined) + (-8 / 3 + 2)))
      = Some c
      /\ (forall value k t',
            denotes_value (H0 := Decimal) two_combined value k ->
            add_hours (timestamp c) (parse_time_offset after_imports)
            = OK t' ->
            read_list (H := UTC) (H0 := Decimal) after_imports two_combined
              ["12"] "24"
              ([written "0.5" "VdPMRgA"]
               ++ mkentry value (time_referred "-8") fill :: []) ["24"]
            = OK (Z.of_nat (List.length ["12"]),
                  rev [] ++ mkMeterReading t' k
                      :: rev [reading 1474502400 (5, 1%nat)]))
      /\ (forall time d t',
            denotes_time (H := UTC) (H0 := Decimal) two_combined time d ->
            add_hours d (parse_time_offset after_imports) = OK t' ->
            read_list (H := UTC) (H0 := Decimal) after_imports two_combined
              ["12"] "24"
              ([written "0.5" "VdPMRgA"]
               ++ mkentry (value_referred "-8") time fill :: []) ["24"]
            = OK (Z.of_nat (List.length ["12"]),
                  rev [] ++ mkMeterReading t' (kwh c)
                      :: rev [reading 1474502400 (5, 1%nat)])).
Proof.
  apply (negative_reference_counts_from_the_end (H := UTC) (H0 := Decimal)
           after_imports two_combined "24" ["12"]
           [written "0.5" "VdPMRgA"] [] ["24"]
           [reading 1474502400 (5, 1%nat)] [] fill "-8" (-8)).
  - left. reflexivity.
  - exact written_entry_denotes.
  - constructor.
  - reflexivity.
  - repeat constructor.
  - reflexivity.
  - reflexivity.
  - simpl. lia.
Defined.

(** The two mixed entries of the source's comment, each with one
    reference that counts from the end of the combined list. *)
Example mixed_entries_from_the_end :
  read_list (H := UTC) (H0 := Decimal) after_imports two_combined
    ["12"] "24" [time_referred_entry "0.75" "-8"] ["24"]
  = OK (1, [reading 1474502400 (75, 2%nat)])
  /\ read_list (H := UTC) (H0 := Decimal) after_imports two_combined
       ["12"] "24" [value_referred_entry "-11" "VdPMRgA"] ["24"]
     = OK (1, [reading 1474502400 (25, 2%nat)]).
Proof. split; reflexivity. Qed.

End ReferenceClaims.

(** * The generator over the lists of a stream *)

Module GeneratorFacts.

Import TimeUtils Parse ReadingSvc PerMeter PerMeterList PyFacts ScanFacts
       CodecFacts PerMeterFacts PerMeterListFacts.

Lemma lists_stream_snoc ls l :
  lists_stream (ls ++ [l]) = lists_stream ls ++ list_tokens l.
Proof.
  unfold lists_stream. rewrite map_app, concat_app. simpl.
  rewrite app_nil_r. reflexivity.
Qed.

Lemma lists_stream_length ls :
  (List.length ls <= List.length (lists_stream ls))%nat.
Proof.
  induction ls as [|l ls IH]; simpl; [lia|].
  unfold lists_stream in *. simpl. unfold list_tokens at 1.
  rewrite !length_app. simpl. lia.
Qed.

(** The token before the lists of [ls], or the last list-start marker. *)
Lemma lists_stream_last front ls :
  exists f m,
    front ++ "3" :: lists_stream ls = f ++ [m]
    /\ (m = "24" \/ m = "3")
    /\ List.length f = (List.length front + List.length (lists_stream ls))%nat.
Proof.
  destruct ls as [|[es gap] ls] using rev_ind.
  - exists front, "3". simpl. repeat split; auto.
  - exists (front ++ "3" :: lists_stream ls ++ region es ++ gap), "24".
    rewrite lists_stream_snoc. unfold list_tokens. simpl fst. simpl snd.
    repeat split; auto.
    + rewrite <- ?app_assoc. simpl. rewrite <- ?app_assoc. reflexivity.
    + repeat (rewrite ?length_app; cbn [List.length]). lia.
Qed.

Lemma region_ends_in_terminator es :
  es <> [] -> exists body, region es = body ++ ["8"].
Proof.
  destruct es as [|e es] using rev_ind; [congruence|]. intros _.
  exists (region es ++ entry_body e).
  rewrite list_region_snoc. unfold entry_tokens.
  rewrite app_assoc. reflexivity.
Qed.

(** [while csvd[idx] != '8': idx -= 1] from a list-start marker, over the
    tokens that separate it from the last entry of its list. *)
Lemma scan_to_8_gap f gap back (k fuel : nat) :
  Forall (fun tok => String.eqb tok "8" = false) gap ->
  (k <= List.length gap)%nat -> (k <= fuel)%nat ->
  scan_to_8 fuel (f ++ "8" :: gap ++ back) (Z.of_nat (List.length f + k))
  = OK (Z.of_nat (List.length f)).
Proof.
  intros Hgap. revert fuel. induction k as [|k IH]; intros fuel Hk Hfuel.
  - rewrite Nat.add_0_r.
    assert (H8 : py_getitem (f ++ "8" :: gap ++ back)
                            (Z.of_nat (List.length f)) = OK "8")
      by (apply (CombinedClaims.py_getitem_at _ f (gap ++ back)); reflexivity).
    destruct fuel; simpl; rewrite H8; reflexivity.
  - destruct fuel as [|fuel]; [lia|].
    destruct (nth_error gap k) as [tok|] eqn:Et;
      [|apply nth_error_None in Et; lia].
    assert (Htok : py_getitem (f ++ "8" :: gap ++ back)
                              (Z.of_nat (List.length f + S k)) = OK tok).
    { rewrite py_getitem_app_r. simpl. rewrite nth_error_app1 by lia.
      rewrite Et. reflexivity. }
    cbn [scan_to_8]. rewrite Htok. cbn [bind].
    assert (Hne : String.eqb tok "8" = false).
    { rewrite Forall_forall in Hgap. apply Hgap. eapply nth_error_In; eauto. }
    rewrite Hne.
    replace (Z.of_nat (List.length f + S k) - 1)
      with (Z.of_nat (List.length f + k)) by lia.
    apply IH; lia.
Qed.

(** The first scan of the generator ends on the marker of the last list. *)
Lemma generator_start_lists front ls tail :
  ls <> [] ->
  Forall (fun tok => String.eqb tok "24" = false) tail ->
  generator_start (front ++ "3" :: lists_stream ls ++ tail)
  = OK (Z.of_nat (List.length front + List.length (lists_stream ls))).
Proof.
  intros Hne Htail. unfold generator_start.
  destruct (exists_last Hne) as (ls' & [es gap] & ->).
  rewrite lists_stream_snoc. unfold list_tokens.
  simpl fst. simpl snd.
  set (f := front ++ "3" :: lists_stream ls' ++ region es ++ gap).
  assert (Hf : List.length f
               = (List.length front + List.length (lists_stream ls')
                  + List.length (region es) + List.length gap + 1)%nat).
  { unfold f. repeat (rewrite ?length_app; cbn [List.length]). lia. }
  replace (Z.of_nat (List.length front
                     + List.length (lists_stream ls' ++ region es
                                    ++ gap ++ ["24"])))
    with (Z.of_nat (List.length f))
    by (rewrite Hf; repeat (rewrite ?length_app; cbn [List.length]); lia).
  apply (CombinedClaims.scan_back_at _ _ f tail [] "24").
  - unfold f. rewrite <- ?app_assoc. simpl. rewrite <- ?app_assoc.
    simpl. rewrite app_nil_r. reflexivity.
  - reflexivity.
  - exact Htail.
  - rewrite Hf. repeat (rewrite ?length_app; cbn [List.length]). lia.
Qed.

Section Generator.
Context `{LocalClock} `{FloatModel}.
Variables (g : Globals) (combined_readings : list MeterReading).

Local Abbreviation denotes := (denotes g combined_readings).

Lemma generator_all_lists front ls :
  forall rss tail fuel,
    Forall2 (fun l rs => Forall2 denotes (fst l) rs) ls rss ->
    Forall findable ls ->
    (List.length ls < fuel)%nat ->
    generator_all fuel g (front ++ "3" :: lists_stream ls ++ tail)
      combined_readings
      (Z.of_nat (List.length front + List.length (lists_stream ls)))
    = OK (rev (map (@rev MeterReading) rss)).
Proof.
  induction ls as [|[es gap] ls IH] using rev_ind;
    intros rss tail fuel Hwf Hne Hfuel.
  - inversion Hwf; subst. destruct fuel as [|fuel]; [simpl in Hfuel; lia|].
    simpl lists_stream. simpl app. cbn [generator_all]. unfold generator_next.
    destruct (_ <? 0) eqn:E; [apply Z.ltb_lt in E; lia|].
    rewrite Nat.add_0_r.
    rewrite (CombinedClaims.py_getitem_at _ front tail "3") by reflexivity.
    reflexivity.
  - apply Forall2_app_inv_l in Hwf as (rss1 & rss2 & Hwf1 & Hwf2 & ->).
    inversion Hwf2 as [|es' rs ? ? Hrs Hnil]; subst.
    inversion Hnil; subst. clear Hwf2 Hnil. simpl fst in Hrs.
    apply Forall_app in Hne as [Hne1 Hne2].
    inversion Hne2 as [|? ? [Hes Hgap] _]; subst. clear Hne2.
    simpl fst in Hes. simpl snd in Hgap.
    destruct fuel as [|fuel];
      [rewrite length_app in Hfuel; simpl in Hfuel; lia|].
    rewrite lists_stream_snoc. unfold list_tokens. simpl fst. simpl snd.
    destruct (lists_stream_last front ls) as (f & m & Hf & Hm & Hflen).
    destruct (region_ends_in_terminator es Hes) as (body & Hbody).
    set (csvd := front ++ "3" :: (lists_stream ls ++ region es ++ gap ++ ["24"])
                       ++ tail).
    assert (Hcsvd : csvd = f ++ m :: region es ++ gap ++ "24" :: tail).
    { unfold csvd. rewrite <- ?app_assoc. simpl.
      change (front ++ "3" :: lists_stream ls
                    ++ region es ++ gap ++ "24" :: tail)
        with (front ++ ("3" :: lists_stream ls)
                    ++ region es ++ gap ++ "24" :: tail).
      rewrite app_assoc. rewrite Hf. rewrite <- app_assoc. reflexivity. }
    set (idx := Z.of_nat (List.length front
                          + List.length (lists_stream ls ++ region es
                                         ++ gap ++ ["24"]))).
    assert (Hidx : idx = Z.of_nat (List.length f + 1 + List.length (region es)
                                   + List.length gap)).
    { unfold idx. rewrite !length_app. simpl. lia. }
    assert (Hlenb : List.length (region es) = S (List.length body)).
    { rewrite Hbody, length_app. simpl. lia. }
    assert (H24 : py_getitem csvd idx = OK "24").
    { rewrite Hcsvd.
      apply (CombinedClaims.py_getitem_at _ (f ++ m :: region es ++ gap) tail).
      - rewrite <- ?app_assoc. simpl. rewrite <- ?app_assoc. reflexivity.
      - rewrite Hidx. repeat (rewrite ?length_app; cbn [List.length]). lia. }
    cbn [generator_all]. unfold generator_next.
    destruct (idx <? 0) eqn:E; [apply Z.ltb_lt in E; lia|].
    rewrite H24. cbn [bind]. simpl String.eqb. cbn [negb].
    assert (Hscan :
      scan_to_8 (Z.to_nat (idx + Z.of_nat (List.length csvd) + 1)) csvd idx
      = OK (Z.of_nat (List.length f + List.length (region es)))).
    { replace (List.length f + List.length (region es))%nat
        with (List.length (f ++ m :: body))
        by (repeat (rewrite ?length_app; cbn [List.length]); lia).
      rewrite Hcsvd at 2. rewrite Hbody.
      replace (f ++ m :: (body ++ ["8"]) ++ gap ++ "24" :: tail)
        with ((f ++ m :: body) ++ "8" :: (gap ++ ["24"]) ++ tail)
        by (rewrite <- ?app_assoc; simpl; rewrite <- ?app_assoc; reflexivity).
      replace idx
        with (Z.of_nat (List.length (f ++ m :: body)
                        + List.length (gap ++ ["24"])))
        by (rewrite Hidx; repeat (rewrite ?length_app; cbn [List.length]); lia).
      apply scan_to_8_gap.
      - apply Forall_app. split; [exact Hgap | repeat constructor].
      - lia.
      - repeat (rewrite ?length_app; cbn [List.length]). lia. }
    rewrite Hscan. cbn [bind].
    assert (Hlist :
      _get_list_readings g csvd
        (Z.of_nat (List.length f + List.length (region es))) combined_readings
      = OK (Z.of_nat (List.length f), rev rs)).
    { rewrite Hcsvd.
      replace (Z.of_nat (List.length f + List.length (region es)))
        with (Z.of_nat (List.length f + List.length (region es) + 0)) by lia.
      apply get_list_readings_region; [exact Hm | exact Hrs | constructor | lia]. }
    rewrite Hlist. cbn [bind].
    unfold csvd.
    replace (front ++ "3" :: (lists_stream ls ++ region es ++ gap ++ ["24"])
                   ++ tail)
      with (front ++ "3" :: lists_stream ls
                  ++ (region es ++ gap ++ "24" :: tail))
      by (rewrite <- ?app_assoc; simpl; rewrite <- ?app_assoc; reflexivity).
    rewrite Hflen.
    rewrite (IH rss1 (region es ++ gap ++ "24" :: tail) fuel Hwf1 Hne1).
    + cbn [bind]. rewrite map_app, rev_app_distr. reflexivity.
    + rewrite length_app in Hfuel. simpl in Hfuel. lia.
Qed.

End Generator.

End GeneratorFacts.

Module CombinedOpen.

Import TimeUtils Parse Combined PyFacts ScanFacts CodecFacts.

Section Scan.
Context `{LocalClock} `{FloatModel}.
Variable pre : list string.
Hypothesis Hpre : Forall (fun tok => is_9_or_11 tok = false) pre.

(** The loop on a stream without the terminal marker: it reads the region
    from its last entry to its first, searches on through the tokens
    before the region, and leaves by the diagnostic when the search runs
    off the front. *)
Lemma read_combined_loop_open es :
  forall rs back (k : nat) fuel ret,
    Forall2 well_formed es rs ->
    Forall (fun tok => is_9_or_11 tok = false) (firstn k back) ->
    (k <= List.length back)%nat ->
    (List.length es < fuel)%nat ->
    (0 < List.length pre + List.length (region es) + k)%nat ->
    read_combined_loop fuel (pre ++ region es ++ back)
      (Z.of_nat (List.length pre + List.length (region es) + k) - 1) ret
    = OK ([Warning UNEXPECTED_EXIT_COMBINED_LIST], ret ++ rev rs).
Proof.
  induction es as [|e es IH] using rev_ind;
    intros rs back k fuel ret Hwf Hback Hk Hfuel Hpos.
  - inversion Hwf; subst. simpl. rewrite app_nil_r.
    destruct fuel as [|fuel]; [lia|]. simpl region in *. simpl app in *.
    simpl List.length in *.
    cbn [read_combined_loop].
    destruct (_ <? 0) eqn:E; [apply Z.ltb_lt in E; lia|].
    unfold scan_back. rewrite E.
    replace (Z.to_nat (Z.of_nat (List.length pre + 0 + k) - 1 + 1))
      with (List.length pre + k)%nat by lia.
    rewrite <- (firstn_skipn k back) at 1. rewrite app_assoc.
    rewrite scan_down_runs_off.
    + reflexivity.
    + apply Forall_app. split; assumption.
    + rewrite length_app, length_firstn. lia.
  - apply Forall2_app_inv_l in Hwf as (rs1 & rs2 & Hwf1 & Hwf2 & ->).
    inversion Hwf2 as [|e' r es' rs' Hr Hnil]; subst.
    inversion Hnil; subst. clear Hwf2 Hnil.
    destruct Hr as (Hval & Henc & Hfill & Hfloat & Hdec).
    destruct fuel as [|fuel]; [rewrite length_app in Hfuel; simpl in Hfuel; lia|].
    rewrite CombinedClaims.region_snoc in *.
    set (base := (List.length pre + List.length (region es))%nat).
    assert (Hstream :
      pre ++ (region es ++ entry_tokens e) ++ back
      = (pre ++ region es ++ [e_value e; "10"; e_enc e])
          ++ "9" :: (e_fill e ++ ["8"] ++ firstn k back) ++ skipn k back).
    { unfold entry_tokens. rewrite <- ?app_assoc. simpl.
      rewrite <- ?app_assoc. simpl. rewrite firstn_skipn. reflexivity. }
    assert (Hfront :
      List.length (pre ++ region es ++ [e_value e; "10"; e_enc e])
      = (base + 3)%nat).
    { rewrite !length_app. simpl. unfold base. lia. }
    assert (Hlen : List.length (region es ++ entry_tokens e)
                   = (List.length (region es) + 5 + List.length (e_fill e))%nat).
    { unfold entry_tokens. rewrite !length_app. simpl. rewrite length_app.
      simpl. lia. }
    cbn [read_combined_loop].
    destruct (_ <? 0) eqn:E; [apply Z.ltb_lt in E; lia|].
    rewrite (CombinedClaims.scan_back_at is_9_or_11 _ _ _ _ _ _ Hstream eq_refl).
    2:{ apply Forall_app. split; [exact Hfill|].
        apply Forall_app. split; [repeat constructor | exact Hback]. }
    2:{ rewrite Hfront. rewrite Hlen. rewrite !length_app. simpl.
        rewrite length_firstn. unfold base. lia. }
    rewrite Hfront. simpl bind.
    destruct (Z.of_nat (base + 3) <? 0) eqn:E0; [apply Z.ltb_lt in E0; lia|].
    rewrite (CombinedClaims.py_getitem_at _ (pre ++ region es ++ [e_value e])
               (e_enc e :: "9" :: e_fill e ++ ["8"] ++ back) "10").
    2:{ unfold entry_tokens. rewrite <- ?app_assoc. simpl.
        rewrite <- ?app_assoc. reflexivity. }
    2:{ rewrite !length_app. simpl. unfold base. lia. }
    simpl.
    rewrite (CombinedClaims.py_getitem_at _ _ _ "9" _ Hstream)
      by (rewrite Hfront; reflexivity).
    simpl.
    rewrite (CombinedClaims.py_getitem_at _ (pre ++ region es ++ [e_value e; "10"])
               ("9" :: e_fill e ++ ["8"] ++ back) (e_enc e)).
    2:{ unfold entry_tokens. rewrite <- ?app_assoc. simpl.
        rewrite <- ?app_assoc. reflexivity. }
    2:{ rewrite !length_app. simpl. unfold base. lia. }
    simpl. rewrite Hdec. simpl.
    rewrite (CombinedClaims.py_getitem_at _ (pre ++ region es)
               ("10" :: e_enc e :: "9" :: e_fill e ++ ["8"] ++ back) (e_value e)).
    2:{ unfold entry_tokens. rewrite <- ?app_assoc. simpl.
        rewrite <- ?app_assoc. reflexivity. }
    2:{ rewrite !length_app. unfold base. lia. }
    simpl. rewrite Hfloat. simpl.
    replace (pre ++ (region es ++ entry_tokens e) ++ back)
      with (pre ++ region es ++ (entry_tokens e ++ back))
      by (rewrite <- app_assoc; reflexivity).
    replace (Z.of_nat (base + 3) - 1)
      with (Z.of_nat (List.length pre + List.length (region es) + 3) - 1)
      by (unfold base; lia).
    rewrite (IH rs1 (entry_tokens e ++ back) 3%nat fuel
               (ret ++ [mkMeterReading (timestamp r) (kwh r)])).
    + rewrite rev_app_distr. simpl. rewrite <- app_assoc. simpl.
      destruct r. reflexivity.
    + exact Hwf1.
    + unfold entry_tokens. simpl. repeat constructor; assumption.
    + unfold entry_tokens. simpl. lia.
    + rewrite length_app in Hfuel. simpl in Hfuel. lia.
    + lia.
Qed.
End Scan.

(** X5. A stream that never shows the terminal marker: any tokens that are
    not markers, then a region of [N] well-formed entries.  Unless the
    stream is empty, [_read_combined] returns the [N] readings, oldest
    first, and logs the diagnostic once. *)
Theorem read_combined_without_terminal_marker `{LocalClock} `{FloatModel}
        (pre : list string) (es : list entry) (rs : list MeterReading) :
  Forall (fun tok => is_9_or_11 tok = false) pre ->
  Forall2 well_formed es rs ->
  pre ++ region es <> [] ->
  _read_combined (pre ++ region es)
  = OK ([Warning UNEXPECTED_EXIT_COMBINED_LIST], rs).
Proof.
  intros Hpre Hwf Hne. unfold _read_combined.
  pose proof (read_combined_loop_open pre Hpre es rs [] 0
                (List.length (pre ++ region es)) [] Hwf) as Hloop.
  rewrite app_nil_r in Hloop.
  replace (Z.of_nat (List.length (pre ++ region es)) - 1)
    with (Z.of_nat (List.length pre + List.length (region es) + 0) - 1)
    by (rewrite length_app; lia).
  rewrite Hloop.
  - simpl. rewrite rev_involutive. reflexivity.
  - constructor.
  - simpl. lia.
  - rewrite length_app. destruct es as [|e es'].
    + destruct pre; [exfalso; apply Hne; reflexivity | simpl; lia].
    + pose proof (CombinedClaims.region_length es') as Hr.
      unfold region in *. simpl. rewrite length_app. simpl. lia.
  - destruct (pre ++ region es) eqn:E; [congruence|].
    apply (f_equal (@List.length string)) in E. rewrite length_app in E.
    simpl in E. lia.
Qed.

Lemma read_combined_open_witness :
  _read_combined (H := Host.UTC) (H0 := Host.Decimal)
    (["13"; "12"] ++ region [mkentry "0.5" "VdPMRgA" ["0"; "0"; "1"; "0"; "0"];
                             mkentry "0.25" "VdPMRgA" ["0"; "0"; "1"; "0"; "0"]])
  = OK ([Warning UNEXPECTED_EXIT_COMBINED_LIST],
        [Fixtures.reading 1474502400 (5, 1%nat);
         Fixtures.reading 1474502400 (25, 2%nat)]).
Proof.
  apply (read_combined_without_terminal_marker (H := Host.UTC)
           (H0 := Host.Decimal)).
  - repeat constructor.
  - constructor; [|constructor; [|constructor]];
      repeat split; repeat constructor.
  - discriminate.
Defined.

End CombinedOpen.

(** * Properties of the list decoders *)

Module ListProperties.

Import TimeUtils Parse ReadingSvc PerMeter PerMeterList PyFacts ScanFacts
       CodecFacts PerMeterFacts PerMeterListFacts GeneratorFacts.
Import Host Fixtures ListFixtures.

(** X1. A whole per-meter list. On a stream that holds a list-start marker
    (['24'], or the ['3'] that ends the preamble) followed by a region of
    [N] entries, each one written out or referring to the combined list,
    [_get_list_readings] started on the last terminator of the region
    returns the [N] readings the entries denote, the last entry of the
    stream first, and the index of the marker. *)
Theorem per_meter_list_is_read_backwards `{LocalClock} `{FloatModel}
        (g : Globals) (combined_readings : list MeterReading)
        (m : string) (front : list string) (es : list entry)
        (rs : list MeterReading) (back : list string) :
  m = "24" \/ m = "3" ->
  Forall2 (denotes g combined_readings) es rs ->
  _get_list_readings g (front ++ m :: region es ++ back)
    (Z.of_nat (List.length front + List.length (region es)))
    combined_readings
  = OK (Z.of_nat (List.length front), rev rs).
Proof.
  intros Hm Hwf.
  pose proof (get_list_readings_region g combined_readings m front es Hm
                rs back 0 Hwf) as Hl.
  rewrite Nat.add_0_r in Hl. apply Hl.
  - constructor.
  - lia.
Qed.

Example one_list_denotes :
  Forall2 (denotes (H := UTC) (H0 := Decimal) after_imports two_combined)
          one_list one_list_readings.
Proof.
  constructor; [|constructor; [|constructor]].
  - split; [reflexivity|]. split; [repeat constructor|]. split.
    + exists (mkdatetime 1474502400). repeat split.
    + split; reflexivity.
  - split; [reflexivity|]. split; [repeat constructor|]. split.
    + exists (mkdatetime 1474498800). split; [|reflexivity].
      split; [reflexivity|]. split; [discriminate|].
      exists (-11), (reading 1474498800 (25, 2%nat)). repeat split.
    + split; [reflexivity|]. split; [discriminate|].
      exists (-10), (reading 1474498800 (25, 2%nat)). repeat split.
Qed.

Lemma per_meter_list_witness :
  _get_list_readings (H := UTC) (H0 := Decimal) after_imports
    (["12"] ++ "24" :: region one_list ++ ["24"])
    (Z.of_nat (List.length ["12"] + List.length (region one_list)))
    two_combined
  = OK (Z.of_nat (List.length ["12"]), rev one_list_readings).
Proof.
  exact (per_meter_list_is_read_backwards (H := UTC) (H0 := Decimal)
           after_imports two_combined "24" ["12"] one_list one_list_readings
           ["24"] (or_introl eq_refl) one_list_denotes).
Defined.

Section Stop.
Context `{LocalClock} `{FloatModel}.
Variables (g : Globals) (csvd : list string)
          (combined_readings : list MeterReading).

Lemma get_list_loop_stop fuel idx acc stop rs :
  get_list_loop fuel g csvd combined_readings idx acc = OK (stop, rs) ->
  exists new,
    rs = acc ++ new
    /\ 7 * Z.of_nat (List.length new) <= idx - stop
    /\ (stop < 0
        \/ exists tok, py_getitem csvd stop = OK tok
                       /\ is_8_24_3 tok = true
                       /\ (tok = "8" -> stop < 8)).
Proof.
  revert idx acc. induction fuel as [|fuel IH]; intros idx acc Hr;
    simpl in Hr; revert Hr.
  - destruct (idx <? 0) eqn:E; [|discriminate]. apply Z.ltb_lt in E.
    intros Hr; inversion Hr; subst. exists []. rewrite app_nil_r.
    simpl. split; [reflexivity|]. split; [lia|]. left. lia.
  - destruct (idx <? 0) eqn:E.
    { apply Z.ltb_lt in E. intros Hr; inversion Hr; subst. exists [].
      rewrite app_nil_r. simpl. split; [reflexivity|]. split; [lia|].
      left. lia. }
    apply Z.ltb_ge in E.
    destruct (scan_back is_8_24_3 csvd idx) as [i|e] eqn:Es; simpl;
      [|discriminate].
    pose proof (scan_back_range _ _ _ _ Es) as [Hle _].
    destruct (i <? 8) eqn:E8.
    { apply Z.ltb_lt in E8. intros Hr; inversion Hr; subst. exists [].
      rewrite app_nil_r. simpl. split; [reflexivity|]. split; [lia|].
      destruct (Z_lt_ge_dec stop 0) as [Hneg|Hpos]; [left; exact Hneg|].
      right. destruct (scan_back_found _ _ _ _ Es) as (tok & Ht & Hs); [lia|].
      exists tok. auto. }
    apply Z.ltb_ge in E8.
    destruct (scan_back_found _ _ _ _ Es) as (tok & Ht & Hs); [lia|].
    rewrite Ht. simpl.
    destruct (String.eqb tok "8") eqn:Et; simpl.
    + destruct (read_entry g csvd combined_readings i) as [[idx' r]|e] eqn:Er;
        simpl; [|discriminate].
      pose proof (read_entry_position _ _ _ _ _ _ Er) as Hpos.
      intros Hl. apply IH in Hl as (new & -> & Hcount & Hstop).
      exists (r :: new). rewrite <- app_assoc.
      split; [reflexivity|]. split; [|exact Hstop].
      change (7 * Z.of_nat (S (List.length new)) <= idx - stop). lia.
    + intros Hr; inversion Hr; subst. exists []. rewrite app_nil_r. simpl.
      split; [reflexivity|]. split; [lia|].
      right. exists tok. repeat split; auto.
      intros ->. discriminate.
Qed.

End Stop.

(** X2. Where a list ends. When [_get_list_readings] returns, the index it
    returns is not above the one it was started on, every reading has
    taken at least seven tokens, and the index is negative or on a token
    the scan stops on: a list-start marker ['24'] or ['3'] anywhere, a
    terminator ['8'] only below index 8. *)
Theorem get_list_readings_stops_on_a_marker `{LocalClock} `{FloatModel}
        (g : Globals) (csvd : list string) (idx : Z)
        (combined_readings : list MeterReading)
        (stop : Z) (rs : list MeterReading) :
  _get_list_readings g csvd idx combined_readings = OK (stop, rs) ->
  stop <= idx
  /\ 7 * Z.of_nat (List.length rs) <= idx - stop
  /\ (stop < 0
      \/ exists tok, py_getitem csvd stop = OK tok
                     /\ is_8_24_3 tok = true
                     /\ (tok = "8" -> stop < 8)).
Proof.
  unfold _get_list_readings. intros Hr.
  apply get_list_loop_stop in Hr as (new & -> & Hcount & Hstop).
  simpl. split; [lia|]. split; [exact Hcount | exact Hstop].
Qed.

Example one_list_run :
  _get_list_readings (H := UTC) (H0 := Decimal) after_imports
    ("24" :: region one_list) 18 two_combined
  = OK (0, rev one_list_readings).
Proof. reflexivity. Qed.

Lemma get_list_readings_stop_witness :
  0 <= 18
  /\ 7 * Z.of_nat (List.length (rev one_list_readings)) <= 18 - 0
  /\ (0 < 0
      \/ exists tok, py_getitem ("24" :: region one_list) 0 = OK tok
                     /\ is_8_24_3 tok = true
                     /\ (tok = "8" -> 0 < 8)).
Proof.
  exact (get_list_readings_stops_on_a_marker (H := UTC) (H0 := Decimal)
           after_imports ("24" :: region one_list) 18 two_combined
           0 (rev one_list_readings) one_list_run).
Defined.

(** X3. The lists of a stream. On a stream made of a preamble that ends in
    ['3'], then one list after another (a region of at least one entry,
    tokens other than ['8'], the list-start marker ['24']), then tokens
    that hold no ['24'], the generator yields one list of readings for
    each list of the stream, the last list of the stream first, each with
    its last entry first. *)
Theorem generator_yields_the_lists_in_reverse `{LocalClock} `{FloatModel}
        (g : Globals) (combined_readings : list MeterReading)
        (front : list string) (ls : list (list entry * list string))
        (rss : list (list MeterReading)) (tail : list string) :
  ls <> [] ->
  Forall findable ls ->
  Forall2 (fun l rs => Forall2 (denotes g combined_readings) (fst l) rs)
          ls rss ->
  Forall (fun tok => String.eqb tok "24" = false) tail ->
  exists idx,
    generator_start (front ++ "3" :: lists_stream ls ++ tail) = OK idx
    /\ generator_all
         (generator_fuel (front ++ "3" :: lists_stream ls ++ tail)) g
         (front ++ "3" :: lists_stream ls ++ tail) combined_readings idx
       = OK (rev (map (@rev MeterReading) rss)).
Proof.
  intros Hne Hnonempty Hwf Htail.
  exists (Z.of_nat (List.length front + List.length (lists_stream ls))).
  split.
  - apply generator_start_lists; assumption.
  - apply generator_all_lists; auto.
    unfold generator_fuel. rewrite !length_app. simpl. rewrite length_app.
    pose proof (lists_stream_length ls). lia.
Qed.

Example other_list_denotes :
  Forall2 (denotes (H := UTC) (H0 := Decimal) after_imports two_combined)
          other_list other_list_readings.
Proof.
  constructor; [|constructor].
  split; [reflexivity|]. split; [repeat constructor|]. split.
  - exists (mkdatetime 1474502400). repeat split.
  - split; reflexivity.
Qed.

Lemma generator_lists_witness :
  exists idx,
    generator_start (["0"] ++ "3" :: lists_stream two_lists ++ ["10"]) = OK idx
    /\ generator_all (H := UTC) (H0 := Decimal)
         (generator_fuel (["0"] ++ "3" :: lists_stream two_lists ++ ["10"]))
         after_imports (["0"] ++ "3" :: lists_stream two_lists ++ ["10"])
         two_combined idx
       = OK (rev (map (@rev _) [one_list_readings; other_list_readings])).
Proof.
  unfold two_lists.
  apply (generator_yields_the_lists_in_reverse (H := UTC) (H0 := Decimal)
           after_imports two_combined ["0"]
           [(one_list, ["VdPMRgA"; "VdPMRgA"]); (other_list, [])]
           [one_list_readings; other_list_readings] ["10"]).
  - discriminate.
  - constructor; [split; [discriminate | repeat constructor]|].
    constructor; [split; [discriminate | repeat constructor]|]. constructor.
  - constructor; [exact one_list_denotes|].
    constructor; [exact other_list_denotes|]. constructor.
  - constructor; [reflexivity|]. constructor.
Defined.

(** X4. No list-start marker, no list. On a stream without a ['24'] token
    (the empty stream included) the generator yields nothing. *)
Theorem generator_without_marker_yields_nothing `{LocalClock} `{FloatModel}
        (g : Globals) (combined_readings : list MeterReading)
        (csvd : list string) :
  Forall (fun tok => String.eqb tok "24" = false) csvd ->
  exists idx,
    generator_start csvd = OK idx
    /\ generator_all (generator_fuel csvd) g csvd combined_readings idx
       = OK [].
Proof.
  intros Hno. exists (-1). split.
  - unfold generator_start, scan_back.
    destruct (_ <? 0) eqn:E.
    + apply Z.ltb_lt in E. f_equal. lia.
    + apply Z.ltb_ge in E.
      replace (Z.to_nat (Z.of_nat (List.length csvd) - 1 + 1))
        with (List.length csvd) by lia.
      rewrite <- (app_nil_r csvd) at 1.
      apply scan_down_runs_off; [exact Hno | lia].
  - reflexivity.
Qed.

Lemma generator_without_marker_witness :
  exists idx,
    generator_start ["3"; "0.5"; "10"; "VdPMRgA"; "9"; "8"] = OK idx
    /\ generator_all (H := UTC) (H0 := Decimal)
         (generator_fuel ["3"; "0.5"; "10"; "VdPMRgA"; "9"; "8"])
         after_imports ["3"; "0.5"; "10"; "VdPMRgA"; "9"; "8"] two_combined idx
       = OK [].
Proof.
  apply (generator_without_marker_yields_nothing (H := UTC) (H0 := Decimal)).
  repeat constructor.
Defined.

End ListProperties.

(** * The metadata block *)

Module MetadataFacts.

Import Parse Metadata PyFacts MetadataClaims.

Lemma In_firstn {A} (n : nat) (l : list A) x : In x (firstn n l) -> In x l.
Proof.
  intros Hin. rewrite <- (firstn_skipn n l). apply in_or_app. auto.
Qed.

Lemma In_skipn {A} (n : nat) (l : list A) x : In x (skipn n l) -> In x l.
Proof.
  intros Hin. rewrite <- (firstn_skipn n l). apply in_or_app. auto.
Qed.

Lemma In_py_slice {A} (l : list A) a b x : In x (py_slice l a b) -> In x l.
Proof. unfold py_slice. intros Hin. eapply In_firstn, In_skipn, Hin. Qed.

Lemma py_getitem_In {A} (l : list A) i x : py_getitem l i = OK x -> In x l.
Proof.
  unfold py_getitem. destruct (_ && _); [|discriminate].
  destruct (nth_error l _) eqn:E; simpl; [|discriminate].
  intros Hx; inversion Hx; subst. eapply nth_error_In; eauto.
Qed.

Lemma indices_where_length {A} (p : A -> bool) k l :
  List.length (indices_where p k l) = List.length (filter p l).
Proof.
  revert k. induction l as [|x l IH]; intros k; simpl; [reflexivity|].
  destruct (p x); simpl; rewrite IH; reflexivity.
Qed.

Lemma indices_where_snoc {A} (p : A -> bool) k l x :
  indices_where p k (l ++ [x])
  = indices_where p k l
    ++ (if p x then [(k + List.length l)%nat] else []).
Proof.
  revert k. induction l as [|y l IH]; intros k; simpl.
  - rewrite Nat.add_0_r. destruct (p x); reflexivity.
  - rewrite IH. replace (S k + List.length l)%nat
      with (k + S (List.length l))%nat by lia.
    destruct (p y); reflexivity.
Qed.

Lemma zip_next_length {A} (l : list A) (c : A) :
  List.length (zip_next (l ++ [c])) = List.length l.
Proof.
  induction l as [|x l IH]; simpl; [reflexivity|].
  destruct (l ++ [c]) as [|y t] eqn:E; [destruct l; discriminate|].
  simpl. rewrite <- IH. reflexivity.
Qed.

Lemma zip_next_snoc {A} (l : list A) (a c : A) :
  zip_next (l ++ [a] ++ [c]) = zip_next (l ++ [a]) ++ [(a, c)].
Proof.
  induction l as [|x l IH]; simpl; [reflexivity|].
  destruct (l ++ [a]) as [|y t] eqn:E; [destruct l; discriminate|].
  change (l ++ a :: [c]) with (l ++ [a] ++ [c]).
  rewrite app_assoc, E in *. simpl in *. rewrite IH. reflexivity.
Qed.

(** The scan of one segment only grows the list of names, and takes the
    names it adds from the tokens it scans. *)
Lemma segment_loop_inv vs :
  forall ret name subs ret' name' subs',
    segment_loop vs ret name subs = (ret', name', subs') ->
    (List.length ret <= List.length ret')%nat
    /\ forall n, In n (ret' ++ name' :: subs') ->
                 In n (ret ++ name :: subs)
                 \/ exists v, In v vs /\ n = strip_quotes v.
Proof.
  induction vs as [|v vs IH]; intros ret name subs ret' name' subs'; simpl.
  - intros E; inversion E; subst. split; [lia | auto].
  - assert (Hskip :
      segment_loop vs ret name subs = (ret', name', subs') ->
      (List.length ret <= List.length ret')%nat
      /\ forall n, In n (ret' ++ name' :: subs') ->
                   In n (ret ++ name :: subs)
                   \/ exists v0, (v = v0 \/ In v0 vs) /\ n = strip_quotes v0).
    { intros E. apply IH in E as [Hl Hn]. split; [exact Hl|].
      intros n Hin. destruct (Hn n Hin) as [?|(v0 & ? & ?)]; eauto. }
    destruct (str_in "." v); [exact Hskip|].
    destruct (str_in "#" v); [exact Hskip|].
    destruct (str_in name (strip_quotes v)).
    { intros E. apply IH in E as [Hl Hn]. split; [exact Hl|].
      intros n Hin. destruct (Hn n Hin) as [Hold|(v0 & ? & ?)]; eauto.
      rewrite in_app_iff in Hold. simpl in Hold. rewrite in_app_iff in Hold.
      simpl in Hold. rewrite in_app_iff. simpl.
      destruct Hold as [?|[?|[?|[<-|[]]]]]; eauto. }
    destruct (str_in "-" (strip_quotes v)); [exact Hskip|].
    destruct subs as [|s subs].
    + intros E. apply IH in E as [Hl Hn]. rewrite length_app in Hl.
      split; [lia|].
      intros n Hin. destruct (Hn n Hin) as [Hold|(v0 & ? & ?)]; eauto.
      rewrite !in_app_iff in Hold. simpl in Hold. rewrite in_app_iff. simpl.
      destruct Hold as [[?|[?|[]]]|[<-|[]]]; eauto.
    + intros E. apply IH in E as [Hl Hn]. rewrite length_app in Hl.
      split; [lia|].
      intros n Hin. destruct (Hn n Hin) as [Hold|(v0 & ? & ?)]; eauto.
      rewrite !in_app_iff in Hold. simpl in Hold. rewrite in_app_iff. simpl.
      destruct Hold as [[?|[?|?]]|[<-|[]]]; eauto.
Qed.

Lemma segments_loop_inv meta_csv pairs :
  forall ret names,
    segments_loop meta_csv pairs ret = OK names ->
    (List.length ret + List.length pairs <= List.length names)%nat
    /\ forall n, In n names ->
                 In n ret \/ exists tok, In tok meta_csv /\ n = strip_quotes tok.
Proof.
  induction pairs as [|[start end_] pairs IH]; intros ret names; simpl.
  - intros E; inversion E; subst. split; [lia | auto].
  - destruct (py_getitem meta_csv (Z.of_nat start + 1)) as [first|e] eqn:Ef;
      simpl; [|discriminate].
    apply py_getitem_In in Ef.
    destruct (segment_loop _ _ _ _) as [[ret' name] subs] eqn:Es.
    apply segment_loop_inv in Es as [Hl Hn].
    assert (Hfrom : forall n, In n (ret' ++ name :: subs) ->
                   In n ret \/ exists tok, In tok meta_csv /\ n = strip_quotes tok).
    { intros n Hin. destruct (Hn n Hin) as [Hold|(v & Hv & ->)].
      - rewrite in_app_iff in Hold. simpl in Hold.
        destruct Hold as [?|[<-|[]]]; eauto.
      - apply In_py_slice in Hv. eauto. }
    destruct subs as [|s subs]; intros E; apply IH in E as [Hl' Hn'];
      rewrite length_app in Hl'; simpl in Hl'.
    + split; [lia|]. intros n Hin.
      destruct (Hn' n Hin) as [Hr|Hr]; [|right; exact Hr].
      apply Hfrom. rewrite in_app_iff in *. simpl in *. tauto.
    + split; [lia|]. intros n Hin.
      destruct (Hn' n Hin) as [Hr|Hr]; [|right; exact Hr].
      apply Hfrom. rewrite in_app_iff in *. simpl in *. tauto.
Qed.

Lemma segments_loop_app meta_csv p1 p2 ret :
  segments_loop meta_csv (p1 ++ p2) ret
  = (r <- segments_loop meta_csv p1 ret ;; segments_loop meta_csv p2 r).
Proof.
  revert ret. induction p1 as [|[start end_] p1 IH]; intros ret; simpl;
    [reflexivity|].
  destruct (py_getitem meta_csv (Z.of_nat start + 1)); simpl; [|reflexivity].
  destruct (segment_loop _ _ _ _) as [[ret' name] subs].
  destruct subs; apply IH.
Qed.

(** A failing run has met a start marker with no token after it. *)
Lemma segments_loop_raises_at meta_csv pairs ret e :
  segments_loop meta_csv pairs ret = Raise e ->
  Exists (fun se => (List.length meta_csv <= S (fst se))%nat) pairs.
Proof.
  revert ret. induction pairs as [|[start end_] pairs IH]; intros ret; simpl;
    [discriminate|].
  destruct (py_getitem meta_csv (Z.of_nat start + 1)) as [first|e'] eqn:Ef;
    simpl.
  - destruct (segment_loop _ _ _ _) as [[ret' name] subs].
    destruct subs; intros Hr; apply Exists_cons_tl; eapply IH; eauto.
  - intros _. apply Exists_cons_hd. simpl.
    destruct (le_lt_dec (List.length meta_csv) (S start)) as [|Hlt]; [assumption|].
    destruct (py_getitem_total meta_csv (Z.of_nat start + 1)) as [x Hx]; [lia|].
    congruence.
Qed.

(** A successful call returns a name. *)
Lemma segments_loop_nonempty meta_csv :
  _extract_meters meta_csv = OK [] -> False.
Proof.
  unfold _extract_meters.
  destruct (indices_where (str_in "+") 0 meta_csv) as [|i0 indices] eqn:Ei;
    [discriminate|].
  destruct (index_where (String.eqb COLUMN) 0 meta_csv) as [c|];
    [|discriminate].
  intros Hr. apply segments_loop_inv in Hr as [Hl _].
  rewrite zip_next_length in Hl. simpl in Hl. lia.
Qed.

End MetadataFacts.

Module MetadataProperties.

Import Parse Metadata PyFacts MetadataClaims MetadataFacts.
Import Fixtures.

(** X6. [_extract_meters] raises [IndexError] exactly when the terminal
    marker ["column"] is present and the last token of the metadata holds
    the start-marker character ['+']: the name expected after it is read
    beyond the end of the list. *)
Theorem extract_meters_index_error (meta_csv : list string) :
  _extract_meters meta_csv = Raise IndexError
  <-> has_end_marker meta_csv = true
      /\ exists tok, nth_error meta_csv (List.length meta_csv - 1) = Some tok
                     /\ str_in "+" tok = true.
Proof.
  unfold _extract_meters, has_end_marker. split.
  - destruct (indices_where (str_in "+") 0 meta_csv) as [|i0 indices] eqn:Ei;
      [discriminate|].
    destruct (index_where (String.eqb COLUMN) 0 meta_csv) as [c|] eqn:Ec;
      [|discriminate].
    intros Hr. split.
    { destruct (existsb (String.eqb COLUMN) meta_csv) eqn:E; [reflexivity|].
      apply (index_where_none _ 0%nat) in E. congruence. }
    apply segments_loop_raises_at in Hr.
    apply Exists_exists in Hr as ([start end_] & Hin & Hlen). simpl in Hlen.
    apply zip_next_in in Hin. rewrite <- Ei in Hin.
    apply indices_where_in in Hin as (tok & Htok & Hplus & _).
    rewrite Nat.sub_0_r in Htok.
    assert (Hlt : (start < List.length meta_csv)%nat)
      by (apply nth_error_Some; congruence).
    exists tok. replace (List.length meta_csv - 1)%nat with start by lia.
    auto.
  - intros (Hend & tok & Htok & Hplus).
    assert (Hne : meta_csv <> []) by (intros ->; discriminate).
    destruct (exists_last Hne) as (l & x & ->).
    rewrite length_app in Htok. simpl in Htok.
    replace (List.length l + 1 - 1)%nat with (List.length l) in Htok by lia.
    rewrite nth_error_app2 in Htok by lia. rewrite Nat.sub_diag in Htok.
    simpl in Htok. inversion Htok; subst x. clear Htok.
    rewrite indices_where_snoc, Hplus. simpl plus.
    destruct (indices_where (str_in "+") 0 l ++ [List.length l]) as [|i0 t] eqn:Ei;
      [destruct (indices_where (str_in "+") 0 l); discriminate|].
    rewrite <- Ei. clear Ei i0 t.
    destruct (index_where (String.eqb COLUMN) 0 (l ++ [tok])) as [c|] eqn:Ec.
    2:{ apply index_where_none in Ec. congruence. }
    rewrite <- app_assoc. rewrite zip_next_snoc. rewrite segments_loop_app.
    destruct (segments_loop_total (l ++ [tok])
                (zip_next (indices_where (str_in "+") 0 l ++ [List.length l])) [])
      as [names Hnames].
    { apply Forall_forall. intros [start end_] Hin. simpl.
      apply zip_next_in in Hin.
      apply indices_where_in in Hin as (y & Hy & _ & _).
      rewrite Nat.sub_0_r in Hy.
      assert ((start < List.length l)%nat) by (apply nth_error_Some; congruence).
      rewrite length_app. simpl. lia. }
    rewrite Hnames. simpl.
    rewrite py_getitem_out_of_range; [reflexivity|].
    right. rewrite length_app. simpl. lia.
Qed.

(** X7. The names [_extract_meters] returns: at least one for every token
    that holds a ['+'], and each of them a token of the metadata without
    its first and last character. *)
Theorem extract_meters_names (meta_csv names : list string) :
  _extract_meters meta_csv = OK names ->
  (1 <= List.length (filter (str_in "+") meta_csv) <= List.length names)%nat
  /\ Forall (fun n => exists tok, In tok meta_csv /\ n = strip_quotes tok)
            names.
Proof.
  unfold _extract_meters.
  destruct (indices_where (str_in "+") 0 meta_csv) as [|i0 indices] eqn:Ei;
    [discriminate|].
  destruct (index_where (String.eqb COLUMN) 0 meta_csv) as [c|] eqn:Ec;
    [|discriminate].
  intros Hr. apply segments_loop_inv in Hr as [Hl Hn].
  rewrite zip_next_length in Hl. rewrite <- Ei in Hl.
  rewrite indices_where_length in Hl.
  pose proof (indices_where_length (str_in "+") 0%nat meta_csv) as Hc.
  rewrite Ei in Hc. simpl in Hc, Hl.
  split; [lia|].
  apply Forall_forall. intros n Hin.
  destruct (Hn n Hin) as [[]|?]. assumption.
Qed.

Lemma extract_meters_names_witness :
  (1 <= List.length (filter (str_in "+") (test_data3 ++ end_data))
   <= List.length ["metername1"; "metername2"; "metername3";
                   "metername4 - sub1"; "metername4 - sub2";
                   "metername4 - sub3"])%nat
  /\ Forall (fun n => exists tok, In tok (test_data3 ++ end_data)
                                  /\ n = strip_quotes tok)
            ["metername1"; "metername2"; "metername3";
             "metername4 - sub1"; "metername4 - sub2"; "metername4 - sub3"].
Proof.
  apply (extract_meters_names (test_data3 ++ end_data)). reflexivity.
Defined.

End MetadataProperties.

Module MetadataShapeFacts.

Import Parse Metadata MetadataShape PyFacts MetadataClaims MetadataFacts.
Import Fixtures.

Lemma indices_where_app {A} (p : A -> bool) k l1 l2 :
  indices_where p k (l1 ++ l2)
  = indices_where p k l1 ++ indices_where p (k + List.length l1) l2.
Proof.
  revert k. induction l1 as [|x l1 IH]; intros k; simpl.
  - rewrite Nat.add_0_r. reflexivity.
  - rewrite IH. replace (S k + List.length l1)%nat
      with (k + S (List.length l1))%nat by lia.
    destruct (p x); reflexivity.
Qed.

Lemma indices_where_none_all {A} (p : A -> bool) k l :
  Forall (fun x => p x = false) l -> indices_where p k l = [].
Proof.
  intros Hall. revert k. induction Hall as [|x l Hx _ IH]; intros k; simpl;
    [reflexivity|].
  rewrite Hx. apply IH.
Qed.

Lemma index_where_le {A} (p : A -> bool) k l i x :
  nth_error l i = Some x -> p x = true ->
  exists c, index_where p k l = Some c /\ (c <= k + i)%nat.
Proof.
  revert k i. induction l as [|y l IH]; intros k i Hi Hp.
  - destruct i; discriminate.
  - simpl. destruct (p y) eqn:Ey.
    + exists k. split; [reflexivity | lia].
    + destruct i as [|i]; [simpl in Hi; congruence|].
      simpl in Hi. destruct (IH (S k) i Hi Hp) as (c & Hc & Hle).
      exists c. split; [exact Hc | lia].
Qed.

Lemma zip_next_cons2 {A} (a b : A) l :
  zip_next (a :: b :: l) = (a, b) :: zip_next (b :: l).
Proof. reflexivity. Qed.

Lemma indices_segments k segs :
  Forall plain segs ->
  indices_where (str_in "+") k (List.concat (map segment_tokens segs))
  = starts k segs.
Proof.
  intros Hall. revert k.
  induction Hall as [|s segs (Hm & Hn & Hrest) _ IH]; intros k;
    [reflexivity|].
  cbn [map List.concat starts]. rewrite indices_where_app, IH.
  unfold segment_tokens at 1. cbn [indices_where]. rewrite Hm, Hn.
  rewrite indices_where_none_all; [reflexivity|].
  eapply Forall_impl; [|exact Hrest]. intros v [Hv _]. exact Hv.
Qed.

Lemma segment_loop_passes vs :
  Forall (fun v => passed_over v = true) vs ->
  forall ret name subs, segment_loop vs ret name subs = (ret, name, subs).
Proof.
  induction 1 as [|v vs Hv _ IH]; intros ret name subs; simpl;
    [reflexivity|].
  unfold passed_over in Hv.
  destruct (str_in "." v); [apply IH|].
  simpl in Hv. rewrite Hv. apply IH.
Qed.

Lemma Forall_firstn {A} (P : A -> Prop) n (l : list A) :
  Forall P l -> Forall P (firstn n l).
Proof.
  intros Hall. apply Forall_forall. intros x Hin.
  rewrite Forall_forall in Hall. apply Hall. eapply In_firstn; eauto.
Qed.

(** The segments of plain metadata, read one after the other: each one
    gives its name.  The end [c] of the last segment may lie anywhere
    up to the end of the segments. *)
Lemma segments_loop_plain segs :
  forall pre post c ret,
    Forall plain segs ->
    (c <= List.length pre
          + List.length (List.concat (map segment_tokens segs)))%nat ->
    segments_loop (pre ++ List.concat (map segment_tokens segs) ++ post)
      (zip_next (starts (List.length pre) segs ++ [c])) ret
    = OK (ret ++ map (fun s => strip_quotes (seg_name s)) segs).
Proof.
  induction segs as [|s segs IH]; intros pre post c ret Hall Hc.
  - simpl. rewrite app_nil_r. reflexivity.
  - inversion Hall as [|? ? (Hm & Hn & Hrest) Hall']; subst.
    cbn [starts map List.concat] in *.
    set (k := List.length pre) in *.
    set (k' := (k + List.length (segment_tokens s))%nat) in *.
    set (meta := pre ++ (segment_tokens s ++ List.concat (map segment_tokens segs))
                     ++ post).
    assert (He : exists e t, starts k' segs ++ [c] = e :: t /\ (e <= k')%nat).
    { destruct segs as [|s' segs'].
      - exists c, []. split; [reflexivity|].
        cbn [map List.concat] in Hc. rewrite app_nil_r in Hc.
        unfold k'. exact Hc.
      - simpl. eauto. }
    destruct He as (e & t & He & Hle).
    change ((k :: starts k' segs) ++ [c]) with (k :: (starts k' segs ++ [c])).
    rewrite He. rewrite zip_next_cons2. rewrite <- He.
    cbn [segments_loop].
    assert (Hname : py_getitem meta (Z.of_nat k + 1) = OK (seg_name s)).
    { unfold meta, k.
      replace (Z.of_nat (List.length pre) + 1)
        with (Z.of_nat (List.length pre + 1)) by lia.
      rewrite py_getitem_app_r. reflexivity. }
    rewrite Hname. cbn [bind].
    assert (Hslice : py_slice meta (k + 2) e
                     = firstn (e - (k + 2)) (seg_rest s)).
    { unfold py_slice. rewrite skipn_firstn_comm.
      unfold meta, k. rewrite skipn_app.
      rewrite skipn_all2 by lia.
      replace (List.length pre + 2 - List.length pre)%nat with 2%nat by lia.
      rewrite <- app_assoc. simpl.
      rewrite firstn_app.
      replace (e - (List.length pre + 2) - List.length (seg_rest s))%nat
        with 0%nat by (unfold k', k in Hle; simpl in Hle; lia).
      simpl. rewrite app_nil_r. reflexivity. }
    rewrite Hslice.
    rewrite segment_loop_passes.
    2:{ apply Forall_firstn. eapply Forall_impl; [|exact Hrest].
        intros v [_ Hv]. exact Hv. }
    unfold meta. rewrite <- app_assoc. rewrite app_assoc.
    replace k' with (List.length (pre ++ segment_tokens s))
      by (rewrite length_app; reflexivity).
    rewrite IH.
    + rewrite <- app_assoc. reflexivity.
    + exact Hall'.
    + rewrite !length_app in *. lia.
Qed.

End MetadataShapeFacts.

Module MetadataShapeProperties.

Import Parse Metadata MetadataShape PyFacts MetadataClaims MetadataFacts
       MetadataShapeFacts.
Import Fixtures.

(** X8. Plain metadata. When the metadata is made of tokens without a
    ['+'], then segments that each hold a start-marker token, a name token
    and class or colour tokens only, then the terminal marker ["column"]
    and tokens without a ['+'], [_extract_meters] returns the names of the
    segments, in the order of the metadata, each without its first and
    last character. *)
Theorem extract_meters_plain_segments
        (pre : list string) (segs : list segment) (post : list string) :
  segs <> [] ->
  Forall (fun v => str_in "+" v = false) pre ->
  Forall plain segs ->
  Forall (fun v => str_in "+" v = false) post ->
  _extract_meters
    (pre ++ List.concat (map segment_tokens segs) ++ COLUMN :: post)
  = OK (map (fun s => strip_quotes (seg_name s)) segs).
Proof.
  intros Hne Hpre Hall Hpost. unfold _extract_meters.
  rewrite !indices_where_app. rewrite (indices_where_none_all _ _ pre Hpre).
  rewrite indices_segments by exact Hall.
  rewrite (indices_where_none_all _ _ (COLUMN :: post))
    by (constructor; [reflexivity | exact Hpost]).
  rewrite app_nil_r. simpl app.
  destruct (starts (List.length pre) segs) as [|i0 t] eqn:Es.
  { destruct segs; [congruence | discriminate]. }
  rewrite <- Es. clear Es i0 t.
  destruct (index_where_le (String.eqb COLUMN) 0
              (pre ++ List.concat (map segment_tokens segs) ++ COLUMN :: post)
              (List.length pre
               + List.length (List.concat (map segment_tokens segs)))
              COLUMN) as (c & Hc & Hle).
  { rewrite nth_error_app2 by lia.
    replace (List.length pre
             + List.length (List.concat (map segment_tokens segs))
             - List.length pre)%nat
      with (List.length (List.concat (map segment_tokens segs))) by lia.
    rewrite nth_error_app2 by lia. rewrite Nat.sub_diag. reflexivity. }
  { apply String.eqb_refl. }
  rewrite Hc. simpl plus.
  rewrite segments_loop_plain; [reflexivity | exact Hall | lia].
Qed.

Lemma extract_meters_plain_witness :
  _extract_meters
    ([q "pre"; "not"]
     ++ List.concat (map segment_tokens
          [mksegment (q "xxxx+1") (q "metername1") [q "class.name"];
           mksegment "xxxx+2" (q "metername2")
                     [q "#FFEE32"; q "some.class.second"]])
     ++ COLUMN :: ["endhere"])
  = OK (map (fun s => strip_quotes (seg_name s))
          [mksegment (q "xxxx+1") (q "metername1") [q "class.name"];
           mksegment "xxxx+2" (q "metername2")
                     [q "#FFEE32"; q "some.class.second"]]).
Proof.
  apply extract_meters_plain_segments.
  - discriminate.
  - repeat constructor.
  - repeat constructor.
  - repeat constructor.
Defined.

End MetadataShapeProperties.

(** * Properties of the time codec *)

Module CodecProperties.

Import Base64 TimeUtils Codec CodecShape PyFacts CodecFacts CodecClaims.
Import Host Fixtures.

Lemma to_bytes8_length n bin :
  to_bytes8 n = OK bin -> List.length bin = 8%nat.
Proof.
  unfold to_bytes8. destruct (_ || _); [discriminate|].
  intros E.
  assert (E' : map (fun k => Z.land (Z.shiftr n (8 * k)) 255)
                   [7; 6; 5; 4; 3; 2; 1; 0] = bin) by congruence.
  rewrite <- E'. rewrite length_map. reflexivity.
Qed.

Lemma b64encode_length8 bin :
  List.length bin = 8%nat -> String.length (b64encode bin) = 12%nat.
Proof.
  intros Hl.
  destruct bin as [|b1 [|b2 [|b3 [|b4 [|b5 [|b6 [|b7 [|b8 [|]]]]]]]]];
    try discriminate.
  reflexivity.
Qed.

(** On a host at a fixed offset [datetime.timestamp] takes the offset
    off, once it has found the local time at the wall-clock time read as
    an instant, and the local time a day before. *)
Lemma int_timestamp_fixed `{LocalZone} (w : Z) :
  wall_in_range w = true ->
  int_timestamp (mkdatetime w)
  = if wall_in_range (w + utcoffset) && wall_in_range (w - 86400)
    then OK (w - utcoffset)
    else Raise ValueError.
Proof.
  intros Hw. unfold int_timestamp, local_to_seconds, local, max_fold_seconds.
  simpl. destruct (wall_in_range (w + utcoffset)); [|reflexivity].
  cbn [bind andb].
  replace (w - (w + utcoffset - w) + utcoffset) with w by lia.
  rewrite Hw. cbn [bind]. rewrite Z.eqb_refl.
  replace (w - (w + utcoffset - w) - 86400 + utcoffset) with (w - 86400)
    by lia.
  destruct (wall_in_range (w - 86400)); [|reflexivity].
  cbn [bind].
  replace (w - 86400 - (w - (w + utcoffset - w) - 86400)) with utcoffset
    by lia.
  replace (w + utcoffset - w) with utcoffset by lia.
  rewrite Z.eqb_refl. reflexivity.
Qed.

(** X9. Encoding and decoding back, on a host that keeps one offset from
    UTC. For a time [w] of the local clock within the years 1 to 9999
    (with [fold] 0), [encoded_from_timestamp] raises [ValueError] when [w]
    lies in the first day of the year 1 or [w] moved by the offset lies
    outside the years 1 to 9999; it raises [OverflowError] when [w] is
    otherwise a time before the epoch; and from the epoch on it returns a
    token of twelve characters, which [timestamp_from_encoded] decodes to
    the time. *)
Theorem encode_then_decode `{LocalZone} (w : Z) :
  wall_in_range w = true ->
  (wall_in_range (w + utcoffset) && wall_in_range (w - 86400) = false
   /\ encoded_from_timestamp (mkdatetime w) = Raise ValueError)
  \/ (wall_in_range (w + utcoffset) && wall_in_range (w - 86400) = true
      /\ w - utcoffset < 0
      /\ encoded_from_timestamp (mkdatetime w) = Raise OverflowError)
  \/ (wall_in_range (w + utcoffset) && wall_in_range (w - 86400) = true
      /\ 0 <= w - utcoffset
      /\ exists e, encoded_from_timestamp (mkdatetime w) = OK e
                   /\ String.length e = 12%nat
                   /\ timestamp_from_encoded e = OK (mkdatetime w)).
Proof.
  intros Hr. pose proof utcoffset_bound as Hz.
  unfold encoded_from_timestamp. rewrite (int_timestamp_fixed w Hr).
  destruct (wall_in_range (w + utcoffset) && wall_in_range (w - 86400));
    [|left; split; reflexivity].
  right. cbn [bind].
  destruct (Z_lt_ge_dec (w - utcoffset) 0) as [Hneg|Hpos].
  - left. split; [reflexivity|]. split; [exact Hneg|].
    unfold to_bytes8.
    destruct ((w - utcoffset) * 250 <? 0) eqn:E;
      [reflexivity | apply Z.ltb_ge in E; lia].
  - right. split; [reflexivity|]. split; [lia|].
    pose proof (proj1 (wall_in_range_iff _) Hr) as Hmax.
    unfold MAX_WALL in Hmax.
    destruct (to_bytes8_round_trip ((w - utcoffset) * 250))
      as (bin & Hbytes & Hround & Hint).
    { change (2 ^ 64) with 18446744073709551616. lia. }
    exists (b64encode bin). split; [|split].
    + rewrite Hbytes. reflexivity.
    + apply b64encode_length8. eapply to_bytes8_length; eauto.
    + unfold timestamp_from_encoded. rewrite Hround. simpl bind.
      rewrite Hint. rewrite Z.div_mul by lia.
      rewrite fromtimestamp_in_range.
      * do 2 f_equal. lia.
      * lia.
      * replace (w - utcoffset + utcoffset) with w by lia.
        exact Hr.
Qed.

Lemma encode_then_decode_witness :
  (wall_in_range (1474502400 + utcoffset (LocalZone := CDT))
   && wall_in_range (1474502400 - 86400) = false
   /\ encoded_from_timestamp (H := CDT) (mkdatetime 1474502400)
      = Raise ValueError)
  \/ (wall_in_range (1474502400 + utcoffset (LocalZone := CDT))
      && wall_in_range (1474502400 - 86400) = true
      /\ 1474502400 - utcoffset (LocalZone := CDT) < 0
      /\ encoded_from_timestamp (H := CDT) (mkdatetime 1474502400)
         = Raise OverflowError)
  \/ (wall_in_range (1474502400 + utcoffset (LocalZone := CDT))
      && wall_in_range (1474502400 - 86400) = true
      /\ 0 <= 1474502400 - utcoffset (LocalZone := CDT)
      /\ exists e, encoded_from_timestamp (H := CDT) (mkdatetime 1474502400)
                   = OK e
                   /\ String.length e = 12%nat
                   /\ timestamp_from_encoded (H := CDT) e
                      = OK (mkdatetime 1474502400)).
Proof.
  apply (encode_then_decode (H := CDT) 1474502400).
  reflexivity.
Defined.

(** The times [datetime.timestamp] refuses: the first day of the year 1
    on every host, and east of UTC the end of the year 9999. *)
Example first_day_is_not_encoded :
  encoded_from_timestamp (H := UTC) (mkdatetime MIN_WALL) = Raise ValueError
  /\ encoded_from_timestamp (H := UTC) (mkdatetime (MIN_WALL + 86399))
     = Raise ValueError
  /\ encoded_from_timestamp (H := UTC) (mkdatetime (MIN_WALL + 86400))
     = Raise OverflowError
  /\ encoded_from_timestamp (H := GMT_plus_1) (mkdatetime (MAX_WALL - 3599))
     = Raise ValueError.
Proof. repeat split. Qed.

(** The decoder on a character that is neither data nor the pad. *)
Lemma a2b_base64_skip c rest quad_pos leftchar pads bin :
  Ascii.eqb c BASE64_PAD = false ->
  table_a2b c = None ->
  a2b_base64 (String c rest) quad_pos leftchar pads bin
  = a2b_base64 rest quad_pos leftchar pads bin.
Proof. intros H1 H2. cbn [a2b_base64]. rewrite H1, H2. reflexivity. Qed.

Lemma a2b_base64_data_chars s :
  pad_free s = true ->
  forall suffix quad_pos leftchar pads bin,
    a2b_base64 (translate "$" "_" "+" "/" s ++ suffix)
               quad_pos leftchar pads bin
    = a2b_base64 (translate "$" "_" "+" "/" (data_chars s) ++ suffix)
                 quad_pos leftchar pads bin.
Proof.
  induction s as [|c t IH]; intros Hfree suffix quad_pos leftchar pads bin;
    [reflexivity|].
  cbn [pad_free] in Hfree. apply andb_prop in Hfree as [Hc Ht].
  apply negb_true_iff in Hc. rewrite <- translate1_pad in Hc.
  cbn [data_chars]. unfold is_data.
  destruct (table_a2b (translate1 "$" "_" "+" "/" c)) as [v|] eqn:Et.
  - cbn [translate append].
    rewrite !(a2b_base64_data _ _ _ _ _ _ _ Hc Et).
    destruct quad_pos as [|[|[|q]]]; apply IH; exact Ht.
  - cbn [translate append].
    rewrite (a2b_base64_skip _ _ _ _ _ _ Hc Et). apply IH. exact Ht.
Qed.

(** X10. What the decoder skips. A token without pad character decodes as
    the token made of its data characters alone does: every other
    character (a quotation mark, a blank) is without effect, whether the
    decoding succeeds or fails. *)
Theorem decoder_reads_the_data_characters `{LocalClock} (s : string) :
  pad_free s = true ->
  timestamp_from_encoded s = timestamp_from_encoded (data_chars s).
Proof.
  intros Hfree. unfold timestamp_from_encoded, b64decode.
  rewrite !translate_app.
  rewrite (a2b_base64_data_chars s Hfree). reflexivity.
Qed.

Lemma decoder_data_characters_witness :
  timestamp_from_encoded (H := UTC) (q "VdP MRgA")
  = timestamp_from_encoded (H := UTC) (data_chars (q "VdP MRgA")).
Proof.
  apply (decoder_reads_the_data_characters (H := UTC)). reflexivity.
Defined.

(** X11. Tokens without pad character, decided. Such a token is refused
    with [binascii.Error] when its data characters number one more than a
    multiple of four. Otherwise it decodes to bytes that spell a tick
    count [n >= 0]: [timestamp_from_encoded] returns the second
    [n // 250] on the local clock when that lies within the years 1 to
    9999, and fails with a codec error when it does not. *)
Theorem pad_free_token_decided `{LocalZone} (s : string) :
  pad_free s = true ->
  (Z.of_nat (data_count s) mod 4 = 1
   /\ timestamp_from_encoded s = Raise BinasciiError)
  \/ (Z.of_nat (data_count s) mod 4 <> 1
      /\ exists bin,
           b64decode (s ++ "==") = OK bin
           /\ 0 <= int_from_bytes bin
           /\ if wall_in_range (int_from_bytes bin / 250 + utcoffset)
              then timestamp_from_encoded s
                   = OK (mkdatetime (int_from_bytes bin / 250 + utcoffset))
              else exists e, timestamp_from_encoded s = Raise e
                             /\ CodecError e).
Proof.
  intros Hfree.
  pose proof (a2b_base64_pad_free s Hfree 0%nat 0 [] ltac:(lia)) as Hdec.
  rewrite Nat.add_0_l in Hdec.
  assert (Hmod : Z.of_nat (data_count s mod 4) = Z.of_nat (data_count s) mod 4)
    by (apply (Nat2Z.inj_mod (data_count s) 4)).
  unfold timestamp_from_encoded, b64decode. rewrite translate_app.
  change (translate "$" "_" "+" "/" "==") with "==".
  destruct ((data_count s mod 4 =? 1)%nat) eqn:E.
  - left. apply Nat.eqb_eq in E. rewrite E in Hmod. rewrite Hdec.
    split; [symmetry; exact Hmod | reflexivity].
  - right. apply Nat.eqb_neq in E. split; [lia|].
    destruct Hdec as (out & Hout). exists out. rewrite Hout.
    assert (Hnn : 0 <= int_from_bytes out).
    { apply int_from_bytes_nonneg.
      eapply a2b_base64_bytes; [|exact Hout]. constructor. }
    split; [reflexivity|]. split; [exact Hnn|]. simpl bind.
    destruct (wall_in_range (int_from_bytes out / 250 + utcoffset)) eqn:Er.
    + apply fromtimestamp_in_range; [|exact Er]. apply Z.div_pos; lia.
    + rewrite fromtimestamp_out_of_range;
        [|apply Z.div_pos; lia|exact Er].
      eexists. split; [reflexivity|].
      unfold CodecError, range_error.
      destruct (_ <=? _); [auto|]. destruct (_ <? _); auto.
Qed.

Lemma pad_free_token_witness :
  (Z.of_nat (data_count (q "VdPMRgA")) mod 4 = 1
   /\ timestamp_from_encoded (H := UTC) (q "VdPMRgA") = Raise BinasciiError)
  \/ (Z.of_nat (data_count (q "VdPMRgA")) mod 4 <> 1
      /\ exists bin,
           b64decode (q "VdPMRgA" ++ "==") = OK bin
           /\ 0 <= int_from_bytes bin
           /\ if wall_in_range (int_from_bytes bin / 250
                                + utcoffset (LocalZone := UTC))
              then timestamp_from_encoded (H := UTC) (q "VdPMRgA")
                   = OK (mkdatetime (int_from_bytes bin / 250
                                     + utcoffset (LocalZone := UTC)))
              else exists e, timestamp_from_encoded (H := UTC) (q "VdPMRgA")
                             = Raise e
                             /\ CodecError e).
Proof.
  apply (pad_free_token_decided (H := UTC) (q "VdPMRgA")). reflexivity.
Defined.

End CodecProperties.

(** * Properties of the factory and of the service                        *)

Module ServiceFacts.

Import TimeUtils Parse ReadingSvc ReadingSvcMethods Pairing PyFacts
       ReadingSvcClaims.

Section Dict.
Context `{LocalClock} `{FloatModel}.

Lemma dict_get_set_same (d : dict) k v : dict_get (dict_set d k v) k = Some v.
Proof.
  induction d as [|[k' w] d IH]; simpl.
  - rewrite String.eqb_refl. reflexivity.
  - destruct (String.eqb k' k) eqn:E; simpl; rewrite E; [reflexivity | exact IH].
Qed.

Lemma dict_get_set_other (d : dict) k k' v :
  k <> k' -> dict_get (dict_set d k v) k' = dict_get d k'.
Proof.
  intros Hne. induction d as [|[k0 w] d IH]; simpl.
  - apply String.eqb_neq in Hne. rewrite Hne. reflexivity.
  - destruct (String.eqb k0 k) eqn:E; simpl.
    + apply String.eqb_eq in E. subst k0.
      apply String.eqb_neq in Hne. rewrite Hne. reflexivity.
    + destruct (String.eqb k0 k'); [reflexivity | exact IH].
Qed.

Lemma dict_set_keys_present (d : dict) k v w :
  dict_get d k = Some w -> map fst (dict_set d k v) = map fst d.
Proof.
  induction d as [|[k0 w0] d IH]; simpl; [discriminate|].
  destruct (String.eqb k0 k); simpl; [reflexivity|].
  intros Hg. rewrite IH by exact Hg. reflexivity.
Qed.

Lemma dict_set_keys_absent (d : dict) k v :
  dict_get d k = None -> map fst (dict_set d k v) = map fst d ++ [k].
Proof.
  induction d as [|[k0 w0] d IH]; simpl; [reflexivity|].
  destruct (String.eqb k0 k); simpl; [discriminate|].
  intros Hg. rewrite IH by exact Hg. reflexivity.
Qed.

Lemma dict_get_keys (d : dict) k :
  dict_get d k = None <-> ~ In k (map fst d).
Proof.
  induction d as [|[k0 w0] d IH]; simpl; [tauto|].
  destruct (String.eqb k0 k) eqn:E.
  - apply String.eqb_eq in E. subst. split; [discriminate | tauto].
  - apply String.eqb_neq in E. rewrite IH. tauto.
Qed.

(** A name that is given no list keeps what it had. *)
Lemma assign_keeps (lists : list (list MeterReading)) :
  forall popped d left d' n,
    assign popped lists d = OK (left, d') ->
    ~ In n (firstn (List.length lists) popped) ->
    dict_get d' n = dict_get d n.
Proof.
  induction lists as [|l lists IH]; intros popped d left d' n.
  - intros E _. destruct popped; simpl in E; inversion E; subst; reflexivity.
  - destruct popped as [|name popped]; [discriminate|]. simpl.
    intros E Hn. rewrite (IH _ _ _ _ _ E) by tauto.
    apply dict_get_set_other. intros ->. tauto.
Qed.

(** With distinct names, the list at position [i] is stored under the
    name at position [i]. *)
Lemma assign_lookup (lists : list (list MeterReading)) :
  forall popped d left d' i n l,
    assign popped lists d = OK (left, d') ->
    NoDup popped ->
    nth_error popped i = Some n ->
    nth_error lists i = Some l ->
    dict_get d' n = Some l.
Proof.
  induction lists as [|l0 lists IH]; intros popped d left d' i n l.
  - intros _ _ _ Hl. destruct i; discriminate.
  - destruct popped as [|name popped]; [discriminate|]. simpl.
    intros E Hnd Hn Hl. inversion Hnd as [|? ? Hnotin Hnd']; subst.
    destruct i as [|i]; simpl in Hn, Hl.
    + inversion Hn; inversion Hl; subst.
      rewrite (assign_keeps _ _ _ _ _ n E).
      * apply dict_get_set_same.
      * intros Hin. apply Hnotin. eapply MetadataFacts.In_firstn; eauto.
    + eapply IH; eauto.
Qed.

(** The keys after the pairing: those before it, then the names taken. *)
Lemma assign_keys (lists : list (list MeterReading)) :
  forall popped d left d',
    assign popped lists d = OK (left, d') ->
    NoDup (map fst d ++ popped) ->
    map fst d' = map fst d ++ firstn (List.length lists) popped.
Proof.
  induction lists as [|l0 lists IH]; intros popped d left d'.
  - intros E _. simpl firstn. rewrite app_nil_r.
    destruct popped; simpl in E; inversion E; subst; reflexivity.
  - destruct popped as [|name popped]; [discriminate|]. simpl.
    intros E Hnd.
    assert (Habs : dict_get d name = None).
    { apply dict_get_keys. intros Hin.
      apply NoDup_remove_2 in Hnd. apply Hnd. apply in_or_app. auto. }
    rewrite (IH _ _ _ _ E).
    + rewrite dict_set_keys_absent by exact Habs.
      rewrite <- app_assoc. reflexivity.
    + rewrite dict_set_keys_absent by exact Habs.
      rewrite <- app_assoc. exact Hnd.
Qed.

Lemma In_firstn_nth {A} (x : A) (l : list A) :
  forall k, In x (firstn k l) ->
            exists j, (j < k)%nat /\ nth_error l j = Some x.
Proof.
  induction l as [|a l IH]; intros k Hin.
  - rewrite firstn_nil in Hin. destruct Hin.
  - destruct k as [|k]; [destruct Hin|]. simpl in Hin.
    destruct Hin as [->|Hin].
    + exists 0%nat. split; [lia | reflexivity].
    + destruct (IH k Hin) as (j & Hj & Hn).
      exists (S j). split; [lia | exact Hn].
Qed.

(** The list at position [i] is found under the name at position [i],
    unless a later list was given the same name. *)
Lemma assign_last (lists : list (list MeterReading)) :
  forall popped d left d' i n l,
    assign popped lists d = OK (left, d') ->
    nth_error popped i = Some n ->
    nth_error lists i = Some l ->
    (forall j, (i < j < List.length lists)%nat ->
               nth_error popped j <> Some n) ->
    dict_get d' n = Some l.
Proof.
  induction lists as [|l0 lists IH]; intros popped d left d' i n l.
  - intros _ _ Hl. destruct i; discriminate.
  - destruct popped as [|name popped]; [discriminate|]. simpl.
    intros E Hn Hl Hlast.
    destruct i as [|i]; simpl in Hn, Hl.
    + inversion Hn; inversion Hl; subst.
      rewrite (assign_keeps _ _ _ _ _ n E).
      * apply dict_get_set_same.
      * intros Hin. apply In_firstn_nth in Hin as (j & Hj & Hnth).
        apply (Hlast (S j)); [lia | exact Hnth].
    + eapply IH; eauto.
      intros j Hj. apply (Hlast (S j)). lia.
Qed.

Lemma dict_set_key_set (d : dict) k v k' :
  In k' (map fst (dict_set d k v)) <-> k' = k \/ In k' (map fst d).
Proof.
  induction d as [|[k0 w0] d IH]; simpl.
  - intuition congruence.
  - destruct (String.eqb k0 k) eqn:E; simpl.
    + apply String.eqb_eq in E. subst. intuition congruence.
    + rewrite IH. intuition congruence.
Qed.

(** The keys after the pairing are those before it and the names taken. *)
Lemma assign_key_set (lists : list (list MeterReading)) :
  forall popped d left d' n,
    assign popped lists d = OK (left, d') ->
    In n (map fst d')
    <-> In n (map fst d) \/ In n (firstn (List.length lists) popped).
Proof.
  induction lists as [|l0 lists IH]; intros popped d left d' n.
  - intros E. simpl firstn.
    destruct popped; simpl in E; inversion E; subst; simpl; tauto.
  - destruct popped as [|name popped]; [discriminate|]. simpl.
    intros E. rewrite (IH _ _ _ _ n E). rewrite dict_set_key_set.
    intuition congruence.
Qed.

End Dict.

End ServiceFacts.

(** * Names and lists that do not match in number *)

Module PairingClaims.

Import TimeUtils Parse ReadingSvc ReadingSvcMethods Pairing PyFacts
       ReadingSvcClaims ServiceFacts.
Import Host Fixtures.

(** C8 (amended). When the decoded meter names outnumber the per-meter
    lists the generator yields, [readings_from_reading_service] returns:
    it logs the mismatch warning and a second warning that lists the names
    left over (the first of the decoded order), after whatever the combined
    decoder logged. The service it returns holds the combined list; its
    meter names are the names popped; and the list yielded at position [i]
    is found under the name popped at position [i], unless a later list
    was given the same name. *)
Theorem names_left_over_are_logged `{LocalClock} `{FloatModel}
        (g : Globals) (data : string) (names csvd : list string)
        (log : list log_record) (combined_readings : list MeterReading)
        (idx : Z) (lists : list (list MeterReading)) :
  _transform_data_to_list data = OK (names, csvd) ->
  _read_combined csvd = OK (log, combined_readings) ->
  generator_start csvd = OK idx ->
  generator_all (generator_fuel csvd) g csvd combined_readings idx = OK lists ->
  (List.length lists < List.length names)%nat ->
  exists left_over self,
    left_over = firstn (List.length names - List.length lists) names
    /\ (0 < List.length left_over)%nat
    /\ readings_from_reading_service g data
       = OK (log ++ [Warning MISMATCH; WarningRemaining left_over], self)
    /\ get_combined self = combined_readings
    /\ (forall name,
          In name (meter_names self)
          <-> In name (firstn (List.length lists) (rev names)))
    /\ (forall i l name,
          nth_error lists i = Some l ->
          nth_error (rev names) i = Some name ->
          (forall j, (i < j < List.length lists)%nat ->
                     nth_error (rev names) j <> Some name) ->
          __getitem__ self name = Some l).
Proof.
  intros Htr Hcomb Hstart Hall Hlen.
  destruct (assign_enough_names lists (rev names) [])
    as [d Hassign]; [rewrite length_rev; lia|].
  pose proof Hassign as Hleft.
  rewrite skipn_rev, rev_involutive in Hleft.
  exists (firstn (List.length names - List.length lists) names),
         (mkReadingService combined_readings d).
  split; [reflexivity|]. split; [rewrite length_firstn; lia|].
  split; [|split; [reflexivity|split]].
  - unfold readings_from_reading_service.
    rewrite Htr. cbn [bind]. rewrite Hcomb. cbn [bind].
    rewrite Hstart. cbn [bind].
    rewrite (comprehension_names _ _ _ _ _ _ _ _ Hall), Hleft. cbn [bind].
    destruct (firstn _ names) as [|n0 rest] eqn:E; [|reflexivity].
    apply (f_equal (@List.length string)) in E.
    rewrite length_firstn in E. simpl in E. lia.
  - intros name. unfold meter_names. simpl meter.
    rewrite (assign_key_set _ _ _ _ _ name Hassign). simpl. tauto.
  - intros i l name Hl Hname Hlast.
    unfold __getitem__. simpl meter.
    eapply assign_last; eauto.
Qed.

Lemma names_left_over_witness :
  exists left_over self,
    left_over = firstn (List.length ["meter3"; "meter2"; "meter1"]
                        - List.length
                            [[reading 1474502400 (75, 2%nat)];
                             [reading 1474502400 (5, 1%nat)]])
                       ["meter3"; "meter2"; "meter1"]
    /\ (0 < List.length left_over)%nat
    /\ readings_from_reading_service (H := UTC) (H0 := Decimal)
         after_imports (response three_meters)
       = OK ([] ++ [Warning MISMATCH; WarningRemaining left_over], self)
    /\ get_combined self = [reading 1474502400 (25, 2%nat)]
    /\ (forall name,
          In name (meter_names self)
          <-> In name (firstn (List.length
                                 [[reading 1474502400 (75, 2%nat)];
                                  [reading 1474502400 (5, 1%nat)]])
                              (rev ["meter3"; "meter2"; "meter1"])))
    /\ (forall i l name,
          nth_error [[reading 1474502400 (75, 2%nat)];
                     [reading 1474502400 (5, 1%nat)]] i = Some l ->
          nth_error (rev ["meter3"; "meter2"; "meter1"]) i = Some name ->
          (forall j, (i < j < List.length
                                [[reading 1474502400%Z (75%Z, 2)];
                                 [reading 1474502400%Z (5%Z, 1)]])%nat ->
                     nth_error (rev ["meter3"; "meter2"; "meter1"]) j
                     <> Some name) ->
          __getitem__ self name = Some l).
Proof.
  exact (names_left_over_are_logged (H := UTC) (H0 := Decimal)
           after_imports (response three_meters)
           ["meter3"; "meter2"; "meter1"] response_tokens []
           [reading 1474502400 (25, 2%nat)] 22
           [[reading 1474502400 (75, 2%nat)]; [reading 1474502400 (5, 1%nat)]]
           response_three_transformed response_combined
           response_generator_start response_lists
           (Nat.lt_succ_diag_r 2)).
Defined.

(** A name given to two lists keeps the second: of the three names below
    the last two are equal, and the list yielded first is not in the
    result. *)
Example repeated_name_keeps_the_later_list :
  readings_from_reading_service (H := UTC) (H0 := Decimal)
    after_imports (response repeated_names)
  = OK ([Warning MISMATCH; WarningRemaining ["w"]],
        mkReadingService [reading 1474502400 (25, 2%nat)]
          [("m", [reading 1474502400 (5, 1%nat)])]).
Proof. reflexivity. Qed.

End PairingClaims.

Module FactoryProperties.

Import TimeUtils Parse ReadingSvc ReadingSvcMethods Pairing PyFacts
       ReadingSvcClaims ServiceFacts.
Import Host Fixtures ServiceFixtures.

(** X12. As many names as lists. When the decoded meter names and the
    lists the generator yields are equal in number,
    [readings_from_reading_service] logs nothing beyond what the combined
    decoder logged, and no name is left over. *)
Theorem every_name_taken_no_warning `{LocalClock} `{FloatModel}
        (g : Globals) (data : string) (meter_names csvd : list string)
        (log : list log_record) (combined_readings : list MeterReading)
        (idx : Z) (lists : list (list MeterReading)) :
  _transform_data_to_list data = OK (meter_names, csvd) ->
  _read_combined csvd = OK (log, combined_readings) ->
  generator_start csvd = OK idx ->
  generator_all (generator_fuel csvd) g csvd combined_readings idx = OK lists ->
  List.length lists = List.length meter_names ->
  exists d,
    assign (rev meter_names) lists [] = OK ([], d)
    /\ readings_from_reading_service g data
       = OK (log, mkReadingService combined_readings d).
Proof.
  intros Htr Hcomb Hstart Hall Hlen.
  destruct (assign_enough_names lists (rev meter_names) [])
    as [d Hassign]; [rewrite length_rev; lia|].
  rewrite skipn_all2 in Hassign by (rewrite length_rev; lia).
  exists d. split; [exact Hassign|].
  unfold readings_from_reading_service.
  rewrite Htr. cbn [bind]. rewrite Hcomb. cbn [bind].
  rewrite Hstart. cbn [bind].
  rewrite (comprehension_names _ _ _ _ _ _ _ _ Hall), Hassign.
  reflexivity.
Qed.

Example response_two_transformed :
  _transform_data_to_list (response two_meters)
  = OK (["meter2"; "meter1"], response_tokens).
Proof. vm_compute. reflexivity. Qed.

Lemma every_name_taken_witness :
  exists d,
    assign (H0 := Decimal) (rev ["meter2"; "meter1"])
      [[reading 1474502400 (75, 2%nat)]; [reading 1474502400 (5, 1%nat)]] []
    = OK ([], d)
    /\ readings_from_reading_service (H := UTC) (H0 := Decimal)
         after_imports (response two_meters)
       = OK ([], mkReadingService [reading 1474502400 (25, 2%nat)] d).
Proof.
  exact (every_name_taken_no_warning (H := UTC) (H0 := Decimal)
           after_imports (response two_meters)
           ["meter2"; "meter1"] response_tokens []
           [reading 1474502400 (25, 2%nat)] 22
           [[reading 1474502400 (75, 2%nat)]; [reading 1474502400 (5, 1%nat)]]
           response_two_transformed response_combined
           response_generator_start response_lists eq_refl).
Defined.

(** X13. More lists than names. When the generator yields more lists than
    there are decoded meter names, [readings_from_reading_service] ends in
    the [IndexError] of [pop] on the empty list of names. *)
Theorem more_lists_than_names_index_error `{LocalClock} `{FloatModel}
        (g : Globals) (data : string) (meter_names csvd : list string)
        (log : list log_record) (combined_readings : list MeterReading)
        (idx : Z) (lists : list (list MeterReading)) :
  _transform_data_to_list data = OK (meter_names, csvd) ->
  _read_combined csvd = OK (log, combined_readings) ->
  generator_start csvd = OK idx ->
  generator_all (generator_fuel csvd) g csvd combined_readings idx = OK lists ->
  (List.length meter_names < List.length lists)%nat ->
  readings_from_reading_service g data = Raise IndexError.
Proof.
  intros Htr Hcomb Hstart Hall Hlen.
  unfold readings_from_reading_service.
  rewrite Htr. cbn [bind]. rewrite Hcomb. cbn [bind].
  rewrite Hstart. cbn [bind].
  rewrite (comprehension_names _ _ _ _ _ _ _ _ Hall).
  rewrite assign_too_few_names by (rewrite length_rev; lia).
  reflexivity.
Qed.

Example response_one_transformed :
  _transform_data_to_list (response one_meter)
  = OK (["meter1"], response_tokens).
Proof. vm_compute. reflexivity. Qed.

Lemma more_lists_than_names_witness :
  readings_from_reading_service (H := UTC) (H0 := Decimal)
    after_imports (response one_meter)
  = Raise IndexError.
Proof.
  exact (more_lists_than_names_index_error (H := UTC) (H0 := Decimal)
           after_imports (response one_meter)
           ["meter1"] response_tokens []
           [reading 1474502400 (25, 2%nat)] 22
           [[reading 1474502400 (75, 2%nat)]; [reading 1474502400 (5, 1%nat)]]
           response_one_transformed response_combined
           response_generator_start response_lists
           (Nat.lt_succ_diag_r 1)).
Defined.

(** X14. Where the lists go. When the decoded meter names are distinct and
    no fewer than the lists the generator yields,
    [readings_from_reading_service] returns a service that holds the
    combined list, whose meter names are the names taken, in the order
    they were taken, and in which the list yielded at position [i] is
    found under the name at position [i] from the end of the decoded
    names. *)
Theorem lists_are_stored_under_their_names `{LocalClock} `{FloatModel}
        (g : Globals) (data : string) (names csvd : list string)
        (log : list log_record) (combined_readings : list MeterReading)
        (idx : Z) (lists : list (list MeterReading)) :
  _transform_data_to_list data = OK (names, csvd) ->
  _read_combined csvd = OK (log, combined_readings) ->
  generator_start csvd = OK idx ->
  generator_all (generator_fuel csvd) g csvd combined_readings idx = OK lists ->
  (List.length lists <= List.length names)%nat ->
  NoDup names ->
  exists log' self,
    readings_from_reading_service g data = OK (log', self)
    /\ get_combined self = combined_readings
    /\ meter_names self = firstn (List.length lists) (rev names)
    /\ forall i l,
         nth_error lists i = Some l ->
         exists name,
           nth_error (rev names) i = Some name
           /\ __getitem__ self name = Some l.
Proof.
  intros Htr Hcomb Hstart Hall Hlen Hnd.
  destruct (assign_enough_names lists (rev names) [])
    as [d Hassign]; [rewrite length_rev; lia|].
  assert (Hnd' : NoDup (rev names)) by (apply NoDup_rev; exact Hnd).
  unfold readings_from_reading_service.
  rewrite Htr. cbn [bind]. rewrite Hcomb. cbn [bind].
  rewrite Hstart. cbn [bind].
  rewrite (comprehension_names _ _ _ _ _ _ _ _ Hall), Hassign. cbn [bind].
  eexists. eexists. split; [reflexivity|].
  split; [reflexivity|]. split.
  - unfold meter_names. simpl meter.
    rewrite (assign_keys _ _ _ _ _ Hassign); [reflexivity | exact Hnd'].
  - intros i l Hl.
    destruct (nth_error (rev names) i) as [name|] eqn:En.
    + exists name. split; [reflexivity|].
      unfold __getitem__. simpl meter.
      eapply assign_lookup; eauto.
    + apply nth_error_None in En. rewrite length_rev in En.
      assert (i < List.length lists)%nat by (apply nth_error_Some; congruence).
      lia.
Qed.

Lemma lists_stored_witness :
  exists log' self,
    readings_from_reading_service (H := UTC) (H0 := Decimal)
      after_imports (response three_meters) = OK (log', self)
    /\ get_combined self = [reading 1474502400 (25, 2%nat)]
    /\ meter_names self
       = firstn (List.length
                   [[reading 1474502400 (75, 2%nat)];
                    [reading 1474502400 (5, 1%nat)]])
                (rev ["meter3"; "meter2"; "meter1"])
    /\ forall i l,
         nth_error [[reading 1474502400 (75, 2%nat)];
                    [reading 1474502400 (5, 1%nat)]] i = Some l ->
         exists name,
           nth_error (rev ["meter3"; "meter2"; "meter1"]) i = Some name
           /\ __getitem__ self name = Some l.
Proof.
  apply (lists_are_stored_under_their_names (H := UTC) (H0 := Decimal)
           after_imports (response three_meters)
           ["meter3"; "meter2"; "meter1"] response_tokens []
           [reading 1474502400 (25, 2%nat)] 22
           [[reading 1474502400 (75, 2%nat)]; [reading 1474502400 (5, 1%nat)]]
           response_three_transformed response_combined
           response_generator_start response_lists).
  - simpl. lia.
  - repeat constructor; simpl; intuition discriminate.
Defined.

End FactoryProperties.

Module SubtractiveFacts.

Import TimeUtils Parse ReadingSvc ReadingSvcMethods Subtractive PyFacts
       ServiceFacts.

Section Loop.
Context `{LocalClock} `{FloatModel} `{!FloatArith}.

Lemma subtract_loop_timestamps same todo :
  forall done subtractive idx,
    map timestamp (subtract_loop same done todo subtractive idx)
    = map timestamp (done ++ todo).
Proof.
  induction todo as [|reading rest IH]; intros done subtractive idx.
  - simpl. rewrite app_nil_r. reflexivity.
  - cbn [subtract_loop].
    destruct (_ =? _)%nat; [reflexivity|].
    destruct (nth_error _ _) as [s|]; [|reflexivity].
    destruct (_ =? _); rewrite IH; rewrite <- app_assoc;
      rewrite !map_app; reflexivity.
Qed.

Lemma find_all_false {A} (f : A -> bool) l :
  Forall (fun x => f x = false) l -> find f l = None.
Proof.
  induction 1 as [|x l Hx _ IH]; simpl; [reflexivity|].
  rewrite Hx. exact IH.
Qed.

Lemma find_app {A} (f : A -> bool) l1 l2 :
  find f (l1 ++ l2)
  = match find f l1 with Some y => Some y | None => find f l2 end.
Proof.
  induction l1 as [|x l1 IH]; simpl; [reflexivity|].
  destruct (f x); [reflexivity | exact IH].
Qed.

Lemma map_unchanged {A} (f : A -> A) l :
  (forall x, In x l -> f x = x) -> map f l = l.
Proof.
  induction l as [|x l IH]; intros Hf; simpl; [reflexivity|].
  rewrite Hf by (left; reflexivity). rewrite IH; [reflexivity|].
  intros y Hy. apply Hf. right. exact Hy.
Qed.

(** The inner [while] on a list sorted by time: it passes the readings
    older than [ts] and stops before the first that is not. *)
Lemma advance_from_spec suf ts k :
  oldest_first suf ->
  exists a b,
    suf = a ++ b
    /\ advance_from suf ts k = (k + List.length a)%nat
    /\ Forall (fun x => wall (timestamp x) < wall ts) a
    /\ oldest_first b
    /\ match b with
       | [] => True
       | x :: _ => wall ts <= wall (timestamp x)
       end.
Proof.
  revert k. induction suf as [|s suf IH]; intros k Hs.
  - exists [], []. simpl. repeat split; try constructor. lia.
  - destruct Hs as [Hall Hs]. cbn [advance_from].
    destruct (wall (timestamp s) <? wall ts) eqn:E.
    + apply Z.ltb_lt in E.
      destruct (IH (S k) Hs) as (a & b & -> & Hadv & Ha & Hb & Hhd).
      exists (s :: a), b. split; [reflexivity|]. split; [simpl; lia|].
      split; [constructor; assumption|]. split; assumption.
    + apply Z.ltb_ge in E. exists [], (s :: suf).
      split; [reflexivity|]. split; [simpl; lia|].
      split; [constructor|]. split; [split; assumption | exact E].
Qed.

(** The loop on two lists sorted by time, the second one apart from the
    first: every reading is adjusted by the reading of its time. *)
Lemma subtract_loop_sorted todo :
  forall done pre suf,
    oldest_first todo ->
    oldest_first suf ->
    Forall (fun x => Forall (fun r => wall (timestamp x) < wall (timestamp r))
                            todo) pre ->
    subtract_loop false done todo (pre ++ suf) (List.length pre)
    = done ++ map (adjusted (pre ++ suf)) todo.
Proof.
  induction todo as [|r rest IH]; intros done pre suf Htodo Hsuf Hpre.
  - simpl. rewrite app_nil_r. reflexivity.
  - destruct Htodo as [Hr Hrest].
    cbn [subtract_loop]. cbv beta iota zeta. unfold advance.
    rewrite skipn_app, skipn_all, Nat.sub_diag. simpl skipn.
    change ([] ++ suf) with suf.
    destruct (advance_from_spec suf (timestamp r) (List.length pre) Hsuf)
      as (a & b & -> & Hadv & Ha & Hb & Hhd).
    rewrite Hadv.
    assert (Hpa : Forall (fun x => Forall
                    (fun r' => wall (timestamp x) < wall (timestamp r')) rest)
                    (pre ++ a)).
    { apply Forall_app. split.
      - eapply Forall_impl; [|exact Hpre]. intros x Hx.
        inversion Hx; assumption.
      - eapply Forall_impl; [|exact Ha]. intros x Hx. simpl in Hx.
        eapply Forall_impl; [|exact Hr]. intros r' Hr'. simpl in Hr'. lia. }
    assert (Hnone : find (same_time r) (pre ++ a) = None).
    { apply find_all_false. apply Forall_app. split.
      - eapply Forall_impl; [|exact Hpre]. intros x Hx.
        inversion Hx; subst. unfold same_time. apply Z.eqb_neq. lia.
      - eapply Forall_impl; [|exact Ha]. intros x Hx. simpl in Hx.
        unfold same_time. apply Z.eqb_neq. lia. }
    destruct b as [|x b'].
    + rewrite app_nil_r in *.
      replace (List.length pre + List.length a)%nat
        with (List.length (pre ++ a)) by (rewrite length_app; reflexivity).
      rewrite Nat.eqb_refl. f_equal. cbn [map]. f_equal.
      * unfold adjusted. rewrite Hnone. reflexivity.
      * symmetry. apply map_unchanged.
        intros r' Hin. unfold adjusted.
        rewrite find_all_false; [reflexivity|].
        rewrite Forall_forall in Hpa. apply Forall_forall. intros y Hy.
        specialize (Hpa y Hy). rewrite Forall_forall in Hpa.
        specialize (Hpa r' Hin). unfold same_time. apply Z.eqb_neq. lia.
    + assert (Hlen : (List.length pre + List.length a
                      =? List.length (pre ++ a ++ x :: b'))%nat = false).
      { apply Nat.eqb_neq. rewrite !length_app. simpl. lia. }
      rewrite Hlen.
      assert (Hnth : nth_error (pre ++ a ++ x :: b')
                               (List.length pre + List.length a) = Some x).
      { rewrite app_assoc.
        replace (List.length pre + List.length a)%nat
          with (List.length (pre ++ a)) by (rewrite length_app; reflexivity).
        rewrite nth_error_app2 by lia. rewrite Nat.sub_diag. reflexivity. }
      rewrite Hnth.
      replace (List.length pre + List.length a)%nat
        with (List.length (pre ++ a)) by (rewrite length_app; reflexivity).
      replace (pre ++ a ++ x :: b') with ((pre ++ a) ++ x :: b')
        by (rewrite <- app_assoc; reflexivity).
      destruct (wall (timestamp x) =? wall (timestamp r)) eqn:Ex.
      * rewrite (IH _ (pre ++ a) (x :: b') Hrest Hb Hpa).
        rewrite <- app_assoc. f_equal. cbn [map app]. f_equal.
        unfold adjusted. rewrite find_app, Hnone. simpl.
        unfold same_time at 1. rewrite Ex. reflexivity.
      * rewrite (IH _ (pre ++ a) (x :: b') Hrest Hb Hpa).
        rewrite <- app_assoc. f_equal. cbn [map app]. f_equal.
        unfold adjusted. rewrite find_app, Hnone. simpl.
        unfold same_time at 1. rewrite Ex.
        rewrite find_all_false; [reflexivity|].
        destruct Hb as [Hxb _].
        eapply Forall_impl; [|exact Hxb]. intros y Hy. simpl in Hy.
        apply Z.eqb_neq in Ex. unfold same_time. apply Z.eqb_neq. lia.
Qed.

(** Readings older than the reading the loop stopped on are passed
    unchanged. *)
Lemma subtract_loop_older todo :
  forall done s0 srest,
    Forall (fun r => wall (timestamp r) < wall (timestamp s0)) todo ->
    subtract_loop false done todo (s0 :: srest) 0 = done ++ todo.
Proof.
  induction todo as [|r rest IH]; intros done s0 srest Hall.
  - simpl. rewrite app_nil_r. reflexivity.
  - inversion Hall as [|? ? Hr Hrest]; subst.
    cbn [subtract_loop]. cbv beta iota zeta. unfold advance.
    simpl skipn. cbn [advance_from].
    destruct (wall (timestamp s0) <? wall (timestamp r)) eqn:E;
      [apply Z.ltb_lt in E; lia|].
    cbn [Nat.eqb List.length nth_error]. cbv beta iota.
    destruct (wall (timestamp s0) =? wall (timestamp r)) eqn:E';
      [apply Z.eqb_eq in E'; lia|].
    rewrite IH by exact Hrest. rewrite <- app_assoc. reflexivity.
Qed.

Lemma advance_from_all rest ts k :
  Forall (fun x => wall (timestamp x) < wall ts) rest ->
  advance_from rest ts k = (k + List.length rest)%nat.
Proof.
  intros Hall. revert k. induction Hall as [|x rest Hx _ IH]; intros k; simpl.
  - lia.
  - apply Z.ltb_lt in Hx. rewrite Hx. rewrite IH. lia.
Qed.

Lemma advance_from_app a b ts k :
  Forall (fun x => wall (timestamp x) < wall ts) a ->
  advance_from (a ++ b) ts k = advance_from b ts (k + List.length a).
Proof.
  intros Hall. revert k. induction Hall as [|x a Hx _ IH]; intros k; simpl.
  - rewrite Nat.add_0_r. reflexivity.
  - apply Z.ltb_lt in Hx. rewrite Hx. rewrite IH. f_equal. lia.
Qed.

(** The loop when the subtractive list is the primary list itself: each
    reading meets itself. *)
Lemma subtract_loop_same todo :
  forall done subtractive idx,
    strictly_oldest_first todo ->
    (idx <= List.length done)%nat ->
    Forall (fun x => Forall (fun r => wall (timestamp x) < wall (timestamp r))
                            todo) (skipn idx done) ->
    subtract_loop true done todo subtractive idx
    = done ++ map (fun r => subtract r r) todo.
Proof.
  induction todo as [|r rest IH]; intros done subtractive idx Hs Hidx Hskip.
  - simpl. rewrite app_nil_r. reflexivity.
  - destruct Hs as [Hr Hrest].
    cbn [subtract_loop]. cbv beta iota zeta. unfold advance.
    rewrite skipn_app.
    replace (idx - List.length done)%nat with 0%nat by lia. simpl skipn.
    rewrite advance_from_app.
    2:{ eapply Forall_impl; [|exact Hskip]. intros x Hx. simpl in Hx.
        inversion Hx; assumption. }
    cbn [advance_from]. rewrite Z.ltb_irrefl.
    rewrite length_skipn.
    replace (idx + (List.length done - idx))%nat with (List.length done)
      by lia.
    assert (Hlen : (List.length done =? List.length (done ++ r :: rest))%nat
                   = false).
    { apply Nat.eqb_neq. rewrite length_app. simpl. lia. }
    rewrite Hlen.
    rewrite nth_error_app2 by lia. rewrite Nat.sub_diag. simpl nth_error.
    cbv beta iota. rewrite Z.eqb_refl.
    rewrite IH.
    + rewrite <- app_assoc. reflexivity.
    + exact Hrest.
    + rewrite length_app. simpl. lia.
    + rewrite skipn_app, skipn_all, Nat.sub_diag. simpl.
      constructor; [exact Hr | constructor].
Qed.

End Loop.

End SubtractiveFacts.

Module SubtractiveProperties.

Import TimeUtils Parse ReadingSvc ReadingSvcMethods Subtractive PyFacts
       ServiceFacts SubtractiveFacts.
Import Host Fixtures ServiceFixtures.

(** X15. What [apply_subtractive_meter] leaves alone: the combined list,
    the meter names, the list of every meter but the primary one, and the
    timestamps of every list; and when one of the two names is not a meter
    of the service, everything. *)
Theorem subtractive_meter_frame `{LocalClock} `{FloatModel} `{!FloatArith}
        (self : ReadingService) (primary_meter subtractive_meter : string) :
  get_combined (apply_subtractive_meter self primary_meter subtractive_meter)
  = get_combined self
  /\ meter_names (apply_subtractive_meter self primary_meter subtractive_meter)
     = meter_names self
  /\ (forall name,
        name <> primary_meter ->
        __getitem__ (apply_subtractive_meter self primary_meter
                       subtractive_meter) name
        = __getitem__ self name)
  /\ (forall name,
        get_tslist (apply_subtractive_meter self primary_meter
                      subtractive_meter) name
        = get_tslist self name)
  /\ (__getitem__ self primary_meter = None
      \/ __getitem__ self subtractive_meter = None ->
      apply_subtractive_meter self primary_meter subtractive_meter = self).
Proof.
  unfold apply_subtractive_meter, get_combined, meter_names, __getitem__,
    get_tslist.
  destruct (dict_get (meter self) primary_meter) as [primary|] eqn:Ep;
    [|repeat split; auto].
  destruct (dict_get (meter self) subtractive_meter) as [subtractive|] eqn:Es;
    [|repeat split; auto].
  simpl. repeat split.
  - eapply dict_set_keys_present; eauto.
  - intros name Hne. apply dict_get_set_other. congruence.
  - intros name. destruct (String.eqb primary_meter name) eqn:E.
    + apply String.eqb_eq in E. subst name.
      rewrite dict_get_set_same, Ep. simpl.
      rewrite subtract_loop_timestamps. reflexivity.
    + apply String.eqb_neq in E. rewrite dict_get_set_other by exact E.
      reflexivity.
  - intros [Hn|Hn]; discriminate.
Qed.

(** X16. Lists newest first. When the primary list starts with its newest
    reading and the subtractive list with one of its newest (the order in
    which [_get_list_readings] returns the entries of a list written in
    the order of time), [apply_subtractive_meter] changes at most the
    first reading of the primary list: it subtracts the first subtractive
    reading when the two were taken at the same time, and leaves every
    later reading as it was. *)
Theorem subtractive_meter_newest_first `{LocalClock} `{FloatModel}
        `{!FloatArith} (self : ReadingService)
        (primary_meter subtractive_meter : string)
        (r0 s0 : MeterReading) (rest srest : list MeterReading) :
  primary_meter <> subtractive_meter ->
  __getitem__ self primary_meter = Some (r0 :: rest) ->
  __getitem__ self subtractive_meter = Some (s0 :: srest) ->
  Forall (fun r => wall (timestamp r) < wall (timestamp r0)) rest ->
  Forall (fun s => wall (timestamp s) <= wall (timestamp s0)) srest ->
  __getitem__ (apply_subtractive_meter self primary_meter subtractive_meter)
              primary_meter
  = Some ((if wall (timestamp s0) =? wall (timestamp r0)
           then subtract r0 s0 else r0) :: rest).
Proof.
  unfold __getitem__, apply_subtractive_meter.
  intros Hne Hp Hs Hrest Hsrest. rewrite Hp, Hs. simpl meter.
  rewrite dict_get_set_same. f_equal.
  apply String.eqb_neq in Hne. rewrite Hne.
  cbn [subtract_loop]. cbv beta iota zeta. unfold advance.
  simpl skipn. cbn [advance_from].
  destruct (wall (timestamp s0) <? wall (timestamp r0)) eqn:E.
  - apply Z.ltb_lt in E.
    rewrite advance_from_all.
    2:{ eapply Forall_impl; [|exact Hsrest]. intros x Hx. simpl in Hx. lia. }
    simpl. rewrite Nat.eqb_refl.
    destruct (wall (timestamp s0) =? wall (timestamp r0)) eqn:E';
      [apply Z.eqb_eq in E'; lia | reflexivity].
  - apply Z.ltb_ge in E. cbn [Nat.eqb List.length nth_error].
    cbv beta iota.
    assert (Hold : Forall (fun r => wall (timestamp r) < wall (timestamp s0))
                          rest).
    { eapply Forall_impl; [|exact Hrest]. intros x Hx. simpl in Hx. lia. }
    destruct (wall (timestamp s0) =? wall (timestamp r0));
      rewrite subtract_loop_older by exact Hold; reflexivity.
Qed.

Lemma subtractive_newest_first_witness :
  __getitem__ (H0 := Decimal)
    (apply_subtractive_meter (H1 := DecimalArith)
       descending "house" "heater") "house"
  = Some ((if wall (timestamp (reading 10800 (25, 1%nat)))
              =? wall (timestamp (reading 10800 (9, 0%nat)))
           then subtract (H1 := DecimalArith)
                  (reading 10800 (9, 0%nat)) (reading 10800 (25, 1%nat))
           else reading 10800 (9, 0%nat))
          :: [reading 7200 (75, 1%nat); reading 3600 (5, 0%nat)]).
Proof.
  apply (subtractive_meter_newest_first (H := UTC) (H0 := Decimal)
           (H1 := DecimalArith) descending "house" "heater"
           (reading 10800 (9, 0%nat)) (reading 10800 (25, 1%nat))
           [reading 7200 (75, 1%nat); reading 3600 (5, 0%nat)]
           [reading 3600 (2, 0%nat)]).
  - discriminate.
  - reflexivity.
  - reflexivity.
  - repeat constructor.
  - repeat constructor. simpl. lia.
Defined.

(** X17. Lists oldest first. When both lists are in the order of time,
    oldest reading first, and under two different names,
    [apply_subtractive_meter] replaces every reading of the primary list
    by what [adjusted] makes of it: the reading less the first subtractive
    reading taken at the same time, or the reading itself when there is
    none. *)
Theorem subtractive_meter_oldest_first `{LocalClock} `{FloatModel}
        `{!FloatArith} (self : ReadingService)
        (primary_meter subtractive_meter : string)
        (primary subtractive : list MeterReading) :
  primary_meter <> subtractive_meter ->
  __getitem__ self primary_meter = Some primary ->
  __getitem__ self subtractive_meter = Some subtractive ->
  oldest_first primary ->
  oldest_first subtractive ->
  __getitem__ (apply_subtractive_meter self primary_meter subtractive_meter)
              primary_meter
  = Some (map (adjusted subtractive) primary).
Proof.
  unfold __getitem__, apply_subtractive_meter.
  intros Hne Hp Hs Hprim Hsub. rewrite Hp, Hs. simpl meter.
  rewrite dict_get_set_same. f_equal.
  apply String.eqb_neq in Hne. rewrite Hne.
  exact (subtract_loop_sorted primary [] [] subtractive Hprim Hsub
           (Forall_nil _)).
Qed.

Lemma subtractive_oldest_first_witness :
  __getitem__ (H0 := Decimal)
    (apply_subtractive_meter (H1 := DecimalArith)
       ascending "house" "heater") "house"
  = Some (map (adjusted (H1 := DecimalArith)
                 [reading 3600 (2, 0%nat); reading 10800 (25, 1%nat)])
              [reading 3600 (5, 0%nat); reading 7200 (75, 1%nat);
               reading 10800 (9, 0%nat)]).
Proof.
  apply (subtractive_meter_oldest_first (H := UTC) (H0 := Decimal)
           (H1 := DecimalArith) ascending "house" "heater").
  - discriminate.
  - reflexivity.
  - reflexivity.
  - simpl. repeat split; repeat constructor; simpl; lia.
  - simpl. repeat split; repeat constructor; simpl; lia.
Defined.

Example subtractive_oldest_first_values :
  map (adjusted (H0 := Decimal) (H1 := DecimalArith)
         [reading 3600 (2, 0%nat); reading 10800 (25, 1%nat)])
      [reading 3600 (5, 0%nat); reading 7200 (75, 1%nat);
       reading 10800 (9, 0%nat)]
  = [reading 3600 (3, 0%nat); reading 7200 (75, 1%nat);
     reading 10800 (65, 1%nat)].
Proof. reflexivity. Qed.

(** X20. A meter subtracted from itself. When both names are the same
    meter and its list is in time order, oldest first, without two
    readings of the same time, [apply_subtractive_meter] subtracts from
    every reading its own value: the list is its own subtractive list, and
    each reading is met while it is changed. *)
Theorem subtractive_meter_from_itself `{LocalClock} `{FloatModel}
        `{!FloatArith} (self : ReadingService) (meter_name : string)
        (readings : list MeterReading) :
  __getitem__ self meter_name = Some readings ->
  strictly_oldest_first readings ->
  __getitem__ (apply_subtractive_meter self meter_name meter_name) meter_name
  = Some (map (fun r => subtract r r) readings).
Proof.
  unfold __getitem__, apply_subtractive_meter.
  intros Hp Hs. rewrite Hp. simpl meter.
  rewrite dict_get_set_same. f_equal. rewrite String.eqb_refl.
  apply (subtract_loop_same readings [] readings 0%nat Hs).
  - simpl. lia.
  - constructor.
Qed.

Lemma subtractive_from_itself_witness :
  __getitem__ (H0 := Decimal)
    (apply_subtractive_meter (H1 := DecimalArith)
       ascending "heater" "heater") "heater"
  = Some (map (fun r => subtract (H1 := DecimalArith) r r)
              [reading 3600 (2, 0%nat); reading 10800 (25, 1%nat)]).
Proof.
  apply (subtractive_meter_from_itself (H := UTC) (H0 := Decimal)
           (H1 := DecimalArith) ascending "heater").
  - reflexivity.
  - simpl. repeat split; repeat constructor; simpl; lia.
Defined.

End SubtractiveProperties.

(** * The text of a response *)

Module TextFacts.

Import Text Parse ReadingSvc.

Lemma append_nil_r s : (s ++ "")%string = s.
Proof. induction s as [|c t IH]; simpl; [reflexivity | rewrite IH; reflexivity]. Qed.

Lemma append_assoc a b c : ((a ++ b) ++ c)%string = (a ++ (b ++ c))%string.
Proof. induction a as [|x a IH]; simpl; [reflexivity | rewrite IH; reflexivity]. Qed.

Lemma length_append a b :
  String.length (a ++ b) = (String.length a + String.length b)%nat.
Proof. induction a as [|x a IH]; simpl; [reflexivity | rewrite IH; reflexivity]. Qed.

Lemma drop_append a b : drop (String.length a) (a ++ b) = b.
Proof. induction a as [|x a IH]; simpl; [destruct b; reflexivity | exact IH]. Qed.

Lemma take_append a b : take (String.length a) (a ++ b) = a.
Proof.
  induction a as [|x a IH]; simpl; [reflexivity | rewrite IH; reflexivity].
Qed.

Lemma string_rev_acc_twice s :
  forall acc acc',
    string_rev_acc (string_rev_acc s acc) acc'
    = string_rev_acc acc (s ++ acc').
Proof.
  induction s as [|c t IH]; intros acc acc'; simpl; [reflexivity|].
  rewrite IH. reflexivity.
Qed.

Lemma string_rev_involutive s : string_rev (string_rev s) = s.
Proof.
  unfold string_rev. rewrite string_rev_acc_twice. simpl.
  apply append_nil_r.
Qed.

Lemma string_rev_acc_append a b acc :
  string_rev_acc (a ++ b) acc = string_rev_acc b (string_rev_acc a acc).
Proof.
  revert acc. induction a as [|x a IH]; intros acc; simpl; [reflexivity|].
  apply IH.
Qed.

Lemma string_rev_snoc a c :
  string_rev (a ++ String c "") = String c (string_rev a).
Proof. unfold string_rev. rewrite string_rev_acc_append. reflexivity. Qed.

(** Nothing to strip from a text that ends in a character that stays. *)
Lemma rstrip_ws_last a c :
  is_space c = false ->
  rstrip_ws (a ++ String c "") = (a ++ String c "")%string.
Proof.
  intros Hc. unfold rstrip_ws. rewrite string_rev_snoc. simpl. rewrite Hc.
  rewrite <- string_rev_snoc. apply string_rev_involutive.
Qed.

Lemma rstrip_char_last a c d :
  Ascii.eqb c d = false ->
  py_rstrip_char d (a ++ String c "") = (a ++ String c "")%string.
Proof.
  intros Hc. unfold py_rstrip_char. rewrite string_rev_snoc. simpl.
  rewrite Hc. rewrite <- string_rev_snoc. apply string_rev_involutive.
Qed.

Lemma last_char_snoc a c : last_char (a ++ String c "") = OK c.
Proof.
  induction a as [|x a IH]; simpl; [reflexivity|].
  destruct (a ++ String c "")%string eqn:E; [destruct a; discriminate|].
  exact IH.
Qed.

(** [replace] passes over a stretch in which the first character of the
    text to replace does not occur. *)
Lemma replace_fuel_free c0 old' new a rest (n : nat) :
  free_of c0 a = true ->
  replace_fuel (String.length a + n) (String c0 old') new (a ++ rest)
  = (a ++ replace_fuel n (String c0 old') new rest)%string.
Proof.
  induction a as [|x a IH]; intros Hfree; [reflexivity|].
  cbn [free_of] in Hfree. apply andb_prop in Hfree as [Hx Ha].
  apply negb_true_iff in Hx.
  cbn [String.length plus append replace_fuel String.prefix].
  destruct (ascii_dec c0 x) as [->|Hne].
  - rewrite Ascii.eqb_refl in Hx. discriminate.
  - rewrite IH by exact Ha. reflexivity.
Qed.

Lemma rfind_from_free c s :
  free_of c s = true -> forall k last, rfind_from c s k last = last.
Proof.
  induction s as [|d t IH]; intros Hfree k last; [reflexivity|].
  cbn [free_of] in Hfree. apply andb_prop in Hfree as [Hd Ht].
  apply negb_true_iff in Hd. simpl. rewrite Hd. apply IH. exact Ht.
Qed.

Lemma rfind_from_append c a b :
  forall k last,
    rfind_from c (a ++ b) k last
    = rfind_from c b (k + Z.of_nat (String.length a)) (rfind_from c a k last).
Proof.
  induction a as [|x a IH]; intros k last.
  - simpl. rewrite Z.add_0_r. reflexivity.
  - cbn [append rfind_from String.length]. rewrite IH.
    f_equal. lia.
Qed.

(** The last occurrence, when nothing after it is the character. *)
Lemma py_rfind_last c a b :
  free_of c b = true ->
  py_rfind c (a ++ String c b) = Z.of_nat (String.length a).
Proof.
  intros Hfree. unfold py_rfind. rewrite rfind_from_append.
  cbn [rfind_from]. rewrite Ascii.eqb_refl.
  rewrite rfind_from_free by exact Hfree. lia.
Qed.

Lemma free_of_append c a b :
  free_of c (a ++ b) = free_of c a && free_of c b.
Proof.
  induction a as [|x a IH]; simpl; [reflexivity|].
  rewrite IH. apply andb_assoc.
Qed.

Lemma clamp_index_front len i : 0 <= i <= len -> clamp_index len i = i.
Proof.
  intros Hi. unfold clamp_index.
  destruct (i <? 0) eqn:E; [apply Z.ltb_lt in E; lia | lia].
Qed.

Lemma clamp_index_back len i :
  - len <= i < 0 -> clamp_index len i = i + len.
Proof.
  intros Hi. unfold clamp_index.
  destruct (i <? 0) eqn:E; [lia | apply Z.ltb_ge in E; lia].
Qed.

Lemma py_substr_cut a b c (i j : Z) :
  clamp_index (Z.of_nat (String.length (a ++ b ++ c))) i
  = Z.of_nat (String.length a) ->
  clamp_index (Z.of_nat (String.length (a ++ b ++ c))) j
  = Z.of_nat (String.length a + String.length b) ->
  py_substr (a ++ b ++ c) i j = b.
Proof.
  intros Hi Hj. unfold py_substr. cbv zeta. rewrite Hi, Hj.
  destruct (_ <? _) eqn:E3.
  - rewrite Nat2Z.id. rewrite drop_append.
    replace (Z.to_nat (Z.of_nat (String.length a + String.length b)
                       - Z.of_nat (String.length a)))
      with (String.length b) by lia.
    apply take_append.
  - apply Z.ltb_ge in E3. destruct b; [reflexivity | simpl in E3; lia].
Qed.

(** [s[a:b]] for a stretch in the middle, the end counted from the front
    or from the back. *)
Lemma py_substr_middle a b c :
  py_substr (a ++ b ++ c) (Z.of_nat (String.length a))
            (Z.of_nat (String.length a + String.length b)) = b.
Proof.
  apply py_substr_cut; apply clamp_index_front; rewrite !length_append; lia.
Qed.

Lemma py_substr_from_end a b c :
  (0 < String.length c)%nat ->
  py_substr (a ++ b ++ c) (Z.of_nat (String.length a))
            (- Z.of_nat (String.length c)) = b.
Proof.
  intros Hc. apply py_substr_cut.
  - apply clamp_index_front. rewrite !length_append. lia.
  - rewrite clamp_index_back; rewrite !length_append; lia.
Qed.

Lemma length_drop k s : String.length (drop k s) = (String.length s - k)%nat.
Proof.
  revert s. induction k as [|k IH]; intros s; simpl; [lia|].
  destruct s as [|c t]; simpl; [reflexivity | apply IH].
Qed.

(** Any bound from the length of the text on gives the same result. *)
Lemma replace_fuel_enough c0 old' new :
  forall n m s,
    (String.length s <= n)%nat -> (String.length s <= m)%nat ->
    replace_fuel n (String c0 old') new s
    = replace_fuel m (String c0 old') new s.
Proof.
  induction n as [|n IH]; intros m s Hn Hm.
  - destruct s; [|simpl in Hn; lia]. destruct m; reflexivity.
  - destruct s as [|c t]; [destruct m; reflexivity|].
    destruct m as [|m]; [simpl in Hm; lia|].
    cbn [replace_fuel].
    destruct (String.prefix (String c0 old') (String c t)).
    + f_equal. apply IH; rewrite length_drop; simpl in *; lia.
    + f_equal. apply IH; simpl in *; lia.
Qed.

Lemma py_replace_free c0 old' new a rest :
  free_of c0 a = true ->
  py_replace (String c0 old') new (a ++ rest)
  = (a ++ py_replace (String c0 old') new rest)%string.
Proof.
  intros Hfree. unfold py_replace. rewrite length_append.
  apply replace_fuel_free. exact Hfree.
Qed.

Lemma prefix_append a b : String.prefix a (a ++ b) = true.
Proof.
  induction a as [|c a IH]; simpl; [destruct b; reflexivity|].
  destruct (ascii_dec c c) as [_|Hne]; [exact IH | congruence].
Qed.

Lemma py_replace_hit c0 old' new rest :
  py_replace (String c0 old') new (String c0 old' ++ rest)
  = (new ++ py_replace (String c0 old') new rest)%string.
Proof.
  unfold py_replace. cbn [append String.length replace_fuel drop].
  rewrite drop_append.
  change (String c0 (old' ++ rest)) with (String c0 old' ++ rest)%string.
  rewrite prefix_append. f_equal.
  apply replace_fuel_enough; rewrite ?length_append; lia.
Qed.

Lemma rstrip_char_once a c d :
  Ascii.eqb c d = false ->
  py_rstrip_char d (a ++ String c (String d ""))
  = (a ++ String c "")%string.
Proof.
  intros Hc. unfold py_rstrip_char.
  replace (a ++ String c (String d ""))%string
    with ((a ++ String c "") ++ String d "")%string
    by (rewrite append_assoc; reflexivity).
  rewrite !string_rev_snoc. cbn [lstrip_char]. rewrite Ascii.eqb_refl, Hc.
  rewrite <- string_rev_snoc. apply string_rev_involutive.
Qed.

(** The call depends on its argument through the header test and the
    normalized text only. *)
Lemma transform_congruence d1 d2 :
  py_substr d1 0 5 = "//OK[" -> py_substr d2 0 5 = "//OK[" ->
  normalized d1 = normalized d2 ->
  _transform_data_to_list d1 = _transform_data_to_list d2.
Proof.
  intros H1 H2 Hn. unfold _transform_data_to_list. rewrite H1, H2.
  cbn [String.eqb Ascii.eqb Bool.eqb negb]. cbv zeta.
  unfold normalized in Hn. rewrite Hn. reflexivity.
Qed.

Lemma layout_header body meta : py_substr (layout body meta) 0 5 = "//OK[".
Proof.
  unfold layout.
  exact (py_substr_middle "" "//OK[" (body ++ ",[" ++ meta ++ "],0,7]")).
Qed.

(** The text of the plain layout is normalized already. *)
Lemma normalized_layout body meta :
  free_of "]" body = true -> free_of "]" meta = true ->
  normalized (layout body meta) = layout body meta.
Proof.
  intros Hb2 Hm2. unfold normalized.
  assert (Hlast : layout body meta
                  = (("//OK[" ++ body ++ ",[" ++ meta ++ "],0,7") ++ "]")%string).
  { unfold layout. rewrite !append_assoc. reflexivity. }
  assert (Hstrip : py_strip (layout body meta) = layout body meta).
  { unfold py_strip. replace (lstrip_ws (layout body meta))
      with (layout body meta) by reflexivity.
    rewrite Hlast. apply rstrip_ws_last. reflexivity. }
  rewrite Hstrip.
  assert (Hfree : free_of "]" ("//OK[" ++ body ++ ",[" ++ meta) = true).
  { rewrite !free_of_append. rewrite Hb2, Hm2. reflexivity. }
  assert (Hsplit : layout body meta
                   = (("//OK[" ++ body ++ ",[" ++ meta) ++ "],0,7]")%string).
  { unfold layout. rewrite !append_assoc. reflexivity. }
  assert (Hrep : forall old' new,
             py_replace (String "]" old') new "],0,7]" = "],0,7]" ->
             py_replace (String "]" old') new (layout body meta)
             = layout body meta).
  { intros old' new Hp. rewrite Hsplit.
    rewrite py_replace_free by exact Hfree. rewrite Hp. reflexivity. }
  rewrite (Hrep ".concat([" "," eq_refl).
  rewrite (Hrep ").concat([" "," eq_refl).
  rewrite (Hrep ",[" "," eq_refl).
  rewrite Hlast. apply rstrip_char_last. reflexivity.
Qed.

(** The text cut by [concat] is normalized to the text of the plain
    layout. *)
Lemma normalized_concat_layout body1 body2 meta :
  free_of "]" body1 = true -> free_of "]" body2 = true ->
  free_of "]" meta = true ->
  normalized (concat_layout body1 body2 meta)
  = layout (body1 ++ "," ++ body2) meta.
Proof.
  intros H1 H2 Hm. unfold normalized.
  assert (Hstrip : py_strip (concat_layout body1 body2 meta)
                   = concat_layout body1 body2 meta).
  { unfold py_strip.
    replace (lstrip_ws (concat_layout body1 body2 meta))
      with (concat_layout body1 body2 meta) by reflexivity.
    replace (concat_layout body1 body2 meta)
      with (("//OK[" ++ body1 ++ "].concat([" ++ body2 ++ ",[" ++ meta
                     ++ "],0,7]") ++ ")")%string
      by (unfold concat_layout; rewrite !append_assoc; reflexivity).
    apply rstrip_ws_last. reflexivity. }
  rewrite Hstrip.
  assert (Hf1 : free_of "]" ("//OK[" ++ body1) = true)
    by (rewrite free_of_append, H1; reflexivity).
  assert (Hf2 : free_of "]" (body2 ++ ",[" ++ meta) = true)
    by (rewrite !free_of_append, H2, Hm; reflexivity).
  assert (Hcut : py_replace "].concat([" "," (concat_layout body1 body2 meta)
                 = (("//OK[" ++ body1 ++ "," ++ body2 ++ ",[" ++ meta)
                    ++ "],0,7])")%string).
  { replace (concat_layout body1 body2 meta)
      with (("//OK[" ++ body1)
            ++ "].concat([" ++ (body2 ++ ",[" ++ meta) ++ "],0,7])")%string
      by (unfold concat_layout; rewrite !append_assoc; reflexivity).
    rewrite py_replace_free by exact Hf1.
    rewrite py_replace_hit.
    rewrite py_replace_free by exact Hf2.
    change (py_replace "].concat([" "," "],0,7])") with "],0,7])".
    rewrite !append_assoc. reflexivity. }
  rewrite Hcut.
  assert (Hf3 : free_of "]" ("//OK[" ++ body1 ++ "," ++ body2 ++ ",[" ++ meta)
                = true)
    by (rewrite !free_of_append, H1, H2, Hm; reflexivity).
  rewrite (py_replace_free "]" ").concat([" _ _ _ Hf3).
  change (py_replace "]).concat([" "," "],0,7])") with "],0,7])".
  rewrite (py_replace_free "]" ",[" _ _ _ Hf3).
  change (py_replace "],[" "," "],0,7])") with "],0,7])".
  replace (("//OK[" ++ body1 ++ "," ++ body2 ++ ",[" ++ meta) ++ "],0,7])")%string
    with (("//OK[" ++ body1 ++ "," ++ body2 ++ ",[" ++ meta ++ "],0,7")
          ++ String "]" (String ")" ""))%string
    by (rewrite !append_assoc; reflexivity).
  rewrite rstrip_char_once by reflexivity.
  unfold layout. rewrite !append_assoc. reflexivity.
Qed.

(** The normal form of a response in the vendor's layout. *)
Lemma transform_layout (body meta : string) :
  free_of "[" body = true -> free_of "]" body = true ->
  free_of "[" meta = true -> free_of "]" meta = true ->
  _transform_data_to_list (layout body meta)
  = (meter_names <- _extract_meters (py_split "," ("[" ++ meta ++ "],")) ;;
     OK (rev meter_names, py_split "," (body ++ ","))).
Proof.
  intros Hb1 Hb2 Hm1 Hm2. unfold _transform_data_to_list.
  assert (Hhead : py_substr (layout body meta) 0 5 = "//OK[").
  { unfold layout.
    exact (py_substr_middle "" "//OK[" (body ++ ",[" ++ meta ++ "],0,7]")). }
  rewrite Hhead. cbn [String.eqb Ascii.eqb Bool.eqb negb].
  assert (Hlast : layout body meta
                  = (("//OK[" ++ body ++ ",[" ++ meta ++ "],0,7") ++ "]")%string).
  { unfold layout. rewrite !append_assoc. reflexivity. }
  assert (Hstrip : py_strip (layout body meta) = layout body meta).
  { unfold py_strip. replace (lstrip_ws (layout body meta))
      with (layout body meta) by reflexivity.
    rewrite Hlast. apply rstrip_ws_last. reflexivity. }
  rewrite Hstrip.
  assert (Hfree : free_of "]" ("//OK[" ++ body ++ ",[" ++ meta) = true).
  { rewrite !free_of_append. rewrite Hb2, Hm2. reflexivity. }
  assert (Hrep : forall old' new,
             String.prefix (String "]" old') "],0,7]" = false ->
             py_replace (String "]" old') new (layout body meta)
             = layout body meta).
  { intros old' new Hp. unfold py_replace.
    replace (layout body meta)
      with (("//OK[" ++ body ++ ",[" ++ meta) ++ "],0,7]")%string
      by (unfold layout; rewrite !append_assoc; reflexivity).
    rewrite length_append.
    rewrite replace_fuel_free by exact Hfree.
    f_equal.
    change (String.length "],0,7]") with 6%nat.
    cbn [replace_fuel]. rewrite Hp.
    cbn [String.prefix]. 
    destruct old' as [|c1 old']; [discriminate Hp|].
    reflexivity. }
  rewrite (Hrep ".concat([" "," eq_refl).
  rewrite (Hrep ").concat([" "," eq_refl).
  rewrite (Hrep ",[" "," eq_refl).
  assert (Hrstrip : py_rstrip_char ")" (layout body meta) = layout body meta).
  { rewrite Hlast. apply rstrip_char_last. reflexivity. }
  rewrite Hrstrip.
  assert (Hend : last_char (layout body meta) = OK "]"%char).
  { rewrite Hlast. apply last_char_snoc. }
  rewrite Hend. cbn [bind Ascii.eqb Bool.eqb negb].
  assert (Hfind : py_rfind "[" (layout body meta)
                  = Z.of_nat (String.length ("//OK[" ++ body ++ ","))).
  { replace (layout body meta)
      with (("//OK[" ++ body ++ ",") ++ String "[" (meta ++ "],0,7]"))%string
      by (unfold layout; rewrite !append_assoc; reflexivity).
    apply py_rfind_last. rewrite free_of_append, Hm1. reflexivity. }
  rewrite Hfind.
  destruct (_ =? 4) eqn:E4.
  { apply Z.eqb_eq in E4. rewrite length_append in E4. simpl in E4. lia. }
  assert (Hmeta : py_substr (layout body meta)
                    (Z.of_nat (String.length ("//OK[" ++ body ++ ","))) (-4)
                  = ("[" ++ meta ++ "],")%string).
  { replace (layout body meta)
      with (("//OK[" ++ body ++ ",") ++ ("[" ++ meta ++ "],") ++ "0,7]")%string
      by (unfold layout; rewrite !append_assoc; reflexivity).
    apply (py_substr_from_end _ _ "0,7]"). simpl. lia. }
  assert (Hbody : py_substr (layout body meta) 5
                    (Z.of_nat (String.length ("//OK[" ++ body ++ ",")))
                  = (body ++ ",")%string).
  { replace (layout body meta)
      with ("//OK[" ++ (body ++ ",") ++ ("[" ++ meta ++ "],0,7]"))%string
      by (unfold layout; rewrite !append_assoc; reflexivity).
    replace (String.length ("//OK[" ++ body ++ ","))
      with (String.length "//OK[" + String.length (body ++ ","))%nat
      by (rewrite !length_append; reflexivity).
    exact (py_substr_middle "//OK[" (body ++ ",") _). }
  rewrite Hmeta, Hbody. reflexivity.
Qed.

End TextFacts.

Module TextProperties.

Import Text Parse ReadingSvc TextFacts.
Import Fixtures.

(** X18. The vendor's layout. On a response that is the header [//OK[],
    data text in which no bracket occurs, a comma, the metadata text
    between brackets, with no bracket inside, and the footer [,0,7]],
    [_transform_data_to_list] hands [_extract_meters] the tokens of the
    metadata text with its brackets and the comma after it (so the first
    token starts with ['['] and the last two are one that ends in [']']
    and an empty one), and returns the names reversed with the tokens of
    the data text and its comma (so the last token is empty). *)
Theorem transform_splits_the_layout (body meta : string) :
  free_of "[" body = true -> free_of "]" body = true ->
  free_of "[" meta = true -> free_of "]" meta = true ->
  _transform_data_to_list (layout body meta)
  = (meter_names <- _extract_meters (py_split "," ("[" ++ meta ++ "],")) ;;
     OK (rev meter_names, py_split "," (body ++ ","))).
Proof.
  intros Hb1 Hb2 Hm1 Hm2. apply transform_layout; assumption.
Qed.

Lemma transform_layout_witness :
  _transform_data_to_list
    (layout "3,0.5,10,VdPMRgA,9,0,0,1,0,0,8,24" one_meter)
  = (meter_names <- _extract_meters (py_split "," ("[" ++ one_meter ++ "],")) ;;
     OK (rev meter_names,
         py_split "," ("3,0.5,10,VdPMRgA,9,0,0,1,0,0,8,24" ++ ","))).
Proof.
  apply transform_splits_the_layout; vm_compute; reflexivity.
Defined.

(** X21. A response cut by [concat]. When the vendor cuts the data in two
    and hands the second part to javascript's [concat]
    ([//OK[a].concat([b,[metadata],0,7])]), [_transform_data_to_list]
    returns what it returns on the uncut response
    ([//OK[a,b,[metadata],0,7]]), as long as no closing bracket occurs in
    the two parts and in the metadata. *)
Theorem transform_joins_the_concat (body1 body2 meta : string) :
  free_of "]" body1 = true -> free_of "]" body2 = true ->
  free_of "]" meta = true ->
  _transform_data_to_list (concat_layout body1 body2 meta)
  = _transform_data_to_list (layout (body1 ++ "," ++ body2) meta).
Proof.
  intros H1 H2 Hm. apply transform_congruence.
  - unfold concat_layout.
    exact (py_substr_middle "" "//OK["
             (body1 ++ "].concat([" ++ body2 ++ ",[" ++ meta ++ "],0,7])")).
  - apply layout_header.
  - rewrite normalized_concat_layout by assumption.
    rewrite normalized_layout; [reflexivity | | exact Hm].
    rewrite !free_of_append, H1, H2. reflexivity.
Qed.

Lemma transform_concat_witness :
  _transform_data_to_list
    (concat_layout "3,0.5,10,VdPMRgA,9" "0,0,1,0,0,8,24" one_meter)
  = _transform_data_to_list
      (layout ("3,0.5,10,VdPMRgA,9" ++ "," ++ "0,0,1,0,0,8,24") one_meter).
Proof.
  apply transform_joins_the_concat; vm_compute; reflexivity.
Defined.

End TextProperties.

(** * A whole response, end to end *)

Module ResponseFacts.

Import TimeUtils Parse ReadingSvc ReadingSvcMethods Pairing Text Response
       PyFacts TextFacts ServiceFacts.

Lemma split_acc_free c t :
  free_of c t = true ->
  forall s cur, split_acc c (t ++ s) cur = split_acc c s (string_rev_acc t cur).
Proof.
  induction t as [|d t IH]; intros Hfree s cur; [reflexivity|].
  cbn [free_of] in Hfree. apply andb_prop in Hfree as [Hd Ht].
  apply negb_true_iff in Hd.
  cbn [append split_acc string_rev_acc]. rewrite Hd. apply IH. exact Ht.
Qed.

(** Splitting what [join] wrote, with a comma after the last token. *)
Lemma py_split_join toks :
  toks <> [] ->
  Forall (fun t => free_of "," t = true) toks ->
  py_split "," (join toks ++ ",") = toks ++ [""].
Proof.
  unfold py_split. induction toks as [|t toks IH]; intros Hne Hall;
    [congruence|].
  inversion Hall as [|? ? Ht Hrest]; subst.
  destruct toks as [|t' toks].
  - cbn [join app]. rewrite (split_acc_free _ _ Ht).
    cbn [split_acc]. rewrite Ascii.eqb_refl.
    change (string_rev_acc t "") with (string_rev t).
    rewrite string_rev_involutive. reflexivity.
  - cbn [join]. rewrite !append_assoc.
    rewrite (split_acc_free _ _ Ht).
    cbn [append split_acc]. rewrite Ascii.eqb_refl.
    change (string_rev_acc t "") with (string_rev t).
    rewrite string_rev_involutive. cbn [app]. f_equal.
    apply IH; [discriminate | exact Hrest].
Qed.

Lemma free_of_join c toks :
  Ascii.eqb "," c = false ->
  Forall (fun t => free_of c t = true) toks ->
  free_of c (join toks) = true.
Proof.
  intros Hc. induction toks as [|t toks IH]; intros Hall; [reflexivity|].
  inversion Hall as [|? ? Ht Hrest]; subst.
  destruct toks as [|t' toks]; [exact Ht|].
  cbn [join]. rewrite free_of_append, Ht.
  cbn [append free_of andb]. rewrite Hc. cbn [negb andb].
  apply IH. exact Hrest.
Qed.

Section Assign.
Context `{LocalClock} `{FloatModel}.

Lemma dict_set_absent (d : dict) k v :
  dict_get d k = None -> dict_set d k v = d ++ [(k, v)].
Proof.
  induction d as [|[k0 w0] d IH]; simpl; [reflexivity|].
  destruct (String.eqb k0 k); [discriminate|].
  intros Hg. rewrite IH by exact Hg. reflexivity.
Qed.

(** Distinct names that are new to the dictionary are added in order. *)
Lemma assign_fresh (lists : list (list MeterReading)) :
  forall popped d,
    NoDup (map fst d ++ popped) ->
    List.length lists = List.length popped ->
    assign popped lists d = OK ([], d ++ combine popped lists).
Proof.
  induction lists as [|l lists IH]; intros popped d Hnd Hlen.
  - destruct popped; [|discriminate]. simpl. rewrite app_nil_r. reflexivity.
  - destruct popped as [|name popped]; [discriminate|]. simpl.
    assert (Habs : dict_get d name = None).
    { apply dict_get_keys. intros Hin.
      apply NoDup_remove_2 in Hnd. apply Hnd. apply in_or_app. auto. }
    rewrite dict_set_absent by exact Habs.
    rewrite IH.
    + rewrite <- app_assoc. reflexivity.
    + rewrite map_app. simpl. rewrite <- app_assoc. exact Hnd.
    + simpl in Hlen. lia.
Qed.

End Assign.

End ResponseFacts.

Module ResponseProperties.

Import TimeUtils Parse ReadingSvc ReadingSvcMethods Pairing Text Response
       PyFacts ScanFacts TextFacts ServiceFacts ResponseFacts
       MetadataFacts PerMeterListFacts GeneratorFacts ReadingSvcClaims.
Import Host Fixtures ListFixtures ServiceFixtures.

(** X19. A whole response. Take a response in the vendor's layout whose
    data tokens are a preamble ending in ['3'], per-meter lists that can be
    found, tokens, the terminal marker ['11'] and well-formed combined
    entries, none of the tokens after the last list being ['24'], and
    whose metadata gives as many distinct names as there are lists. Then
    [readings_from_reading_service] returns the service that holds the
    combined readings, oldest first, and under the names, in the order of
    the metadata, the lists of readings in the reverse of their order in
    the stream, each list newest first; the log is that of the combined
    decoder. *)
Theorem response_is_decoded `{LocalClock} `{FloatModel}
        (g : Globals) (front : list string)
        (ls : list (list PerMeterList.entry * list string))
        (mid : list string) (ces : list Combined.entry)
        (rss : list (list MeterReading)) (crs : list MeterReading)
        (meta : string) (names : list string) :
  Forall (fun t => plain_token t = true) (stream front ls mid ces) ->
  free_of "[" meta = true -> free_of "]" meta = true ->
  _extract_meters (py_split "," ("[" ++ meta ++ "],")) = OK names ->
  NoDup names ->
  List.length names = List.length ls ->
  Forall PerMeterList.findable ls ->
  Forall2 (fun l rs => Forall2 (PerMeterList.denotes g crs) (fst l) rs)
          ls rss ->
  Forall2 Combined.well_formed ces crs ->
  Forall (fun tok => String.eqb tok "24" = false)
         (mid ++ "11" :: Combined.region ces) ->
  exists before,
    py_getitem (stream front ls mid ces)
      (Z.of_nat (List.length
                   (front ++ "3" :: PerMeterList.lists_stream ls ++ mid)) - 2)
    = OK before
    /\ readings_from_reading_service g (layout (join (stream front ls mid ces))
                                               meta)
       = OK (Combined.exit_log before,
             mkReadingService crs (combine names (rev (map (@rev _) rss)))).
Proof.
  intros Hplain Hm1 Hm2 Hnames Hnd Hlen Hfind Hden Hwf Hno24.
  set (pre := front ++ "3" :: PerMeterList.lists_stream ls ++ mid).
  assert (Hstream : stream front ls mid ces
                    = pre ++ "11" :: Combined.region ces).
  { unfold stream, pre. rewrite <- ?app_assoc. simpl.
    rewrite <- ?app_assoc. reflexivity. }
  assert (Hls : ls <> []).
  { intros ->. destruct names; [|discriminate].
    apply segments_loop_nonempty in Hnames. congruence. }
  assert (Hpre2 : (2 <= List.length pre)%nat).
  { unfold pre. rewrite length_app. simpl. rewrite length_app.
    pose proof (lists_stream_length ls).
    destruct ls; [congruence | simpl in *; lia]. }
  destruct (py_getitem_total (stream front ls mid ces)
              (Z.of_nat (List.length pre) - 2)) as [before Hbefore].
  { rewrite Hstream, length_app. simpl. lia. }
  exists before. split; [exact Hbefore|].
  unfold readings_from_reading_service.
  (* the text *)
  assert (Hfree : forall c, Ascii.eqb "," c = false ->
                   (forall t, plain_token t = true -> free_of c t = true) ->
                   free_of c (join (stream front ls mid ces)) = true).
  { intros c Hc Hcf. apply free_of_join; [exact Hc|].
    eapply Forall_impl; [|exact Hplain]. exact Hcf. }
  rewrite transform_layout; [ | | | exact Hm1 | exact Hm2].
  2:{ apply Hfree; [reflexivity|]. intros t Ht. unfold plain_token in Ht.
      apply andb_prop in Ht as [Ht _]. apply andb_prop in Ht as [_ Ht].
      exact Ht. }
  2:{ apply Hfree; [reflexivity|]. intros t Ht. unfold plain_token in Ht.
      apply andb_prop in Ht as [_ Ht]. exact Ht. }
  rewrite Hnames. cbn [bind].
  rewrite py_split_join.
  2:{ rewrite Hstream. destruct pre; discriminate. }
  2:{ eapply Forall_impl; [|exact Hplain]. intros t Ht.
      unfold plain_token in Ht.
      apply andb_prop in Ht as [Ht _]. apply andb_prop in Ht as [Ht _].
      exact Ht. }
  set (csvd := stream front ls mid ces ++ [""]).
  (* the combined list *)
  assert (Hcomb : _read_combined csvd = OK (Combined.exit_log before, crs)).
  { unfold _read_combined, csvd. rewrite Hstream.
    replace ((pre ++ "11" :: Combined.region ces) ++ [""])
      with (pre ++ "11" :: Combined.region ces ++ [""])
      by (rewrite <- app_assoc; reflexivity).
    replace (Z.of_nat (List.length (pre ++ "11" :: Combined.region ces ++ [""]))
             - 1)
      with (Z.of_nat (List.length pre
                      + List.length (Combined.region ces) + 1))
      by (rewrite length_app; simpl; rewrite length_app; simpl; lia).
    rewrite (CombinedClaims.read_combined_loop_region pre ces crs [""] 1
               _ [] before Hwf).
    - simpl. rewrite rev_involutive. reflexivity.
    - repeat constructor.
    - simpl. lia.
    - rewrite length_app. simpl. rewrite length_app.
      pose proof (CombinedClaims.region_length ces). lia.
    - rewrite <- Hbefore. rewrite Hstream.
      rewrite !py_getitem_nonneg by lia.
      rewrite !nth_error_app1 by lia. reflexivity. }
  rewrite Hcomb. cbn [bind].
  (* the lists *)
  assert (Hcsvd : csvd = front ++ "3" :: PerMeterList.lists_stream ls
                    ++ (mid ++ "11" :: Combined.region ces ++ [""])).
  { unfold csvd, stream. rewrite <- ?app_assoc. simpl.
    rewrite <- ?app_assoc. reflexivity. }
  assert (Htail : Forall (fun tok => String.eqb tok "24" = false)
                         (mid ++ "11" :: Combined.region ces ++ [""])).
  { replace (mid ++ "11" :: Combined.region ces ++ [""])
      with ((mid ++ "11" :: Combined.region ces) ++ [""])
      by (rewrite <- app_assoc; reflexivity).
    apply Forall_app. split; [exact Hno24 | repeat constructor]. }
  rewrite Hcsvd.
  rewrite (generator_start_lists front ls _ Hls Htail). cbn [bind].
  rewrite (comprehension_names _ _ _ _ _ (rev (map (@rev _) rss))).
  2:{ apply generator_all_lists; auto.
      unfold generator_fuel. rewrite !length_app. simpl. rewrite length_app.
      pose proof (lists_stream_length ls). lia. }
  rewrite rev_involutive.
  rewrite assign_fresh.
  - reflexivity.
  - exact Hnd.
  - rewrite length_rev, length_map.
    apply Forall2_length in Hden. lia.
Qed.

Example two_meters_extracted :
  _extract_meters (py_split "," ("[" ++ two_meters ++ "],"))
  = OK ["meter1"; "meter2"].
Proof. vm_compute. reflexivity. Qed.

Example two_combined_entries_well_formed :
  Forall2 (Combined.well_formed (H := UTC) (H0 := Decimal))
          two_combined_entries two_combined.
Proof.
  constructor; [|constructor; [|constructor]];
    repeat split; repeat constructor.
Qed.

Lemma response_decoded_witness :
  exists before,
    py_getitem (stream ["0"] two_lists ["10"; "0"] two_combined_entries)
      (Z.of_nat (List.length
                   (["0"] ++ "3" :: PerMeterList.lists_stream two_lists
                          ++ ["10"; "0"])) - 2)
    = OK before
    /\ readings_from_reading_service (H := UTC) (H0 := Decimal) after_imports
         (layout (join (stream ["0"] two_lists ["10"; "0"]
                               two_combined_entries))
                 two_meters)
       = OK (Combined.exit_log before,
             mkReadingService two_combined
               (combine ["meter1"; "meter2"]
                  (rev (map (@rev _)
                          [one_list_readings; other_list_readings])))).
Proof.
  apply (response_is_decoded (H := UTC) (H0 := Decimal) after_imports
           ["0"] two_lists ["10"; "0"] two_combined_entries
           [one_list_readings; other_list_readings] two_combined
           two_meters ["meter1"; "meter2"]).
  - apply Forall_forall. apply (proj1 (forallb_forall plain_token _)).
    vm_compute. reflexivity.
  - vm_compute. reflexivity.
  - vm_compute. reflexivity.
  - exact two_meters_extracted.
  - repeat constructor; simpl; intuition discriminate.
  - reflexivity.
  - constructor; [split; [discriminate | repeat constructor]|].
    constructor; [split; [discriminate | repeat constructor]|]. constructor.
  - constructor; [exact ListProperties.one_list_denotes|].
    constructor; [exact ListProperties.other_list_denotes|]. constructor.
  - exact two_combined_entries_well_formed.
  - repeat constructor.
Defined.

End ResponseProperties.
